(** * process-ninja: the process execution state machine

    A shallow embedding of the three request handlers that own every
    state transition of the workflow engine:

    - [CreateProcess.POST]  (src/app/api/processes/route.ts)
    - [StepAction.POST]     (POST /api/processes/[id]/steps/[stepId]/action:
                             approve / reject / request_changes)
    - [StatusRoute.PATCH]   (src/app/api/workflows/[id]/status/route.ts)

    together with the two helper libraries they call, lib/notifications
    and lib/audit.

    The database is a record of tables.  Tables addressed by primary key
    are finite maps from the id to the row; the audit log and the
    notification table are only ever appended to by these handlers and are
    kept as lists.  A handler is a function from the request, its
    environment (session, clock, id generator) and the database to a
    response and the database after the request. *)

From Stdlib Require Import ZArith Ascii String Sorted.
From stdpp Require Import gmap strings list fin_maps.

Open Scope Z_scope.
Open Scope string_scope.

(** ** Enumerations *)

Inductive UserRole := ADMIN | APPROVER | USER.
Inductive StepType := FORM | APPROVAL | NOTIFICATION.
Inductive NotificationType := INFO | ACTION_REQUIRED | UPDATE.

(** The three status enumerations share constructor names in the schema
    (PENDING, COMPLETED, REJECTED); each lives in its own name space. *)
Module WorkflowStatus.
Inductive t := DRAFT | ACTIVE | ARCHIVED.
End WorkflowStatus.

Module ProcessStatus.
Inductive t := PENDING | IN_PROGRESS | COMPLETED | REJECTED | CHANGES_REQUESTED.
End ProcessStatus.

Module StepStatus.
Inductive t := PENDING | COMPLETED | REJECTED | SKIPPED.
End StepStatus.

#[global] Instance UserRole_eq_dec : EqDecision UserRole.
Proof. solve_decision. Defined.
#[global] Instance StepType_eq_dec : EqDecision StepType.
Proof. solve_decision. Defined.
#[global] Instance NotificationType_eq_dec : EqDecision NotificationType.
Proof. solve_decision. Defined.
#[global] Instance WorkflowStatus_eq_dec : EqDecision WorkflowStatus.t.
Proof. solve_decision. Defined.
#[global] Instance ProcessStatus_eq_dec : EqDecision ProcessStatus.t.
Proof. solve_decision. Defined.
#[global] Instance StepStatus_eq_dec : EqDecision StepStatus.t.
Proof. solve_decision. Defined.

(** ** Rows

    A row record holds the columns other than the primary key; the key is
    the index of the table.  A row read by a query travels with its key as
    a pair [(id, row)]. *)

(** JSON values, as far as the handlers look into them: request bodies,
    form data, audit snapshots. *)
Inductive Json :=
| JNull
| JString (s : string)
| JObject (fields : JsonFields)
with JsonFields :=
| JEnd
| JField (key : string) (value : Json) (rest : JsonFields).

(** A timestamp, milliseconds since the epoch. *)
Abbreviation Date := Z (only parsing).

Module User.
Record t := mk { name : option string; role : UserRole }.
End User.

Module WorkflowTemplate.
Record t := mk { name : string; status : WorkflowStatus.t }.
Definition set_status (s : WorkflowStatus.t) (w : t) : t :=
  {| name := name w; status := s |}.
End WorkflowTemplate.

Module WorkflowStep.
Record t := mk {
  workflowTemplateId : string;
  stepOrder : Z;
  stepType : StepType;
  name : string
}.
End WorkflowStep.

Module FormSchema.
Record t := mk { fields : Json }.
End FormSchema.

Module ProcessInstance.
Record t := mk {
  workflowTemplateId : string;
  createdById : string;
  formData : Json;
  status : ProcessStatus.t
}.
Definition set_status (s : ProcessStatus.t) (p : t) : t :=
  {| workflowTemplateId := workflowTemplateId p;
     createdById := createdById p;
     formData := formData p;
     status := s |}.
End ProcessInstance.

Module ProcessStepInstance.
Record t := mk {
  processInstanceId : string;
  workflowStepId : string;
  status : StepStatus.t;
  actedById : option string;
  actedAt : option Date;
  comments : option string
}.
End ProcessStepInstance.

Module AuditLog.
Record t := mk {
  processInstanceId : option string;
  action : string;
  changedById : string;
  previousValue : option Json;
  newValue : option Json;
  notes : option string
}.
End AuditLog.

Module Notification.
Record t := mk {
  userId : string;
  processInstanceId : option string;
  message : string;
  type : NotificationType;
  isRead : bool
}.
End Notification.

(** ** The database *)

Record Db := mkDb {
  users : gmap string User.t;
  workflowTemplates : gmap string WorkflowTemplate.t;
  workflowSteps : gmap string WorkflowStep.t;
  (** one-to-one with the template: keyed by the template id *)
  formSchemas : gmap string FormSchema.t;
  processInstances : gmap string ProcessInstance.t;
  processStepInstances : gmap string ProcessStepInstance.t;
  auditLogs : list AuditLog.t;
  notifications : list Notification.t
}.

Definition set_workflowTemplates (m : gmap string WorkflowTemplate.t) (d : Db) : Db :=
  mkDb (users d) m (workflowSteps d) (formSchemas d) (processInstances d)
       (processStepInstances d) (auditLogs d) (notifications d).

Definition set_processInstances (m : gmap string ProcessInstance.t) (d : Db) : Db :=
  mkDb (users d) (workflowTemplates d) (workflowSteps d) (formSchemas d) m
       (processStepInstances d) (auditLogs d) (notifications d).

Definition set_processStepInstances (m : gmap string ProcessStepInstance.t) (d : Db) : Db :=
  mkDb (users d) (workflowTemplates d) (workflowSteps d) (formSchemas d)
       (processInstances d) m (auditLogs d) (notifications d).

Definition set_auditLogs (l : list AuditLog.t) (d : Db) : Db :=
  mkDb (users d) (workflowTemplates d) (workflowSteps d) (formSchemas d)
       (processInstances d) (processStepInstances d) l (notifications d).

Definition set_notifications (l : list Notification.t) (d : Db) : Db :=
  mkDb (users d) (workflowTemplates d) (workflowSteps d) (formSchemas d)
       (processInstances d) (processStepInstances d) (auditLogs d) l.

(** ** Queries *)

(** [orderBy: { key: "asc" }]: a stable insertion sort on an integer key.
    Rows with equal keys keep the order in which the table yields them. *)
Fixpoint insertBy {A} (key : A → Z) (x : A) (l : list A) : list A :=
  match l with
  | [] => [x]
  | y :: l' => if (key x <=? key y)%Z then x :: y :: l' else y :: insertBy key x l'
  end.

Definition orderBy {A} (key : A → Z) (l : list A) : list A :=
  foldr (insertBy key) [] l.

(** [Array.prototype.find]: the first element satisfying the predicate. *)
Abbreviation find := List.find.

(** [include: { steps: { orderBy: { stepOrder: "asc" } } }] on a template. *)
Definition stepsOfTemplate (d : Db) (templateId : string)
  : list (string * WorkflowStep.t) :=
  orderBy (λ s, WorkflowStep.stepOrder s.2)
    (filter (λ s, WorkflowStep.workflowTemplateId s.2 = templateId)
       (map_to_list (workflowSteps d))).

(** A step instance joined with its workflow step
    ([include: { workflowStep: true }]). *)
Module StepWithWorkflowStep.
Record t := mk {
  id : string;
  row : ProcessStepInstance.t;
  workflowStep : WorkflowStep.t
}.
End StepWithWorkflowStep.

Definition joinWorkflowStep (d : Db) (s : string * ProcessStepInstance.t)
  : option StepWithWorkflowStep.t :=
  ws ← workflowSteps d !! ProcessStepInstance.workflowStepId s.2;
  Some (StepWithWorkflowStep.mk s.1 s.2 ws).

(** [include: { steps: { include: { workflowStep: true },
                        orderBy: { workflowStep: { stepOrder: "asc" } } } }]
    on a process.  The relation to the workflow step is required; a step
    instance whose workflow step is absent makes the query fail ([None]). *)
Definition stepsOfProcess (d : Db) (processId : string)
  : option (list StepWithWorkflowStep.t) :=
  rows ← mapM (joinWorkflowStep d)
          (filter (λ s, ProcessStepInstance.processInstanceId s.2 = processId)
             (map_to_list (processStepInstances d)));
  Some (orderBy (λ s, WorkflowStep.stepOrder (StepWithWorkflowStep.workflowStep s)) rows).

(** [findUnique] on a process with its ordered steps, as both handlers
    fetch it for the response body.  The outer [option] is the failure of
    the query, the inner one is [null]. *)
Module ProcessWithSteps.
Record t := mk {
  id : string;
  row : ProcessInstance.t;
  steps : list StepWithWorkflowStep.t
}.
End ProcessWithSteps.

Definition findProcessWithSteps (d : Db) (processId : string)
  : option (option ProcessWithSteps.t) :=
  match processInstances d !! processId with
  | None => Some None
  | Some p =>
      steps ← stepsOfProcess d processId;
      Some (Some (ProcessWithSteps.mk processId p steps))
  end.

(** ** Transactions

    [db.$transaction(async (tx) => ...)]: the body runs on the database and
    either commits a new database or throws, in which case nothing it wrote
    is kept. *)
Definition Tx (A : Type) : Type := Db → option (A * Db).

Definition tx_ret {A} (a : A) : Tx A := λ d, Some (a, d).

Definition tx_bind {A B} (m : Tx A) (k : A → Tx B) : Tx B :=
  λ d, match m d with
       | Some (a, d') => k a d'
       | None => None
       end.

Declare Scope tx_scope.
Delimit Scope tx_scope with tx.
Notation "x <- m ;; k" := (tx_bind m (λ x, k))
  (at level 100, m at next level, right associativity) : tx_scope.
Notation "m ;;; k" := (tx_bind m (λ _, k))
  (at level 100, right associativity) : tx_scope.

(** [tx.table.update({ where: { id }, data })] throws when no row has the
    id; otherwise it overwrites the listed columns of that row. *)
Definition processStepInstance_update (id : string)
    (data : ProcessStepInstance.t → ProcessStepInstance.t) : Tx unit :=
  λ d, match processStepInstances d !! id with
       | Some r => Some (tt, set_processStepInstances
                               (<[id := data r]> (processStepInstances d)) d)
       | None => None
       end.

Definition processInstance_update (id : string)
    (data : ProcessInstance.t → ProcessInstance.t) : Tx unit :=
  λ d, match processInstances d !! id with
       | Some r => Some (tt, set_processInstances
                               (<[id := data r]> (processInstances d)) d)
       | None => None
       end.

(** [tx.table.create({ data })] with a generated primary key throws when
    the key is taken. *)
Definition processInstance_create (id : string) (r : ProcessInstance.t)
  : Tx (string * ProcessInstance.t) :=
  λ d, match processInstances d !! id with
       | Some _ => None
       | None => Some ((id, r), set_processInstances
                                  (<[id := r]> (processInstances d)) d)
       end.

Definition processStepInstance_create (id : string) (r : ProcessStepInstance.t)
  : Tx (string * ProcessStepInstance.t) :=
  λ d, match processStepInstances d !! id with
       | Some _ => None
       | None => Some ((id, r), set_processStepInstances
                                  (<[id := r]> (processStepInstances d)) d)
       end.

(** A transaction body that writes the two process tables only. *)
Definition writesProcessTablesOnly {A} (m : Tx A) : Prop :=
  ∀ d a d', m d = Some (a, d') →
    users d' = users d
    ∧ workflowTemplates d' = workflowTemplates d
    ∧ workflowSteps d' = workflowSteps d
    ∧ formSchemas d' = formSchemas d
    ∧ auditLogs d' = auditLogs d
    ∧ notifications d' = notifications d.

(** ** Requests and responses *)

Module SessionUser.
Record t := mk { id : string; role : UserRole }.
End SessionUser.

(** What a request sees besides the database: the session ([auth()]), the
    clock ([new Date()], one instant per request) and the generator of
    primary keys. *)
Record Env := mkEnv {
  session : option SessionUser.t;
  now : Date;
  cuid : nat → string
}.

Module NextResponse.
Inductive t (A : Type) :=
| error (message : string) (status : nat)
| json (body : A) (status : nat).
Arguments error {A} message status.
Arguments json {A} body status.

Definition status {A} (r : t A) : nat :=
  match r with error _ s | json _ s => s end.

Definition ok {A} (r : t A) : bool :=
  match r with json _ _ => true | error _ _ => false end.
End NextResponse.

(** The failure modes of the engine's contract, as the handlers report
    them: 404, 400 and 403. *)
Inductive ErrorKind := NotFoundError | ValidationError | ForbiddenError.

Definition errorKind {A} (r : NextResponse.t A) : option ErrorKind :=
  match r with
  | NextResponse.error _ 404 => Some NotFoundError
  | NextResponse.error _ 400 => Some ValidationError
  | NextResponse.error _ 403 => Some ForbiddenError
  | _ => None
  end.

(** [JSON.parse] keeps the last of several members with one key. *)
Fixpoint json_get (k : string) (fs : JsonFields) : option Json :=
  match fs with
  | JEnd => None
  | JField k' v rest =>
      match json_get k rest with
      | Some x => Some x
      | None => if decide (k = k') then Some v else None
      end
  end.

(** ** lib/audit and lib/notifications *)

Definition createAuditLog (a : AuditLog.t) (d : Db) : Db :=
  set_auditLogs (auditLogs d ++ [a]) d.

Definition createNotification (userId : string) (processInstanceId : option string)
    (message : string) (type : NotificationType) (d : Db) : Db :=
  set_notifications
    (notifications d ++ [Notification.mk userId processInstanceId message type false]) d.

Definition isApprover (role : UserRole) : bool :=
  bool_decide (role ∈ [ADMIN; APPROVER]).

Definition approvers (d : Db) : list (string * User.t) :=
  filter (λ u, isApprover (User.role u.2) = true) (map_to_list (users d)).

Definition notifyApprovers (processInstanceId workflowName : string) (d : Db) : Db :=
  foldl (λ d' approver,
           createNotification approver.1 (Some processInstanceId)
             ("New approval request: " +:+ workflowName) ACTION_REQUIRED d')
        d (approvers d).

(** The notifications [notifyApprovers] appends: one ACTION_REQUIRED
    message per approver. *)
Definition approverNotifications (processId name : string) (d : Db)
  : list Notification.t :=
  map (λ approver : string * User.t,
         Notification.mk approver.1 (Some processId)
           ("New approval request: " +:+ name) ACTION_REQUIRED false)
      (approvers d).

Inductive CreatorAction := approved | rejected | changes_requested | completed.

(** The workflow name between double quotes, as the messages print it. *)
Definition quoted (s : string) : string :=
  String "034"%char s +:+ String "034"%char EmptyString.

Definition byActor (actorName : option string) : string :=
  match actorName with
  | Some n => if decide (n = "") then "" else " by " +:+ n
  | None => ""
  end.

Definition notifyProcessCreator (processInstanceId createdById : string)
    (action : CreatorAction) (workflowName : string) (actorName : option string)
    (d : Db) : Db :=
  let message :=
    match action with
    | approved => "Your request " +:+ quoted workflowName +:+ " has been approved" +:+ byActor actorName
    | rejected => "Your request " +:+ quoted workflowName +:+ " has been rejected" +:+ byActor actorName
    | changes_requested =>
        "Changes requested for your " +:+ quoted workflowName +:+ " request" +:+ byActor actorName
    | completed => "Your request " +:+ quoted workflowName +:+ " has been completed"
    end in
  let type :=
    match action with
    | changes_requested | rejected => ACTION_REQUIRED
    | _ => UPDATE
    end in
  createNotification createdById (Some processInstanceId) message type d.

(** ** The step action handler: approve / reject / request_changes *)

Module StepAction.

Inductive Action := approve | reject | request_changes.

#[global] Instance Action_eq_dec : EqDecision Action.
Proof. solve_decision. Defined.

Definition Action_name (a : Action) : string :=
  match a with
  | approve => "approve"
  | reject => "reject"
  | request_changes => "request_changes"
  end.

(** [z.enum(["approve", "reject", "request_changes"])] *)
Definition parseAction (s : string) : option Action :=
  if decide (s = "approve") then Some approve
  else if decide (s = "reject") then Some reject
  else if decide (s = "request_changes") then Some request_changes
  else None.

(** [actionSchema.safeParse(body)]: [None] when the body is refused. *)
Definition actionSchema_safeParse (body : Json) : option (Action * option string) :=
  match body with
  | JObject fs =>
      match json_get "action" fs with
      | Some (JString a) =>
          match parseAction a, json_get "comments" fs with
          | Some act, None => Some (act, None)
          | Some act, Some (JString c) => Some (act, Some c)
          | _, _ => None
          end
      | _ => None
      end
  | _ => None
  end.

(** The step instance as the handler loads it: with its workflow step,
    its process, the process's template with the template's steps in
    stepOrder, and the process's step instances in stepOrder. *)
Record StepInstanceWithContext := mkContext {
  stepInstance : ProcessStepInstance.t;
  workflowStep : WorkflowStep.t;
  process : ProcessInstance.t;
  workflow : WorkflowTemplate.t;
  workflow_steps : list (string * WorkflowStep.t);
  process_steps : list StepWithWorkflowStep.t
}.

(** [db.processStepInstance.findUnique({ where: { id: stepId }, include })].
    The outer [option] is the failure of the query (a required relation
    with no row behind it), the inner one is [null].  The creator of the
    process, which the query joins too, is never read from the result and
    is left out. *)
Definition findStepInstance (d : Db) (stepId : string)
  : option (option StepInstanceWithContext) :=
  match processStepInstances d !! stepId with
  | None => Some None
  | Some si =>
      ws ← workflowSteps d !! ProcessStepInstance.workflowStepId si;
      p ← processInstances d !! ProcessStepInstance.processInstanceId si;
      w ← workflowTemplates d !! ProcessInstance.workflowTemplateId p;
      steps ← stepsOfProcess d (ProcessStepInstance.processInstanceId si);
      Some (Some (mkContext si ws p w
                    (stepsOfTemplate d (ProcessInstance.workflowTemplateId p))
                    steps))
  end.

(** The columns written on the acted step.  A column whose value is
    [undefined] ([comments] left out of the body) is not written. *)
Definition actedData (action : Action) (userId : string) (now : Date)
    (comments : option string) (r : ProcessStepInstance.t) : ProcessStepInstance.t :=
  {| ProcessStepInstance.processInstanceId := ProcessStepInstance.processInstanceId r;
     ProcessStepInstance.workflowStepId := ProcessStepInstance.workflowStepId r;
     ProcessStepInstance.status :=
       if decide (action = approve) then StepStatus.COMPLETED else StepStatus.REJECTED;
     ProcessStepInstance.actedById := Some userId;
     ProcessStepInstance.actedAt := Some now;
     ProcessStepInstance.comments :=
       match comments with
       | Some c => Some c
       | None => ProcessStepInstance.comments r
       end |}.

(** The columns written on an auto-completed notification step. *)
Definition autoCompletedData (now : Date) (r : ProcessStepInstance.t)
  : ProcessStepInstance.t :=
  {| ProcessStepInstance.processInstanceId := ProcessStepInstance.processInstanceId r;
     ProcessStepInstance.workflowStepId := ProcessStepInstance.workflowStepId r;
     ProcessStepInstance.status := StepStatus.COMPLETED;
     ProcessStepInstance.actedById := ProcessStepInstance.actedById r;
     ProcessStepInstance.actedAt := Some now;
     ProcessStepInstance.comments := ProcessStepInstance.comments r |}.

Definition hasStepOrder (n : Z) (s : string * WorkflowStep.t) : bool :=
  bool_decide (WorkflowStep.stepOrder s.2 = n).

Definition instanceHasStepOrder (n : Z) (s : StepWithWorkflowStep.t) : bool :=
  bool_decide (WorkflowStep.stepOrder (StepWithWorkflowStep.workflowStep s) = n).

(** The body of the transaction. *)
Definition transition (processId stepId : string) (action : Action)
    (comments : option string) (userId : string) (now : Date)
    (ctx : StepInstanceWithContext) : Tx unit :=
  let currentStepOrder := WorkflowStep.stepOrder (workflowStep ctx) in
  (processStepInstance_update stepId (actedData action userId now comments) ;;;
   match action with
   | approve =>
       let nextStepOrder := currentStepOrder + 1 in
       match find (hasStepOrder nextStepOrder) (workflow_steps ctx) with
       | Some nextWorkflowStep =>
           match find (instanceHasStepOrder nextStepOrder) (process_steps ctx) with
           | Some nextStepInstance =>
               if decide (WorkflowStep.stepType nextWorkflowStep.2 = NOTIFICATION) then
                 processStepInstance_update (StepWithWorkflowStep.id nextStepInstance)
                   (autoCompletedData now) ;;;
                 match find (hasStepOrder (nextStepOrder + 1)) (workflow_steps ctx) with
                 | None =>
                     processInstance_update processId
                       (ProcessInstance.set_status ProcessStatus.COMPLETED)
                 | Some _ => tx_ret tt
                 end
               else
                 processInstance_update processId
                   (ProcessInstance.set_status ProcessStatus.IN_PROGRESS)
           | None => tx_ret tt
           end
       | None =>
           processInstance_update processId
             (ProcessInstance.set_status ProcessStatus.COMPLETED)
       end
   | reject =>
       processInstance_update processId
         (ProcessInstance.set_status ProcessStatus.REJECTED)
   | request_changes =>
       processInstance_update processId
         (ProcessInstance.set_status ProcessStatus.CHANGES_REQUESTED)
   end)%tx.

Definition actionMap (a : Action) : string :=
  match a with
  | approve => "STEP_COMPLETED"
  | reject => "STEP_REJECTED"
  | request_changes => "CHANGES_REQUESTED"
  end.

Definition notificationAction (a : Action) : CreatorAction :=
  match a with
  | approve => approved
  | reject => rejected
  | request_changes => changes_requested
  end.

(** Whether the template has an APPROVAL step at the next stepOrder. *)
Definition nextApprovalStep (ctx : StepInstanceWithContext)
  : option (string * WorkflowStep.t) :=
  find (λ s, hasStepOrder (WorkflowStep.stepOrder (workflowStep ctx) + 1) s
             && bool_decide (WorkflowStep.stepType s.2 = APPROVAL))
       (workflow_steps ctx).

Definition auditEntry (processId : string) (action : Action)
    (comments : option string) (userId : string) (ctx : StepInstanceWithContext)
  : AuditLog.t :=
  let stepName := WorkflowStep.name (workflowStep ctx) in
  let commentsField :=
    match comments with
    | Some c => JField "comments" (JString c) JEnd
    | None => JEnd
    end in
  let commentsNote :=
    match comments with
    | Some c => if decide (c = "") then "" else " - " +:+ c
    | None => ""
    end in
  AuditLog.mk (Some processId) (actionMap action) userId None
    (Some (JObject (JField "stepName" (JString stepName)
                     (JField "action" (JString (Action_name action)) commentsField))))
    (Some (stepName +:+ ": " +:+ Action_name action +:+ commentsNote)).

(** What the handler does once the transaction has committed: audit
    entry, notification of the creator, notification of the approvers. *)
Definition afterCommit (processId : string) (action : Action)
    (comments : option string) (userId : string) (ctx : StepInstanceWithContext)
    (d : Db) : Db :=
  let d1 := createAuditLog (auditEntry processId action comments userId ctx) d in
  let currentUserName := u ← users d1 !! userId; User.name u in
  let d2 := notifyProcessCreator processId (ProcessInstance.createdById (process ctx))
              (notificationAction action) (WorkflowTemplate.name (workflow ctx))
              currentUserName d1 in
  match action with
  | approve =>
      match nextApprovalStep ctx with
      | Some _ => notifyApprovers processId (WorkflowTemplate.name (workflow ctx)) d2
      | None => d2
      end
  | _ => d2
  end.

Abbreviation Response := (NextResponse.t (option ProcessWithSteps.t)).

Definition POST (env : Env) (processId stepId : string) (body : Json) (d : Db)
  : Response * Db :=
  match session env with
  | None => (NextResponse.error "Unauthorized" 401, d)
  | Some user =>
  if negb (isApprover (SessionUser.role user)) then
    (NextResponse.error "Forbidden" 403, d)
  else
  match actionSchema_safeParse body with
  | None => (NextResponse.error "Invalid request" 400, d)
  | Some (action, comments) =>
  match findStepInstance d stepId with
  | None => (NextResponse.error "Failed to process action" 500, d)
  | Some None => (NextResponse.error "Step not found" 404, d)
  | Some (Some ctx) =>
  if negb (bool_decide (ProcessStepInstance.processInstanceId (stepInstance ctx) = processId))
  then (NextResponse.error "Step does not belong to this process" 400, d)
  else if negb (bool_decide (ProcessStepInstance.status (stepInstance ctx) = StepStatus.PENDING))
  then (NextResponse.error "Step is not pending" 400, d)
  else if negb (bool_decide (WorkflowStep.stepType (workflowStep ctx) = APPROVAL))
  then (NextResponse.error "This step type does not support approval actions" 400, d)
  else
  match transition processId stepId action comments (SessionUser.id user) (now env) ctx d with
  | None => (NextResponse.error "Failed to process action" 500, d)
  | Some (_, d') =>
      let d'' := afterCommit processId action comments (SessionUser.id user) ctx d' in
      match findProcessWithSteps d'' processId with
      | None => (NextResponse.error "Failed to process action" 500, d'')
      | Some updatedProcess => (NextResponse.json updatedProcess 200, d'')
      end
  end
  end
  end
  end.

End StepAction.

(** ** The process creation handler *)

Module CreateProcess.

(** [createProcessSchema.safeParse(body)]: a non-empty template id and an
    object of form data. *)
Definition createProcessSchema_safeParse (body : Json) : option (string * Json) :=
  match body with
  | JObject fs =>
      match json_get "workflowTemplateId" fs, json_get "formData" fs with
      | Some (JString id), Some (JObject formData) =>
          if decide (id = "") then None else Some (id, JObject formData)
      | _, _ => None
      end
  | _ => None
  end.

(** The template as the handler loads it: with its steps in stepOrder
    and its form schema. *)
Record WorkflowWithSteps := mkWorkflow {
  workflow : WorkflowTemplate.t;
  steps : list (string * WorkflowStep.t);
  formSchema : option FormSchema.t
}.

Definition findWorkflow (d : Db) (workflowTemplateId : string)
  : option WorkflowWithSteps :=
  w ← workflowTemplates d !! workflowTemplateId;
  Some (mkWorkflow w (stepsOfTemplate d workflowTemplateId)
          (formSchemas d !! workflowTemplateId)).

(** The first step is completed by the submission when it is a form. *)
Definition isSubmittedForm (index : nat) (step : string * WorkflowStep.t) : bool :=
  bool_decide (index = 0%nat) && bool_decide (WorkflowStep.stepType step.2 = FORM).

Definition stepInstanceData (processInstanceId userId : string) (now : Date)
    (index : nat) (step : string * WorkflowStep.t) : ProcessStepInstance.t :=
  {| ProcessStepInstance.processInstanceId := processInstanceId;
     ProcessStepInstance.workflowStepId := step.1;
     ProcessStepInstance.status :=
       if isSubmittedForm index step then StepStatus.COMPLETED else StepStatus.PENDING;
     ProcessStepInstance.actedById :=
       if isSubmittedForm index step then Some userId else None;
     ProcessStepInstance.actedAt :=
       if isSubmittedForm index step then Some now else None;
     ProcessStepInstance.comments := None |}.

(** [workflow.steps.map((step, index) => tx.processStepInstance.create(..))]
    from [index] on; the step at index [i] gets the key [cuid (S i)]. *)
Fixpoint createStepInstances (cuid : nat → string)
    (processInstanceId userId : string) (now : Date) (index : nat)
    (steps : list (string * WorkflowStep.t))
  : Tx (list (string * ProcessStepInstance.t)) :=
  match steps with
  | [] => tx_ret []
  | step :: rest =>
      (si <- processStepInstance_create (cuid (S index))
               (stepInstanceData processInstanceId userId now index step) ;;
       sis <- createStepInstances cuid processInstanceId userId now (S index) rest ;;
       tx_ret (si :: sis))%tx
  end.

(** The body of the transaction: the process, then its step instances. *)
Definition create (env : Env) (userId workflowTemplateId : string) (formData : Json)
    (steps : list (string * WorkflowStep.t))
  : Tx ((string * ProcessInstance.t) * list (string * ProcessStepInstance.t)) :=
  (processInstance <- processInstance_create (cuid env 0%nat)
       (ProcessInstance.mk workflowTemplateId userId formData ProcessStatus.IN_PROGRESS) ;;
   stepInstances <- createStepInstances (cuid env) processInstance.1 userId (now env)
                      0%nat steps ;;
   tx_ret (processInstance, stepInstances))%tx.

(** An approval step is pending right after the creation: the first
    step, or the second one behind a form. *)
Definition hasApprovalPending (steps : list (string * WorkflowStep.t)) : bool :=
  existsb
    (λ '(index, step),
       bool_decide (WorkflowStep.stepType step.2 = APPROVAL)
       && (bool_decide (index = 0%nat)
           || (bool_decide (index = 1%nat)
               && match steps !! 0%nat with
                  | Some first => bool_decide (WorkflowStep.stepType first.2 = FORM)
                  | None => false
                  end)))
    (imap (λ index step, (index, step)) steps).

Definition afterCommit (userId processId : string) (formData : Json)
    (w : WorkflowWithSteps) (d : Db) : Db :=
  let name := WorkflowTemplate.name (workflow w) in
  let d1 := createAuditLog
              (AuditLog.mk (Some processId) "PROCESS_CREATED" userId None
                 (Some (JObject (JField "workflowName" (JString name)
                                   (JField "formData" formData JEnd))))
                 (Some ("Process started for " +:+ quoted name))) d in
  let d2 := createNotification userId (Some processId)
              ("Your " +:+ quoted name +:+ " request has been submitted") INFO d1 in
  if hasApprovalPending (steps w) then notifyApprovers processId name d2 else d2.

Abbreviation Response := (NextResponse.t (option ProcessWithSteps.t)).

Definition POST (env : Env) (body : Json) (d : Db) : Response * Db :=
  match session env with
  | None => (NextResponse.error "Unauthorized" 401, d)
  | Some user =>
  match createProcessSchema_safeParse body with
  | None => (NextResponse.error "Invalid request" 400, d)
  | Some (workflowTemplateId, formData) =>
  match findWorkflow d workflowTemplateId with
  | None => (NextResponse.error "Workflow not found" 404, d)
  | Some w =>
  if negb (bool_decide (WorkflowTemplate.status (workflow w) = WorkflowStatus.ACTIVE))
  then (NextResponse.error "Workflow is not active" 400, d)
  else if bool_decide (length (steps w) = 0%nat)
  then (NextResponse.error "Workflow has no steps defined" 400, d)
  else
  match create env (SessionUser.id user) workflowTemplateId formData (steps w) d with
  | None => (NextResponse.error "Failed to create process" 500, d)
  | Some ((processInstance, _), d') =>
      let d'' := afterCommit (SessionUser.id user) processInstance.1 formData w d' in
      match findProcessWithSteps d'' processInstance.1 with
      | None => (NextResponse.error "Failed to create process" 500, d'')
      | Some completeProcess => (NextResponse.json completeProcess 201, d'')
      end
  end
  end
  end
  end.

End CreateProcess.

(** ** The template status handler *)

Module StatusRoute.

(** [z.enum(["DRAFT", "ACTIVE", "ARCHIVED"])] *)
Definition parseStatus (s : string) : option WorkflowStatus.t :=
  if decide (s = "DRAFT") then Some WorkflowStatus.DRAFT
  else if decide (s = "ACTIVE") then Some WorkflowStatus.ACTIVE
  else if decide (s = "ARCHIVED") then Some WorkflowStatus.ARCHIVED
  else None.

Definition Status_name (s : WorkflowStatus.t) : string :=
  match s with
  | WorkflowStatus.DRAFT => "DRAFT"
  | WorkflowStatus.ACTIVE => "ACTIVE"
  | WorkflowStatus.ARCHIVED => "ARCHIVED"
  end.

Definition updateStatusSchema_safeParse (body : Json) : option WorkflowStatus.t :=
  match body with
  | JObject fs =>
      match json_get "status" fs with
      | Some (JString s) => parseStatus s
      | _ => None
      end
  | _ => None
  end.

(** The template with its steps and form schema
    ([include: { steps: true, formSchema: true }]). *)
Record WorkflowWithSteps := mkWorkflow {
  workflow : WorkflowTemplate.t;
  steps : list (string * WorkflowStep.t);
  formSchema : option FormSchema.t
}.

Definition findWorkflow (d : Db) (id : string) : option WorkflowWithSteps :=
  w ← workflowTemplates d !! id;
  Some (mkWorkflow w
          (filter (λ s, WorkflowStep.workflowTemplateId s.2 = id)
             (map_to_list (workflowSteps d)))
          (formSchemas d !! id)).

Definition hasFormStep (steps : list (string * WorkflowStep.t)) : bool :=
  existsb (λ s, bool_decide (WorkflowStep.stepType s.2 = FORM)) steps.

Definition statusJson (s : WorkflowStatus.t) : Json :=
  JObject (JField "status" (JString (Status_name s)) JEnd).

(** The guards of the transition to ACTIVE: the message of the first
    one that fails. *)
Definition activationError (w : WorkflowWithSteps) : option string :=
  if bool_decide (length (steps w) = 0%nat) then
    Some "Workflow must have at least one step to be activated"
  else if hasFormStep (steps w) && bool_decide (formSchema w = None) then
    Some "Workflow with form step must have a form schema defined"
  else None.

Abbreviation Response := (NextResponse.t WorkflowWithSteps).

Definition PATCH (env : Env) (id : string) (body : Json) (d : Db) : Response * Db :=
  match session env with
  | None => (NextResponse.error "Unauthorized" 401, d)
  | Some user =>
  if negb (bool_decide (SessionUser.role user = ADMIN)) then
    (NextResponse.error "Forbidden" 403, d)
  else
  match updateStatusSchema_safeParse body with
  | None => (NextResponse.error "Invalid request" 400, d)
  | Some status =>
  match findWorkflow d id with
  | None => (NextResponse.error "Workflow not found" 404, d)
  | Some existingWorkflow =>
  match (if bool_decide (status = WorkflowStatus.ACTIVE)
         then activationError existingWorkflow else None) with
  | Some message => (NextResponse.error message 400, d)
  | None =>
    let updated := WorkflowTemplate.set_status status (workflow existingWorkflow) in
    let d' := set_workflowTemplates (<[id := updated]> (workflowTemplates d)) d in
    let name := WorkflowTemplate.name updated in
    let previous := WorkflowTemplate.status (workflow existingWorkflow) in
    let d'' := createAuditLog
                 (AuditLog.mk None "WORKFLOW_STATUS_CHANGED" (SessionUser.id user)
                    (Some (statusJson previous)) (Some (statusJson status))
                    (Some ("Workflow " +:+ quoted name +:+ " status changed from "
                           +:+ Status_name previous +:+ " to " +:+ Status_name status))) d' in
    (NextResponse.json (mkWorkflow updated (stepsOfTemplate d id) (formSchemas d !! id)) 200, d'')
  end
  end
  end
  end.

End StatusRoute.

(** ** The process detail handler *)

Module ProcessDetail.

(** The audit entries of a process, newest first.  The audit log is
    appended to in the order of [changedAt], so newest first is the
    reverse of the table. *)
Definition auditLogsOf (d : Db) (processId : string) : list AuditLog.t :=
  reverse (filter (λ a, AuditLog.processInstanceId a = Some processId) (auditLogs d)).

(** The process as the detail page gets it: with its template, the
    template's steps in stepOrder and form schema, its own steps in
    stepOrder, and its audit entries.  The users the query joins (creator, actors,
    authors of the audit entries) take no part in what the handler decides
    and are left out. *)
Record ProcessWithHistory := mkProcess {
  id : string;
  row : ProcessInstance.t;
  workflowTemplate : WorkflowTemplate.t;
  workflow_steps : list (string * WorkflowStep.t);
  formSchema : option FormSchema.t;
  steps : list StepWithWorkflowStep.t;
  auditLogs : list AuditLog.t
}.

(** [db.processInstance.findUnique({ where: { id }, include })]; the outer
    [option] is the failure of the query, the inner one is [null]. *)
Definition findProcess (d : Db) (processId : string)
  : option (option ProcessWithHistory) :=
  match processInstances d !! processId with
  | None => Some None
  | Some p =>
      w ← workflowTemplates d !! ProcessInstance.workflowTemplateId p;
      steps ← stepsOfProcess d processId;
      Some (Some (mkProcess processId p w
                    (stepsOfTemplate d (ProcessInstance.workflowTemplateId p))
                    (formSchemas d !! ProcessInstance.workflowTemplateId p)
                    steps (auditLogsOf d processId)))
  end.

Abbreviation Response := (NextResponse.t ProcessWithHistory).

(** The handler reads only: it answers, the database stays as it is. *)
Definition GET (env : Env) (id : string) (d : Db) : Response :=
  match session env with
  | None => NextResponse.error "Unauthorized" 401
  | Some user =>
  match findProcess d id with
  | None => NextResponse.error "Failed to fetch process" 500
  | Some None => NextResponse.error "Process not found" 404
  | Some (Some process) =>
      if bool_decide (SessionUser.role user = USER)
         && negb (bool_decide (ProcessInstance.createdById (row process)
                               = SessionUser.id user))
      then NextResponse.error "Forbidden" 403
      else NextResponse.json process 200
  end
  end.

End ProcessDetail.

(** ** The detail page of a process

    What the page decides from the session and the process it has
    fetched: whether it shows the three action buttons, and the request a
    button sends. *)

Module ProcessDetailPage.

Definition canTakeAction (session : option SessionUser.t) : bool :=
  match session with
  | None => false
  | Some user => bool_decide (SessionUser.role user ∈ [ADMIN; APPROVER])
  end.

Definition getPendingApprovalStep (process : option ProcessDetail.ProcessWithHistory)
  : option StepWithWorkflowStep.t :=
  match process with
  | None => None
  | Some process =>
      find (λ s, bool_decide (ProcessStepInstance.status (StepWithWorkflowStep.row s)
                              = StepStatus.PENDING)
                 && bool_decide (WorkflowStep.stepType (StepWithWorkflowStep.workflowStep s)
                                 = APPROVAL))
        (ProcessDetail.steps process)
  end.

(** [canTakeAction() && pendingStep && process.status === "IN_PROGRESS"]:
    the step the Action Required card is shown for, if it is shown. *)
Definition actionCard (session : option SessionUser.t)
    (process : option ProcessDetail.ProcessWithHistory) : option StepWithWorkflowStep.t :=
  match process with
  | None => None
  | Some p =>
      match getPendingApprovalStep process with
      | Some pendingStep =>
          if canTakeAction session
             && bool_decide (ProcessInstance.status (ProcessDetail.row p)
                             = ProcessStatus.IN_PROGRESS)
          then Some pendingStep
          else None
      | None => None
      end
  end.

(** [JSON.stringify({ action, comments: comments || undefined })]: a member
    whose value is [undefined] is left out. *)
Definition actionRequestBody (action : StepAction.Action) (comments : string) : Json :=
  JObject (JField "action" (JString (StepAction.Action_name action))
             (if decide (comments = "") then JEnd
              else JField "comments" (JString comments) JEnd)).

(** [handleAction]: the request sent for the step of the dialog, and what
    the handler makes of it. *)
Definition handleAction (env : Env) (process : ProcessDetail.ProcessWithHistory)
    (stepId : string) (action : StepAction.Action) (comments : string) (d : Db)
  : StepAction.Response * Db :=
  StepAction.POST env (ProcessDetail.id process) stepId
    (actionRequestBody action comments) d.

End ProcessDetailPage.

(** ** The notification handlers

    Notifications are never deleted, so a row is addressed by its position
    in the table: the [id] of the routes is that position. *)

Definition notification_set_isRead (isRead : bool) (n : Notification.t) : Notification.t :=
  {| Notification.userId := Notification.userId n;
     Notification.processInstanceId := Notification.processInstanceId n;
     Notification.message := Notification.message n;
     Notification.type := Notification.type n;
     Notification.isRead := isRead |}.

(** [db.notification.count({ where: { userId, isRead: false } })], the
    unread count of the notification list. *)
Definition unreadCount (d : Db) (userId : string) : nat :=
  length (filter (λ n, Notification.userId n = userId ∧ Notification.isRead n = false)
            (notifications d)).

Module NotificationRoute.

Abbreviation Response := (NextResponse.t Notification.t).

(** PATCH of one notification.  [isRead] is the body after
    [updateSchema.safeParse]: [None] when the body is refused. *)
Definition PATCH (env : Env) (id : nat) (isRead : option bool) (d : Db) : Response * Db :=
  match session env with
  | None => (NextResponse.error "Unauthorized" 401, d)
  | Some user =>
  match isRead with
  | None => (NextResponse.error "Invalid request" 400, d)
  | Some isRead =>
  match notifications d !! id with
  | None => (NextResponse.error "Notification not found" 404, d)
  | Some notification =>
      if negb (bool_decide (Notification.userId notification = SessionUser.id user))
      then (NextResponse.error "Forbidden" 403, d)
      else
        let updated := notification_set_isRead isRead notification in
        (NextResponse.json updated 200,
         set_notifications (<[id := updated]> (notifications d)) d)
  end
  end
  end.

End NotificationRoute.

Module MarkAllRead.

(** [db.notification.updateMany({ where: { userId, isRead: false },
                                  data: { isRead: true } })] *)
Definition updateMany (userId : string) (l : list Notification.t) : list Notification.t :=
  map (λ n, if bool_decide (Notification.userId n = userId)
               && bool_decide (Notification.isRead n = false)
            then notification_set_isRead true n else n) l.

(** The body of the answer is [{ success: true }]. *)
Abbreviation Response := (NextResponse.t bool).

Definition POST (env : Env) (d : Db) : Response * Db :=
  match session env with
  | None => (NextResponse.error "Unauthorized" 401, d)
  | Some user =>
      (NextResponse.json true 200,
       set_notifications (updateMany (SessionUser.id user) (notifications d)) d)
  end.

End MarkAllRead.

(** ** The step list of the workflow editor *)

Module WorkflowStepsList.

(** A step as the editor holds it, before it is stored. *)
Record WorkflowStep := mkStep {
  id : option string;
  stepOrder : Z;
  stepType : StepType;
  name : string;
  config : Json
}.

Definition set_stepOrder (n : Z) (s : WorkflowStep) : WorkflowStep :=
  {| id := id s; stepOrder := n; stepType := stepType s; name := name s;
     config := config s |}.

(** [{ ...s, stepOrder: index + 1 }] *)
Definition renumber (index : nat) (s : WorkflowStep) : WorkflowStep :=
  set_stepOrder (Z.of_nat index + 1) s.

(** The steps handed to [onStepsChange]. *)
Definition handleDeleteStep (stepOrder0 : Z) (steps : list WorkflowStep)
  : list WorkflowStep :=
  imap renumber (filter (λ s, stepOrder s ≠ stepOrder0) steps).

Inductive Direction := up | down.

#[global] Instance Direction_eq_dec : EqDecision Direction.
Proof. solve_decision. Defined.

(** The steps after the handler: the same list when it returns at a
    boundary, the swapped and renumbered list handed to [onStepsChange]
    otherwise.  The loop renumbers the step objects in place; the list
    handed over holds them, and it replaces the one they came from.

    The index is the position of the step whose button was pressed (the
    [index] of [steps.map((step, index) => ...)]), a natural number; the
    handler is modelled for natural numbers only.  With an index beyond
    the end of the list the swap leaves an [undefined] element and the
    renumbering loop throws: [None].  A negative or fractional number,
    which no caller passes, is outside the model: there the swap would
    write properties that are not elements of the array. *)
Definition handleMoveStep (index : nat) (direction : Direction)
    (steps : list WorkflowStep) : option (list WorkflowStep) :=
  if (bool_decide (direction = up) && bool_decide (index = 0%nat))
     || (bool_decide (direction = down)
         && bool_decide (Z.of_nat index = Z.of_nat (length steps) - 1))
  then Some steps
  else
    let targetIndex := if bool_decide (direction = up) then (index - 1)%nat
                       else (index + 1)%nat in
    match steps !! index, steps !! targetIndex with
    | Some a, Some b => Some (imap renumber (<[targetIndex := a]> (<[index := b]> steps)))
    | _, _ => None
    end.

(** The list is numbered when the step at position [i] has stepOrder
    [i + 1], as the lists the two handlers hand over are. *)
Definition numbered (steps : list WorkflowStep) : Prop :=
  ∀ (i : nat) s, steps !! i = Some s → stepOrder s = (Z.of_nat i + 1)%Z.

(** What a step is apart from its number. *)
Definition content (s : WorkflowStep) : option string * StepType * string * Json :=
  (id s, stepType s, name s, config s).

End WorkflowStepsList.

(** ** Reading the database

    The vocabulary of the statements below: the stepOrder of a step
    instance, the template step and the step instance of a process at a
    stepOrder (the ones the handler's [find] calls yield), and the status
    of a process. *)

Definition stepOrderOf (d : Db) (stepId : string) : option Z :=
  si ← processStepInstances d !! stepId;
  ws ← workflowSteps d !! ProcessStepInstance.workflowStepId si;
  Some (WorkflowStep.stepOrder ws).

Definition templateStepAt (d : Db) (processId : string) (n : Z)
  : option (string * WorkflowStep.t) :=
  p ← processInstances d !! processId;
  find (StepAction.hasStepOrder n)
       (stepsOfTemplate d (ProcessInstance.workflowTemplateId p)).

Definition stepInstanceAt (d : Db) (processId : string) (n : Z)
  : option StepWithWorkflowStep.t :=
  steps ← stepsOfProcess d processId;
  find (StepAction.instanceHasStepOrder n) steps.

Definition processStatus (d : Db) (processId : string) : option ProcessStatus.t :=
  ProcessInstance.status <$> processInstances d !! processId.

(** The invariant of the data model that the approve transition relies
    on: the process has a step instance for every step of its template. *)
Definition stepsHaveInstances (d : Db) (processId : string) : Prop :=
  ∀ n, is_Some (templateStepAt d processId n) → is_Some (stepInstanceAt d processId n).

(** The columns that relate a step instance to its process and to its
    workflow step. *)
Definition relations (r : ProcessStepInstance.t) : string * string :=
  (ProcessStepInstance.processInstanceId r, ProcessStepInstance.workflowStepId r).

(** Two databases with the same workflow steps, the same step instances up
    to the columns that are not relations, and the same processes up to
    the columns other than the template. *)
Definition sameRelations (d d' : Db) : Prop :=
  workflowSteps d' = workflowSteps d
  ∧ (∀ k, relations <$> processStepInstances d' !! k
          = relations <$> processStepInstances d !! k)
  ∧ (∀ q, ProcessInstance.workflowTemplateId <$> processInstances d' !! q
          = ProcessInstance.workflowTemplateId <$> processInstances d !! q).

Definition keepsRelations {A} (m : Tx A) : Prop :=
  ∀ d a d', m d = Some (a, d') → sameRelations d d'.

(** A transaction body that relates the database before it to the
    database after it by [R]. *)
Definition txKeeps {A} (R : Db → Db → Prop) (m : Tx A) : Prop :=
  ∀ d a d', m d = Some (a, d') → R d d'.

(** Two databases with the same processes up to their status. *)
Definition sameProcessesUpToStatus (d d' : Db) : Prop :=
  ∀ q, ProcessInstance.set_status ProcessStatus.PENDING <$> processInstances d' !! q
       = ProcessInstance.set_status ProcessStatus.PENDING <$> processInstances d !! q.

(** A step instance the step action accepts: pending, of an approval step. *)
Definition isPendingApproval (s : StepWithWorkflowStep.t) : bool :=
  bool_decide (ProcessStepInstance.status (StepWithWorkflowStep.row s) = StepStatus.PENDING)
  && bool_decide (WorkflowStep.stepType (StepWithWorkflowStep.workflowStep s) = APPROVAL).

(** The pending approval step instances of a process. *)
Definition pendingApprovals (d : Db) (processId : string) : list StepWithWorkflowStep.t :=
  match stepsOfProcess d processId with
  | Some steps => filter (λ s, isPendingApproval s = true) steps
  | None => []
  end.

(** ** Scenarios

    A small database and the requests the examples below run on it. *)

Module Scenario.

Definition formStep (t : string) (n : Z) := WorkflowStep.mk t n FORM "Request".
Definition approvalStep (t : string) (n : Z) := WorkflowStep.mk t n APPROVAL "Approval".
Definition notificationStep (t : string) (n : Z) := WorkflowStep.mk t n NOTIFICATION "Notice".

(** Templates: [two] has two approvals; [notice] is form, approval,
    notice; [relay] is approval, notice, approval; [gap] starts at
    stepOrder 2 with a form; [empty] and [unschemed] are drafts that fail
    the activation guards. *)
Definition db0 : Db :=
  {| users := list_to_map
       [("ann", User.mk (Some "Ann") USER);
        ("bob", User.mk (Some "Bob") APPROVER);
        ("eve", User.mk (Some "Eve") ADMIN)];
     workflowTemplates := list_to_map
       [("two", WorkflowTemplate.mk "Two approvals" WorkflowStatus.ACTIVE);
        ("notice", WorkflowTemplate.mk "Leave" WorkflowStatus.ACTIVE);
        ("relay", WorkflowTemplate.mk "Relay" WorkflowStatus.ACTIVE);
        ("gap", WorkflowTemplate.mk "Gap" WorkflowStatus.ACTIVE);
        ("empty", WorkflowTemplate.mk "Empty" WorkflowStatus.DRAFT);
        ("unschemed", WorkflowTemplate.mk "Unschemed" WorkflowStatus.DRAFT)];
     workflowSteps := list_to_map
       [("two-1", approvalStep "two" 1);
        ("two-2", approvalStep "two" 2);
        ("notice-1", formStep "notice" 1);
        ("notice-2", approvalStep "notice" 2);
        ("notice-3", notificationStep "notice" 3);
        ("relay-1", approvalStep "relay" 1);
        ("relay-2", notificationStep "relay" 2);
        ("relay-3", approvalStep "relay" 3);
        ("gap-2", formStep "gap" 2);
        ("gap-3", approvalStep "gap" 3);
        ("unschemed-1", formStep "unschemed" 1)];
     formSchemas := list_to_map
       [("notice", FormSchema.mk (JObject JEnd));
        ("gap", FormSchema.mk (JObject JEnd))];
     processInstances := ∅;
     processStepInstances := ∅;
     auditLogs := [];
     notifications := [] |}.

(** Keys [prefix-0], [prefix-1], ... *)
Definition keys (prefix : string) (n : nat) : string :=
  prefix +:+ "-" +:+ String (ascii_of_nat (48 + n)) EmptyString.

Definition ann (prefix : string) : Env :=
  mkEnv (Some (SessionUser.mk "ann" USER)) 1000 (keys prefix).
Definition bob : Env :=
  mkEnv (Some (SessionUser.mk "bob" APPROVER)) 2000 (keys "x").
Definition bobLater : Env :=
  mkEnv (Some (SessionUser.mk "bob" APPROVER)) 3000 (keys "y").
Definition eve : Env :=
  mkEnv (Some (SessionUser.mk "eve" ADMIN)) 4000 (keys "e").

Definition createBody (template : string) : Json :=
  JObject (JField "workflowTemplateId" (JString template)
             (JField "formData" (JObject JEnd) JEnd)).

Definition actionBody (action : string) : Json :=
  JObject (JField "action" (JString action) JEnd).

Definition commentedBody (action comments : string) : Json :=
  JObject (JField "action" (JString action)
             (JField "comments" (JString comments) JEnd)).

Definition statusBody (status : string) : Json :=
  JObject (JField "status" (JString status) JEnd).

(** Ann has started one process of each active template: [p-0] of [two]
    with steps [p-1], [p-2]; [q-0] of [notice] with [q-1] .. [q-3];
    [r-0] of [relay] with [r-1] .. [r-3]. *)
Definition db1 : Db :=
  (CreateProcess.POST (ann "r") (createBody "relay")
     (CreateProcess.POST (ann "q") (createBody "notice")
        (CreateProcess.POST (ann "p") (createBody "two") db0).2).2).2.

(** Bob has rejected the first approval of [p-0]. *)
Definition db2 : Db :=
  (StepAction.POST bob "p-0" "p-1" (actionBody "reject") db1).2.

(** Bob has approved the approval of [q-0], which completed it. *)
Definition db3 : Db :=
  (StepAction.POST bob "q-0" "q-2" (actionBody "approve") db1).2.

End Scenario.

(** The step list of the editor for a form, approval, notice template,
    the first two steps stored already. *)
Module EditorScenario.

Definition steps : list WorkflowStepsList.WorkflowStep :=
  [WorkflowStepsList.mkStep (Some "notice-1") 1 FORM "Request" (JObject JEnd);
   WorkflowStepsList.mkStep (Some "notice-2") 2 APPROVAL "Approval" (JObject JEnd);
   WorkflowStepsList.mkStep None 3 NOTIFICATION "Notice" (JObject JEnd)].

End EditorScenario.

(** * Properties *)

(** ** Queries *)

Section Queries.
Context {A : Type} (key : A → Z).

Lemma elem_of_insertBy (x y : A) (l : list A) :
  x ∈ insertBy key y l ↔ x = y ∨ x ∈ l.
Proof.
  induction l as [|z l IH]; cbn [insertBy].
  - rewrite list_elem_of_singleton, elem_of_nil. tauto.
  - destruct (key y <=? key z)%Z.
    + rewrite elem_of_cons. tauto.
    + rewrite !elem_of_cons, IH. tauto.
Qed.

Lemma elem_of_orderBy (x : A) (l : list A) : x ∈ orderBy key l ↔ x ∈ l.
Proof.
  unfold orderBy. induction l as [|y l IH]; cbn [foldr]; [done|].
  rewrite elem_of_insertBy, IH, elem_of_cons. tauto.
Qed.

End Queries.

Lemma find_Some_elem {A} (f : A → bool) (l : list A) (x : A) :
  find f l = Some x → x ∈ l ∧ f x = true.
Proof.
  intros H. apply List.find_some in H as [Hin Hf].
  split; [by apply list_elem_of_In | done].
Qed.

Lemma find_None_elem {A} (f : A → bool) (l : list A) (x : A) :
  find f l = None → x ∈ l → f x = false.
Proof.
  intros H Hin. apply list_elem_of_In in Hin.
  exact (List.find_none f l H x Hin).
Qed.

(** A template step read by [stepsOfTemplate] is a row of the table. *)
Lemma stepsOfTemplate_elem (d : Db) (templateId : string) (s : string * WorkflowStep.t) :
  s ∈ stepsOfTemplate d templateId ↔
  workflowSteps d !! s.1 = Some s.2 ∧ WorkflowStep.workflowTemplateId s.2 = templateId.
Proof.
  unfold stepsOfTemplate.
  rewrite elem_of_orderBy, list_elem_of_filter.
  destruct s as [k r]. rewrite elem_of_map_to_list. cbn. tauto.
Qed.

(** A step instance read by [stepsOfProcess] is a row of the table, belongs
    to the process, and is joined with the row of its workflow step. *)
Lemma stepsOfProcess_elem (d : Db) (processId : string)
    (l : list StepWithWorkflowStep.t) (s : StepWithWorkflowStep.t) :
  stepsOfProcess d processId = Some l →
  s ∈ l →
  processStepInstances d !! StepWithWorkflowStep.id s = Some (StepWithWorkflowStep.row s)
  ∧ ProcessStepInstance.processInstanceId (StepWithWorkflowStep.row s) = processId
  ∧ workflowSteps d !! ProcessStepInstance.workflowStepId (StepWithWorkflowStep.row s)
    = Some (StepWithWorkflowStep.workflowStep s).
Proof.
  unfold stepsOfProcess. intros H Hin.
  destruct (mapM _ _) as [rows|] eqn:Hrows; [|done].
  cbn in H. injection H as <-.
  apply elem_of_orderBy in Hin.
  apply mapM_Some_1 in Hrows.
  apply list_elem_of_lookup in Hin as [i Hi].
  destruct (Forall2_lookup_r _ _ _ _ _ Hrows Hi) as ([k r] & Hx & Hjoin).
  apply list_elem_of_lookup_2 in Hx.
  apply list_elem_of_filter in Hx as [Hpid Hx].
  apply elem_of_map_to_list in Hx.
  unfold joinWorkflowStep in Hjoin. cbn in Hjoin, Hpid.
  destruct (workflowSteps d !! _) as [ws|] eqn:Hws; [|done].
  cbn in Hjoin. injection Hjoin as <-. cbn. done.
Qed.

(** Conversely every step instance of the process whose workflow step
    exists is read, provided the query succeeds. *)
Lemma stepsOfProcess_complete (d : Db) (processId : string)
    (l : list StepWithWorkflowStep.t) (k : string) (r : ProcessStepInstance.t) :
  stepsOfProcess d processId = Some l →
  processStepInstances d !! k = Some r →
  ProcessStepInstance.processInstanceId r = processId →
  ∃ ws, workflowSteps d !! ProcessStepInstance.workflowStepId r = Some ws
        ∧ StepWithWorkflowStep.mk k r ws ∈ l.
Proof.
  unfold stepsOfProcess. intros H Hk Hpid.
  destruct (mapM _ _) as [rows|] eqn:Hrows; [|done].
  cbn in H. injection H as <-.
  apply mapM_Some_1 in Hrows.
  assert (Hin : (k, r) ∈ filter
            (λ s, ProcessStepInstance.processInstanceId s.2 = processId)
            (map_to_list (processStepInstances d))).
  { apply list_elem_of_filter. split; [done|]. by apply elem_of_map_to_list. }
  apply list_elem_of_lookup in Hin as [i Hi].
  destruct (Forall2_lookup_l _ _ _ _ _ Hrows Hi) as (y & Hy & Hjoin).
  unfold joinWorkflowStep in Hjoin. cbn in Hjoin.
  destruct (workflowSteps d !! _) as [ws|] eqn:Hws; [|done].
  cbn in Hjoin. injection Hjoin as <-.
  exists ws. split; [done|].
  apply elem_of_orderBy. by eapply list_elem_of_lookup_2.
Qed.

(** ** Side effects after the commit touch no process table *)

Lemma notifyApprovers_tables (processId name : string) (d : Db) :
  let d' := notifyApprovers processId name d in
  users d' = users d
  ∧ workflowTemplates d' = workflowTemplates d
  ∧ workflowSteps d' = workflowSteps d
  ∧ formSchemas d' = formSchemas d
  ∧ processInstances d' = processInstances d
  ∧ processStepInstances d' = processStepInstances d
  ∧ auditLogs d' = auditLogs d.
Proof.
  unfold notifyApprovers. generalize (approvers d) as l.
  intros l. revert d. induction l as [|a l IH]; intros d; cbn [foldl]; [done|].
  specialize (IH (createNotification a.1 (Some processId)
                    ("New approval request: " +:+ name) ACTION_REQUIRED d)).
  cbn in IH. exact IH.
Qed.

Lemma notifyApprovers_notifications (processId name : string) (d : Db) :
  notifications (notifyApprovers processId name d)
  = (notifications d ++ approverNotifications processId name d)%list.
Proof.
  unfold notifyApprovers, approverNotifications.
  generalize (approvers d) as l. intros l. revert d.
  induction l as [|a l IH]; intros d; cbn [foldl map].
  - by rewrite app_nil_r.
  - rewrite IH. cbn. by rewrite <- app_assoc.
Qed.

(** ** The step action handler: what a call has established when it
    succeeds, and what it leaves behind when it does not *)

Section StepActionFacts.
Import StepAction.

Lemma findStepInstance_Some (d : Db) (stepId : string) (ctx : StepInstanceWithContext) :
  findStepInstance d stepId = Some (Some ctx) →
  processStepInstances d !! stepId = Some (stepInstance ctx)
  ∧ workflowSteps d !! ProcessStepInstance.workflowStepId (stepInstance ctx)
    = Some (workflowStep ctx)
  ∧ processInstances d !! ProcessStepInstance.processInstanceId (stepInstance ctx)
    = Some (process ctx)
  ∧ workflowTemplates d !! ProcessInstance.workflowTemplateId (process ctx)
    = Some (workflow ctx)
  ∧ workflow_steps ctx = stepsOfTemplate d (ProcessInstance.workflowTemplateId (process ctx))
  ∧ stepsOfProcess d (ProcessStepInstance.processInstanceId (stepInstance ctx))
    = Some (process_steps ctx).
Proof.
  unfold findStepInstance. intros H.
  destruct (processStepInstances d !! stepId) as [si|] eqn:Hsi; [|done].
  destruct (workflowSteps d !! ProcessStepInstance.workflowStepId si)
    as [ws|] eqn:Hws; [|done].
  cbn in H.
  destruct (processInstances d !! ProcessStepInstance.processInstanceId si)
    as [p|] eqn:Hp; [|done].
  cbn in H.
  destruct (workflowTemplates d !! ProcessInstance.workflowTemplateId p)
    as [w|] eqn:Hw; [|done].
  cbn in H.
  destruct (stepsOfProcess d (ProcessStepInstance.processInstanceId si))
    as [steps|] eqn:Hsteps; [|done].
  cbn in H. injection H as <-. cbn. done.
Qed.

Lemma findStepInstance_None (d : Db) (stepId : string) :
  findStepInstance d stepId = Some None ↔ processStepInstances d !! stepId = None.
Proof.
  unfold findStepInstance. split.
  - destruct (processStepInstances d !! stepId) as [si|]; [|done].
    destruct (workflowSteps d !! _); [|done]. cbn.
    destruct (processInstances d !! _); [|done]. cbn.
    destruct (workflowTemplates d !! _); [|done]. cbn.
    destruct (stepsOfProcess d _); done.
  - by intros ->.
Qed.

(** A successful call has passed every check, has committed the
    transaction and has run the side effects. *)
Lemma POST_ok (env : Env) (processId stepId : string) (body : Json) (d d' : Db)
    (resp : Response) :
  POST env processId stepId body d = (resp, d') →
  NextResponse.ok resp = true →
  ∃ user action comments ctx dT,
    session env = Some user
    ∧ isApprover (SessionUser.role user) = true
    ∧ actionSchema_safeParse body = Some (action, comments)
    ∧ findStepInstance d stepId = Some (Some ctx)
    ∧ ProcessStepInstance.processInstanceId (stepInstance ctx) = processId
    ∧ ProcessStepInstance.status (stepInstance ctx) = StepStatus.PENDING
    ∧ WorkflowStep.stepType (workflowStep ctx) = APPROVAL
    ∧ transition processId stepId action comments (SessionUser.id user) (now env) ctx d
      = Some (tt, dT)
    ∧ d' = afterCommit processId action comments (SessionUser.id user) ctx dT.
Proof.
  unfold POST. intros H Hok.
  destruct (session env) as [user|]; [|by simplify_eq].
  destruct (isApprover _) eqn:Hrole; cbn [negb] in H; [|by simplify_eq].
  destruct (actionSchema_safeParse body) as [[action comments]|]; [|by simplify_eq].
  destruct (findStepInstance d stepId) as [[ctx|]|]; [|by simplify_eq..].
  repeat case_bool_decide; cbn [negb] in H; try by simplify_eq.
  destruct (transition _ _ _ _ _ _ _ _) as [[[] dT]|] eqn:Htx; [|by simplify_eq].
  cbn zeta in H.
  destruct (findProcessWithSteps _ _); [|by simplify_eq].
  injection H as <- <-.
  by exists user, action, comments, ctx, dT.
Qed.

(** The side effects write the audit log and the notifications only. *)
Lemma afterCommit_tables (processId : string) (action : Action)
    (comments : option string) (userId : string) (ctx : StepInstanceWithContext)
    (d : Db) :
  let d' := afterCommit processId action comments userId ctx d in
  users d' = users d
  ∧ workflowTemplates d' = workflowTemplates d
  ∧ workflowSteps d' = workflowSteps d
  ∧ formSchemas d' = formSchemas d
  ∧ processInstances d' = processInstances d
  ∧ processStepInstances d' = processStepInstances d.
Proof.
  unfold afterCommit.
  destruct action; [destruct (nextApprovalStep ctx)|..]; cbn zeta;
    try (edestruct notifyApprovers_tables as (-> & -> & -> & -> & -> & -> & _));
    by destruct (notificationAction _).
Qed.
End StepActionFacts.

(** ** The transaction of the step action, table by table *)

Section Transition.
Import StepAction.

Variables (processId stepId : string) (comments : option string)
          (userId : string) (now : Date) (ctx : StepInstanceWithContext).
Variables (d dT : Db) (si : ProcessStepInstance.t) (p : ProcessInstance.t).
Hypothesis Hsi : processStepInstances d !! stepId = Some si.
Hypothesis Hp : processInstances d !! processId = Some p.

Let nextStepOrder : Z := WorkflowStep.stepOrder (workflowStep ctx) + 1.

Ltac run_tx H :=
  unfold transition, tx_bind, tx_ret, processStepInstance_update,
    processInstance_update in H;
  rewrite ?Hsi in H; cbn [processInstances processStepInstances
    set_processStepInstances set_processInstances] in H;
  rewrite ?Hp in H.

(** reject and request_changes: the acted step and the process status. *)
Lemma transition_not_approve (action : Action) :
  action ≠ approve →
  transition processId stepId action comments userId now ctx d = Some (tt, dT) →
  dT = set_processInstances
         (<[processId := ProcessInstance.set_status
                           (if decide (action = reject) then ProcessStatus.REJECTED
                            else ProcessStatus.CHANGES_REQUESTED) p]>
            (processInstances d))
         (set_processStepInstances
            (<[stepId := actedData action userId now comments si]>
               (processStepInstances d)) d).
Proof.
  intros Hne H. run_tx H.
  destruct action; [done|..]; run_tx H; by simplify_eq.
Qed.

(** approve, no step at the next stepOrder. *)
Lemma transition_approve_last :
  find (hasStepOrder nextStepOrder) (workflow_steps ctx) = None →
  transition processId stepId approve comments userId now ctx d = Some (tt, dT) →
  dT = set_processInstances
         (<[processId := ProcessInstance.set_status ProcessStatus.COMPLETED p]>
            (processInstances d))
         (set_processStepInstances
            (<[stepId := actedData approve userId now comments si]>
               (processStepInstances d)) d).
Proof.
  intros Hnext H. run_tx H. fold nextStepOrder in H. rewrite Hnext in H.
  run_tx H. by simplify_eq.
Qed.

(** approve, the next step is not a notification and has an instance. *)
Lemma transition_approve_next (nws : string * WorkflowStep.t)
    (nsi : StepWithWorkflowStep.t) :
  find (hasStepOrder nextStepOrder) (workflow_steps ctx) = Some nws →
  find (instanceHasStepOrder nextStepOrder) (process_steps ctx) = Some nsi →
  WorkflowStep.stepType nws.2 ≠ NOTIFICATION →
  transition processId stepId approve comments userId now ctx d = Some (tt, dT) →
  dT = set_processInstances
         (<[processId := ProcessInstance.set_status ProcessStatus.IN_PROGRESS p]>
            (processInstances d))
         (set_processStepInstances
            (<[stepId := actedData approve userId now comments si]>
               (processStepInstances d)) d).
Proof.
  intros Hnext Hinst Hty H. run_tx H. fold nextStepOrder in H.
  rewrite Hnext, Hinst in H. rewrite decide_False in H by done.
  run_tx H. by simplify_eq.
Qed.

(** approve, the next step has no instance: only the acted step changes. *)
Lemma transition_approve_no_instance (nws : string * WorkflowStep.t) :
  find (hasStepOrder nextStepOrder) (workflow_steps ctx) = Some nws →
  find (instanceHasStepOrder nextStepOrder) (process_steps ctx) = None →
  transition processId stepId approve comments userId now ctx d = Some (tt, dT) →
  dT = set_processStepInstances
         (<[stepId := actedData approve userId now comments si]>
            (processStepInstances d)) d.
Proof.
  intros Hnext Hinst H. run_tx H. fold nextStepOrder in H.
  rewrite Hnext, Hinst in H. by simplify_eq.
Qed.

(** approve, the next step is a notification with an instance other than
    the acted one: it is completed, and the process is completed when
    nothing follows. *)
Lemma transition_approve_notification (nws : string * WorkflowStep.t)
    (nsi : StepWithWorkflowStep.t) :
  find (hasStepOrder nextStepOrder) (workflow_steps ctx) = Some nws →
  find (instanceHasStepOrder nextStepOrder) (process_steps ctx) = Some nsi →
  WorkflowStep.stepType nws.2 = NOTIFICATION →
  StepWithWorkflowStep.id nsi ≠ stepId →
  processStepInstances d !! StepWithWorkflowStep.id nsi
    = Some (StepWithWorkflowStep.row nsi) →
  transition processId stepId approve comments userId now ctx d = Some (tt, dT) →
  let steps' :=
    <[StepWithWorkflowStep.id nsi := autoCompletedData now (StepWithWorkflowStep.row nsi)]>
      (<[stepId := actedData approve userId now comments si]> (processStepInstances d)) in
  dT = match find (hasStepOrder (nextStepOrder + 1)) (workflow_steps ctx) with
       | None =>
           set_processInstances
             (<[processId := ProcessInstance.set_status ProcessStatus.COMPLETED p]>
                (processInstances d))
             (set_processStepInstances steps' d)
       | Some _ => set_processStepInstances steps' d
       end.
Proof.
  intros Hnext Hinst Hty Hne Hrow H. run_tx H. fold nextStepOrder in H.
  rewrite Hnext, Hinst in H. rewrite decide_True in H by done.
  run_tx H. rewrite lookup_insert_ne in H by done. rewrite Hrow in H.
  cbn zeta. destruct (find (hasStepOrder (nextStepOrder + 1)) _).
  - by simplify_eq.
  - run_tx H. by simplify_eq.
Qed.

End Transition.

(** ** Reject and request changes *)

(** The outcome of a successful call whose action is not approve: the
    acted step is REJECTED with the actor, the instant and the comments,
    the process takes the status of the action, nothing else moves. *)
Lemma not_approve_outcome (env : Env) (processId stepId : string) (body : Json)
    (action : StepAction.Action) (comments : option string) (d d' : Db)
    (resp : StepAction.Response) :
  StepAction.POST env processId stepId body d = (resp, d') →
  NextResponse.ok resp = true →
  StepAction.actionSchema_safeParse body = Some (action, comments) →
  action ≠ StepAction.approve →
  ∃ user si p,
    session env = Some user
    ∧ processStepInstances d !! stepId = Some si
    ∧ processInstances d !! processId = Some p
    ∧ processStepInstances d' !! stepId
      = Some {| ProcessStepInstance.processInstanceId :=
                  ProcessStepInstance.processInstanceId si;
                ProcessStepInstance.workflowStepId :=
                  ProcessStepInstance.workflowStepId si;
                ProcessStepInstance.status := StepStatus.REJECTED;
                ProcessStepInstance.actedById := Some (SessionUser.id user);
                ProcessStepInstance.actedAt := Some (now env);
                ProcessStepInstance.comments :=
                  match comments with
                  | Some c => Some c
                  | None => ProcessStepInstance.comments si
                  end |}
    ∧ processInstances d' !! processId
      = Some (ProcessInstance.set_status
                (if decide (action = StepAction.reject) then ProcessStatus.REJECTED
                 else ProcessStatus.CHANGES_REQUESTED) p)
    ∧ (∀ k, k ≠ stepId → processStepInstances d' !! k = processStepInstances d !! k)
    ∧ (∀ k, k ≠ processId → processInstances d' !! k = processInstances d !! k).
Proof.
  intros HPOST Hok Hbody Hne.
  destruct (POST_ok _ _ _ _ _ _ _ HPOST Hok)
    as (user & action' & comments' & ctx & dT & Hs & _ & Hbody' & Hctx & Hpid & _ & _ & Htx & ->).
  rewrite Hbody in Hbody'. injection Hbody' as <- <-.
  destruct (findStepInstance_Some _ _ _ Hctx) as (Hsi & _ & Hp & _).
  rewrite Hpid in Hp.
  pose proof (transition_not_approve _ _ _ _ _ _ _ _ _ _ Hsi Hp _ Hne Htx) as ->.
  destruct (afterCommit_tables processId action comments (SessionUser.id user) ctx
              (set_processInstances
                 (<[processId := ProcessInstance.set_status
                      (if decide (action = StepAction.reject) then ProcessStatus.REJECTED
                       else ProcessStatus.CHANGES_REQUESTED) (StepAction.process ctx)]>
                    (processInstances d))
                 (set_processStepInstances
                    (<[stepId := StepAction.actedData action (SessionUser.id user)
                                   (now env) comments (StepAction.stepInstance ctx)]>
                       (processStepInstances d)) d)))
    as (_ & _ & _ & _ & -> & ->).
  cbn [processInstances processStepInstances set_processInstances set_processStepInstances].
  exists user, (StepAction.stepInstance ctx), (StepAction.process ctx).
  split_and!; try done.
  - rewrite lookup_insert_eq. unfold StepAction.actedData.
    by rewrite decide_False by done.
  - by rewrite lookup_insert_eq.
  - intros k Hk. by rewrite lookup_insert_ne.
  - intros k Hk. by rewrite lookup_insert_ne.
Qed.

(** C2.  A successful reject of a pending approval step sets the acted
    step instance to REJECTED with the actor, acted-at = now and the
    comments, sets the process status to REJECTED, and changes no other
    step instance (nor any other process), however many steps remain. *)
Theorem reject_is_terminal (env : Env) (processId stepId : string) (body : Json)
    (comments : option string) (d d' : Db) (resp : StepAction.Response) :
  StepAction.POST env processId stepId body d = (resp, d') →
  NextResponse.ok resp = true →
  StepAction.actionSchema_safeParse body = Some (StepAction.reject, comments) →
  ∃ user si p,
    session env = Some user
    ∧ processStepInstances d !! stepId = Some si
    ∧ processInstances d !! processId = Some p
    ∧ processStepInstances d' !! stepId
      = Some {| ProcessStepInstance.processInstanceId :=
                  ProcessStepInstance.processInstanceId si;
                ProcessStepInstance.workflowStepId :=
                  ProcessStepInstance.workflowStepId si;
                ProcessStepInstance.status := StepStatus.REJECTED;
                ProcessStepInstance.actedById := Some (SessionUser.id user);
                ProcessStepInstance.actedAt := Some (now env);
                ProcessStepInstance.comments :=
                  match comments with
                  | Some c => Some c
                  | None => ProcessStepInstance.comments si
                  end |}
    ∧ processStatus d' processId = Some ProcessStatus.REJECTED
    ∧ (∀ k, k ≠ stepId → processStepInstances d' !! k = processStepInstances d !! k)
    ∧ (∀ k, k ≠ processId → processInstances d' !! k = processInstances d !! k).
Proof.
  intros HPOST Hok Hbody.
  destruct (not_approve_outcome _ _ _ _ _ _ _ _ _ HPOST Hok Hbody)
    as (user & si & p & Hs & Hsi & Hp & Hsi' & Hp' & Hframe & Hframe'); [done|].
  exists user, si, p. split_and!; try done.
  unfold processStatus. by rewrite Hp'.
Qed.

(** C8.  A successful request_changes on a pending approval step sets the
    acted step instance to REJECTED (the status of every action other than
    approve) with the actor, acted-at = now and the comments, sets the
    process status to CHANGES_REQUESTED, and changes no other step
    instance (nor any other process). *)
Theorem request_changes_outcome (env : Env) (processId stepId : string) (body : Json)
    (comments : option string) (d d' : Db) (resp : StepAction.Response) :
  StepAction.POST env processId stepId body d = (resp, d') →
  NextResponse.ok resp = true →
  StepAction.actionSchema_safeParse body = Some (StepAction.request_changes, comments) →
  ∃ user si p,
    session env = Some user
    ∧ processStepInstances d !! stepId = Some si
    ∧ processInstances d !! processId = Some p
    ∧ processStepInstances d' !! stepId
      = Some {| ProcessStepInstance.processInstanceId :=
                  ProcessStepInstance.processInstanceId si;
                ProcessStepInstance.workflowStepId :=
                  ProcessStepInstance.workflowStepId si;
                ProcessStepInstance.status := StepStatus.REJECTED;
                ProcessStepInstance.actedById := Some (SessionUser.id user);
                ProcessStepInstance.actedAt := Some (now env);
                ProcessStepInstance.comments :=
                  match comments with
                  | Some c => Some c
                  | None => ProcessStepInstance.comments si
                  end |}
    ∧ processStatus d' processId = Some ProcessStatus.CHANGES_REQUESTED
    ∧ (∀ k, k ≠ stepId → processStepInstances d' !! k = processStepInstances d !! k)
    ∧ (∀ k, k ≠ processId → processInstances d' !! k = processInstances d !! k).
Proof.
  intros HPOST Hok Hbody.
  destruct (not_approve_outcome _ _ _ _ _ _ _ _ _ HPOST Hok Hbody)
    as (user & si & p & Hs & Hsi & Hp & Hsi' & Hp' & Hframe & Hframe'); [done|].
  exists user, si, p. split_and!; try done.
  unfold processStatus. by rewrite Hp'.
Qed.

(** Bob rejects the first approval of the two-approval process [p-0]: the
    process is REJECTED and the second approval [p-2] is as it was. *)
Lemma reject_is_terminal_witness :
  let body := Scenario.commentedBody "reject" "no budget" in
  let r := StepAction.POST Scenario.bob "p-0" "p-1" body Scenario.db1 in
  NextResponse.ok r.1 = true
  ∧ StepAction.actionSchema_safeParse body = Some (StepAction.reject, Some "no budget")
  ∧ processStatus r.2 "p-0" = Some ProcessStatus.REJECTED
  ∧ processStepInstances r.2 !! "p-2" = processStepInstances Scenario.db1 !! "p-2".
Proof.
  intros body r.
  assert (H1 : StepAction.POST Scenario.bob "p-0" "p-1" body Scenario.db1 = (r.1, r.2))
    by apply surjective_pairing.
  assert (H2 : NextResponse.ok r.1 = true) by (vm_compute; reflexivity).
  assert (H3 : StepAction.actionSchema_safeParse body
               = Some (StepAction.reject, Some "no budget")) by (vm_compute; reflexivity).
  destruct (reject_is_terminal _ _ _ _ _ _ _ _ H1 H2 H3)
    as (user & si & p & _ & _ & _ & _ & Hstatus & Hframe & _).
  split_and!; [done..|].
  apply Hframe. discriminate.
Defined.

(** Bob requests changes on the first approval of [p-0]. *)
Lemma request_changes_outcome_witness :
  let body := Scenario.actionBody "request_changes" in
  let r := StepAction.POST Scenario.bob "p-0" "p-1" body Scenario.db1 in
  NextResponse.ok r.1 = true
  ∧ StepAction.actionSchema_safeParse body = Some (StepAction.request_changes, None)
  ∧ processStatus r.2 "p-0" = Some ProcessStatus.CHANGES_REQUESTED
  ∧ processStepInstances r.2 !! "p-2" = processStepInstances Scenario.db1 !! "p-2".
Proof.
  intros body r.
  assert (H1 : StepAction.POST Scenario.bob "p-0" "p-1" body Scenario.db1 = (r.1, r.2))
    by apply surjective_pairing.
  assert (H2 : NextResponse.ok r.1 = true) by (vm_compute; reflexivity).
  assert (H3 : StepAction.actionSchema_safeParse body
               = Some (StepAction.request_changes, None)) by (vm_compute; reflexivity).
  destruct (request_changes_outcome _ _ _ _ _ _ _ _ H1 H2 H3)
    as (user & si & p & _ & _ & _ & _ & Hstatus & Hframe & _).
  split_and!; [done..|].
  apply Hframe. discriminate.
Defined.

(** ** Approve *)

Section LoadedContext.
Import StepAction.

Variables (d : Db) (processId stepId : string) (ctx : StepInstanceWithContext).
Hypothesis Hctx : findStepInstance d stepId = Some (Some ctx).
Hypothesis Hpid : ProcessStepInstance.processInstanceId (stepInstance ctx) = processId.

(** What the handler holds in [ctx] is what the statements read from the
    database. *)
Lemma ctx_stepOrderOf :
  stepOrderOf d stepId = Some (WorkflowStep.stepOrder (workflowStep ctx)).
Proof.
  destruct (findStepInstance_Some _ _ _ Hctx) as (Hsi & Hws & _).
  unfold stepOrderOf. rewrite Hsi. cbn. by rewrite Hws.
Qed.

Lemma ctx_templateStepAt (n : Z) :
  templateStepAt d processId n = find (hasStepOrder n) (workflow_steps ctx).
Proof.
  destruct (findStepInstance_Some _ _ _ Hctx) as (_ & _ & Hp & _ & -> & _).
  unfold templateStepAt. rewrite <- Hpid, Hp. done.
Qed.

Lemma ctx_stepInstanceAt (n : Z) :
  stepInstanceAt d processId n = find (instanceHasStepOrder n) (process_steps ctx).
Proof.
  destruct (findStepInstance_Some _ _ _ Hctx) as (_ & _ & _ & _ & _ & Hsteps).
  unfold stepInstanceAt. rewrite <- Hpid, Hsteps. done.
Qed.

Lemma ctx_processStatus :
  processStatus d processId = Some (ProcessInstance.status (process ctx)).
Proof.
  destruct (findStepInstance_Some _ _ _ Hctx) as (_ & _ & Hp & _).
  unfold processStatus. rewrite <- Hpid, Hp. done.
Qed.

(** The step instance found at another stepOrder is a row of the table
    and is not the acted one. *)
Lemma ctx_other_instance (n : Z) (nsi : StepWithWorkflowStep.t) :
  find (instanceHasStepOrder n) (process_steps ctx) = Some nsi →
  n ≠ WorkflowStep.stepOrder (workflowStep ctx) →
  StepWithWorkflowStep.id nsi ≠ stepId
  ∧ processStepInstances d !! StepWithWorkflowStep.id nsi
    = Some (StepWithWorkflowStep.row nsi).
Proof.
  intros Hfind Hn.
  destruct (findStepInstance_Some _ _ _ Hctx) as (Hsi & Hws & _ & _ & _ & Hsteps).
  apply find_Some_elem in Hfind as [Hin Hord].
  destruct (stepsOfProcess_elem _ _ _ _ Hsteps Hin) as (Hrow & _ & Hjoin).
  unfold instanceHasStepOrder in Hord. apply bool_decide_eq_true in Hord.
  split; [|done].
  intros Heq. rewrite Heq, Hsi in Hrow. injection Hrow as Hrow.
  rewrite <- Hrow, Hws in Hjoin. injection Hjoin as Hjoin.
  rewrite <- Hjoin in Hord. congruence.
Qed.

End LoadedContext.

(** Ann's relay process [r-0] is approval, notice, approval.  Bob rejects
    its last approval [r-3]: the process is REJECTED and the first
    approval [r-1] still PENDING.  Bob then approves [r-1]: the call
    succeeds, the notice [r-2] at stepOrder 2 is completed, a step exists
    at stepOrder 3, and the process is left REJECTED, not IN_PROGRESS. *)
Lemma approve_keeps_rejected_status :
  let d := (StepAction.POST Scenario.bob "r-0" "r-3" (Scenario.actionBody "reject")
              Scenario.db1).2 in
  let r := StepAction.POST Scenario.bobLater "r-0" "r-1"
             (Scenario.actionBody "approve") d in
  processStatus d "r-0" = Some ProcessStatus.REJECTED
  ∧ processStepInstances d !! "r-1"
    = Some (ProcessStepInstance.mk "r-0" "relay-1" StepStatus.PENDING None None None)
  ∧ stepOrderOf d "r-1" = Some 1
  ∧ templateStepAt d "r-0" (1 + 1) = Some ("relay-2", Scenario.notificationStep "relay" 2)
  ∧ templateStepAt d "r-0" (1 + 1 + 1)
    = Some ("relay-3", Scenario.approvalStep "relay" 3)
  ∧ NextResponse.ok r.1 = true
  ∧ NextResponse.status r.1 = 200%nat
  ∧ processStepInstances r.2 !! "r-2"
    = Some (ProcessStepInstance.mk "r-0" "relay-2" StepStatus.COMPLETED
              None (Some 3000) None)
  ∧ processStatus r.2 "r-0" = Some ProcessStatus.REJECTED
  ∧ processStatus r.2 "r-0" ≠ Some ProcessStatus.IN_PROGRESS.
Proof.
  cbn zeta. split_and!; by vm_compute.
Qed.

(** C1, as the handler does it.  A successful approve of a pending
    approval step at stepOrder [n] follows the transition table, except
    that a status is written only where the table says COMPLETED or names
    a FORM or APPROVAL step.  With no template step at [n + 1] the process
    is COMPLETED.  With a NOTIFICATION step at [n + 1] that has a step
    instance, the instance becomes COMPLETED with acted-at = now, its
    actor column is not written (it stays null on an instance that had
    none), the process is COMPLETED when no template step is at [n + 2]
    and keeps the status it had otherwise (IN_PROGRESS when it was
    IN_PROGRESS, REJECTED when an earlier reject made it so), and no step
    instance other than the acted and the auto-completed one changes, so
    a notification at [n + 2] is not completed by this call.  With a FORM
    or APPROVAL step at [n + 1] that has a step instance the process is
    IN_PROGRESS and the next step instance is as it was.  With a template
    step at [n + 1] that has no step instance the process keeps its
    status and only the acted step instance changes. *)
Theorem approve_transition (env : Env) (processId stepId : string) (body : Json)
    (comments : option string) (d d' : Db) (resp : StepAction.Response) (n : Z) :
  StepAction.POST env processId stepId body d = (resp, d') →
  NextResponse.ok resp = true →
  StepAction.actionSchema_safeParse body = Some (StepAction.approve, comments) →
  stepOrderOf d stepId = Some n →
  match templateStepAt d processId (n + 1) with
  | None => processStatus d' processId = Some ProcessStatus.COMPLETED
  | Some next =>
      match stepInstanceAt d processId (n + 1) with
      | None =>
          processStatus d' processId = processStatus d processId
          ∧ (∀ k, k ≠ stepId →
                  processStepInstances d' !! k = processStepInstances d !! k)
      | Some nextInstance =>
          let id := StepWithWorkflowStep.id nextInstance in
          let row := StepWithWorkflowStep.row nextInstance in
          if decide (WorkflowStep.stepType next.2 = NOTIFICATION) then
            processStepInstances d' !! id
            = Some {| ProcessStepInstance.processInstanceId :=
                        ProcessStepInstance.processInstanceId row;
                      ProcessStepInstance.workflowStepId :=
                        ProcessStepInstance.workflowStepId row;
                      ProcessStepInstance.status := StepStatus.COMPLETED;
                      ProcessStepInstance.actedById := ProcessStepInstance.actedById row;
                      ProcessStepInstance.actedAt := Some (now env);
                      ProcessStepInstance.comments := ProcessStepInstance.comments row |}
            ∧ processStatus d' processId
              = match templateStepAt d processId (n + 1 + 1) with
                | None => Some ProcessStatus.COMPLETED
                | Some _ => processStatus d processId
                end
            ∧ (∀ k, k ≠ stepId → k ≠ id →
                    processStepInstances d' !! k = processStepInstances d !! k)
          else
            processStatus d' processId = Some ProcessStatus.IN_PROGRESS
            ∧ processStepInstances d' !! id = Some row
            ∧ (∀ k, k ≠ stepId →
                    processStepInstances d' !! k = processStepInstances d !! k)
      end
  end.
Proof.
  intros HPOST Hok Hbody Hn.
  destruct (POST_ok _ _ _ _ _ _ _ HPOST Hok)
    as (user & action' & comments' & ctx & dT & Hs & _ & Hbody' & Hctx & Hpid & _ & _ & Htx & ->).
  rewrite Hbody in Hbody'. injection Hbody' as <- <-.
  destruct (findStepInstance_Some _ _ _ Hctx) as (Hsi & _ & Hp & _).
  rewrite Hpid in Hp.
  rewrite (ctx_stepOrderOf _ _ _ Hctx) in Hn. injection Hn as <-.
  rewrite !(ctx_templateStepAt _ _ _ _ Hctx Hpid) in *.
  rewrite !(ctx_stepInstanceAt _ _ _ _ Hctx Hpid) in *.
  rewrite (ctx_processStatus _ _ _ _ Hctx Hpid).
  unfold processStatus.
  destruct (afterCommit_tables processId StepAction.approve comments
              (SessionUser.id user) ctx dT) as (_ & _ & _ & _ & -> & ->).
  destruct (find (StepAction.hasStepOrder _) _) as [next|] eqn:Hnext.
  - destruct (find (StepAction.instanceHasStepOrder _) _) as [nsi|] eqn:Hnsi.
    + cbn zeta.
      destruct (ctx_other_instance _ _ _ Hctx _ _ Hnsi) as [Hne Hrow]; [lia|].
      destruct (decide (WorkflowStep.stepType next.2 = NOTIFICATION)) as [Hty|Hty].
      * pose proof (transition_approve_notification _ _ _ _ _ _ _ _ _ _ Hsi Hp
                      _ _ Hnext Hnsi Hty Hne Hrow Htx) as HdT.
        cbn zeta in HdT.
        destruct (find (StepAction.hasStepOrder (_ + 1 + 1)) _); subst dT;
          cbn [processInstances processStepInstances set_processInstances
               set_processStepInstances];
          rewrite ?lookup_insert_eq, ?Hp; (split_and!; [done..|]);
          intros k Hk1 Hk2; by rewrite !lookup_insert_ne.
      * pose proof (transition_approve_next _ _ _ _ _ _ _ _ _ _ Hsi Hp
                      _ _ Hnext Hnsi Hty Htx) as ->.
        cbn [processInstances processStepInstances set_processInstances
             set_processStepInstances].
        rewrite lookup_insert_eq. split_and!; [done| |].
        -- by rewrite lookup_insert_ne.
        -- intros k Hk. by rewrite lookup_insert_ne.
    + pose proof (transition_approve_no_instance _ _ _ _ _ _ _ _ _ Hsi
                    _ Hnext Hnsi Htx) as ->.
      cbn [processInstances processStepInstances set_processInstances
           set_processStepInstances].
      rewrite Hp. split; [done|].
      intros k Hk. by rewrite lookup_insert_ne.
  - pose proof (transition_approve_last _ _ _ _ _ _ _ _ _ _ Hsi Hp Hnext Htx) as ->.
    cbn [processInstances set_processInstances]. by rewrite lookup_insert_eq.
Qed.

(** Bob approves the approval [q-2] of the form, approval, notice process
    [q-0]: the notice [q-3] is completed without an actor and the process
    is COMPLETED. *)
Lemma approve_transition_witness :
  let body := Scenario.actionBody "approve" in
  let r := StepAction.POST Scenario.bob "q-0" "q-2" body Scenario.db1 in
  NextResponse.ok r.1 = true
  ∧ StepAction.actionSchema_safeParse body = Some (StepAction.approve, None)
  ∧ stepOrderOf Scenario.db1 "q-2" = Some 2
  ∧ processStepInstances r.2 !! "q-3"
    = Some (ProcessStepInstance.mk "q-0" "notice-3" StepStatus.COMPLETED
              None (Some 2000) None)
  ∧ processStatus r.2 "q-0" = Some ProcessStatus.COMPLETED.
Proof.
  intros body r.
  assert (H1 : StepAction.POST Scenario.bob "q-0" "q-2" body Scenario.db1 = (r.1, r.2))
    by apply surjective_pairing.
  assert (H2 : NextResponse.ok r.1 = true) by (vm_compute; reflexivity).
  assert (H3 : StepAction.actionSchema_safeParse body
               = Some (StepAction.approve, None)) by (vm_compute; reflexivity).
  assert (H4 : stepOrderOf Scenario.db1 "q-2" = Some 2) by (vm_compute; reflexivity).
  assert (Hnext : templateStepAt Scenario.db1 "q-0" (2 + 1)
                  = Some ("notice-3", Scenario.notificationStep "notice" 3))
    by (vm_compute; reflexivity).
  assert (Hinst : stepInstanceAt Scenario.db1 "q-0" (2 + 1)
                  = Some (StepWithWorkflowStep.mk "q-3"
                            (ProcessStepInstance.mk "q-0" "notice-3" StepStatus.PENDING
                               None None None)
                            (Scenario.notificationStep "notice" 3)))
    by (vm_compute; reflexivity).
  assert (Hlast : templateStepAt Scenario.db1 "q-0" (2 + 1 + 1) = None)
    by (vm_compute; reflexivity).
  pose proof (approve_transition _ _ _ _ _ _ _ _ _ H1 H2 H3 H4) as H.
  rewrite Hnext, Hinst in H.
  cbn in H. destruct H as (Hrow & Hstatus & _).
  rewrite Hlast in Hstatus.
  split_and!; done.
Defined.

(** ** No ordering among the steps, no look at the process status *)

(** The ordered steps of a process can be read exactly when every step
    instance of the process has its workflow step. *)
Lemma stepsOfProcess_is_Some (d : Db) (processId : string) :
  is_Some (stepsOfProcess d processId) ↔
  ∀ k r, processStepInstances d !! k = Some r →
         ProcessStepInstance.processInstanceId r = processId →
         is_Some (workflowSteps d !! ProcessStepInstance.workflowStepId r).
Proof.
  unfold stepsOfProcess.
  transitivity (is_Some (mapM (joinWorkflowStep d)
    (filter (λ s, ProcessStepInstance.processInstanceId s.2 = processId)
       (map_to_list (processStepInstances d))))).
  { destruct (mapM _ _); cbn; split; intros [? ?]; by eauto. }
  rewrite mapM_is_Some, Forall_forall. split.
  - intros H k r Hk Hpid.
    specialize (H (k, r)). cbn in H. unfold joinWorkflowStep in H. cbn in H.
    destruct (workflowSteps d !! _); [by eauto|].
    destruct H as [? H]; [|done].
    apply list_elem_of_filter. split; [done|]. by apply elem_of_map_to_list.
  - intros H [k r] Hin.
    apply list_elem_of_filter in Hin as [Hpid Hin].
    apply elem_of_map_to_list in Hin. cbn in Hpid.
    destruct (H k r Hin Hpid) as [ws Hws].
    cbn. unfold joinWorkflowStep. cbn. rewrite Hws. by eauto.
Qed.

(** Writing the acted columns of a step instance keeps the ordered steps
    of every process readable. *)
Lemma stepsOfProcess_acted (d : Db) (processId stepId : string)
    (si : ProcessStepInstance.t) (data : ProcessStepInstance.t) (q : string) :
  processStepInstances d !! stepId = Some si →
  ProcessStepInstance.processInstanceId data = ProcessStepInstance.processInstanceId si →
  ProcessStepInstance.workflowStepId data = ProcessStepInstance.workflowStepId si →
  is_Some (stepsOfProcess d q) →
  ∀ d', workflowSteps d' = workflowSteps d →
        processStepInstances d' = <[stepId := data]> (processStepInstances d) →
        is_Some (stepsOfProcess d' q).
Proof.
  intros Hsi Hpid Hws Hd d' Hsteps Hrows.
  rewrite stepsOfProcess_is_Some in Hd. apply stepsOfProcess_is_Some.
  intros k r Hk Hq. rewrite Hsteps. rewrite Hrows in Hk.
  destruct (decide (stepId = k)) as [<-|Hne].
  - rewrite lookup_insert_eq in Hk. injection Hk as <-.
    rewrite Hws. apply (Hd stepId si Hsi). congruence.
  - rewrite lookup_insert_ne in Hk by done. by apply (Hd k r).
Qed.

(** C6.  The handler enforces no ordering among the steps of a process and
    never looks at the status of the process: whatever that status is and
    whatever state the other step instances are in, approving a pending
    approval step that no template step follows succeeds, sets the process
    to COMPLETED and leaves every other step instance as it was, an
    earlier pending approval included. *)
Theorem approve_ignores_order (env : Env) (user : SessionUser.t)
    (processId stepId : string) (body : Json) (comments : option string) (d : Db)
    (ctx : StepAction.StepInstanceWithContext) :
  session env = Some user →
  isApprover (SessionUser.role user) = true →
  StepAction.actionSchema_safeParse body = Some (StepAction.approve, comments) →
  StepAction.findStepInstance d stepId = Some (Some ctx) →
  ProcessStepInstance.processInstanceId (StepAction.stepInstance ctx) = processId →
  ProcessStepInstance.status (StepAction.stepInstance ctx) = StepStatus.PENDING →
  WorkflowStep.stepType (StepAction.workflowStep ctx) = APPROVAL →
  templateStepAt d processId (WorkflowStep.stepOrder (StepAction.workflowStep ctx) + 1)
    = None →
  ∃ updatedProcess d',
    StepAction.POST env processId stepId body d = (NextResponse.json updatedProcess 200, d')
    ∧ processStatus d' processId = Some ProcessStatus.COMPLETED
    ∧ (ProcessStepInstance.status <$> processStepInstances d' !! stepId)
      = Some StepStatus.COMPLETED
    ∧ (∀ k, k ≠ stepId → processStepInstances d' !! k = processStepInstances d !! k).
Proof.
  intros Hs Hrole Hbody Hctx Hpid Hpending Hty Hlast.
  destruct (findStepInstance_Some _ _ _ Hctx) as (Hsi & _ & Hp & _ & _ & Hsteps).
  rewrite Hpid in Hp, Hsteps.
  rewrite (ctx_templateStepAt _ _ _ _ Hctx Hpid) in Hlast.
  set (dT := set_processInstances
         (<[processId := ProcessInstance.set_status ProcessStatus.COMPLETED
                           (StepAction.process ctx)]> (processInstances d))
         (set_processStepInstances
            (<[stepId := StepAction.actedData StepAction.approve (SessionUser.id user)
                           (now env) comments (StepAction.stepInstance ctx)]>
               (processStepInstances d)) d)).
  assert (Htx : StepAction.transition processId stepId StepAction.approve comments
                  (SessionUser.id user) (now env) ctx d = Some (tt, dT)).
  { unfold StepAction.transition, tx_bind, processStepInstance_update,
      processInstance_update.
    rewrite Hsi, Hlast.
    cbn [processInstances set_processStepInstances]. by rewrite Hp. }
  set (d' := StepAction.afterCommit processId StepAction.approve comments
               (SessionUser.id user) ctx dT).
  destruct (afterCommit_tables processId StepAction.approve comments
              (SessionUser.id user) ctx dT) as (_ & _ & Hws' & _ & Hp' & Hsi').
  fold d' in Hws', Hp', Hsi'.
  assert (Hfetch : is_Some (stepsOfProcess d' processId)).
  { eapply (stepsOfProcess_acted d processId stepId _
              (StepAction.actedData StepAction.approve (SessionUser.id user) (now env)
                 comments (StepAction.stepInstance ctx)) processId Hsi);
      [done|done|by eauto|by rewrite Hws'|by rewrite Hsi']. }
  destruct Hfetch as [steps' Hfetch].
  exists (Some (ProcessWithSteps.mk processId
                  (ProcessInstance.set_status ProcessStatus.COMPLETED (StepAction.process ctx))
                  steps')), d'.
  split_and!.
  - unfold StepAction.POST. rewrite Hs, Hrole, Hbody, Hctx. cbn [negb].
    rewrite !bool_decide_eq_true_2 by done. cbn [negb].
    rewrite Htx. cbn zeta. fold d'.
    unfold findProcessWithSteps. rewrite Hp'. subst dT. cbn [processInstances set_processInstances].
    rewrite lookup_insert_eq, Hfetch. done.
  - unfold processStatus. rewrite Hp'. subst dT. cbn [processInstances set_processInstances].
    by rewrite lookup_insert_eq.
  - rewrite Hsi'. subst dT. cbn [processStepInstances set_processInstances set_processStepInstances].
    by rewrite lookup_insert_eq.
  - intros k Hk. rewrite Hsi'. subst dT.
    cbn [processStepInstances set_processInstances set_processStepInstances].
    by rewrite lookup_insert_ne.
Qed.

(** The process [p-0] has two pending approvals.  Bob approves the second
    one, [p-2], first: the call succeeds, the process is COMPLETED and the
    first approval [p-1] is still PENDING. *)
Lemma approve_ignores_order_witness :
  let body := Scenario.actionBody "approve" in
  let first := ProcessStepInstance.mk "p-0" "two-1" StepStatus.PENDING None None None in
  let second := ProcessStepInstance.mk "p-0" "two-2" StepStatus.PENDING None None None in
  let ctx :=
    StepAction.mkContext second (Scenario.approvalStep "two" 2)
      (ProcessInstance.mk "two" "ann" (JObject JEnd) ProcessStatus.IN_PROGRESS)
      (WorkflowTemplate.mk "Two approvals" WorkflowStatus.ACTIVE)
      [("two-1", Scenario.approvalStep "two" 1); ("two-2", Scenario.approvalStep "two" 2)]
      [StepWithWorkflowStep.mk "p-1" first (Scenario.approvalStep "two" 1);
       StepWithWorkflowStep.mk "p-2" second (Scenario.approvalStep "two" 2)] in
  let r := StepAction.POST Scenario.bob "p-0" "p-2" body Scenario.db1 in
  StepAction.findStepInstance Scenario.db1 "p-2" = Some (Some ctx)
  ∧ processStepInstances Scenario.db1 !! "p-1" = Some first
  ∧ templateStepAt Scenario.db1 "p-0" (2 + 1) = None
  ∧ NextResponse.status r.1 = 200%nat
  ∧ processStatus r.2 "p-0" = Some ProcessStatus.COMPLETED
  ∧ processStepInstances r.2 !! "p-1" = Some first.
Proof.
  intros body first second ctx r.
  assert (Hctx : StepAction.findStepInstance Scenario.db1 "p-2" = Some (Some ctx))
    by (vm_compute; reflexivity).
  assert (Hfirst : processStepInstances Scenario.db1 !! "p-1" = Some first)
    by (vm_compute; reflexivity).
  assert (Hlast : templateStepAt Scenario.db1 "p-0" (2 + 1) = None)
    by (vm_compute; reflexivity).
  destruct (approve_ignores_order Scenario.bob (SessionUser.mk "bob" APPROVER)
              "p-0" "p-2" body None Scenario.db1 ctx)
    as (updatedProcess & d' & HPOST & Hstatus & _ & Hframe);
    [reflexivity | reflexivity | vm_compute; reflexivity | exact Hctx
    | reflexivity | reflexivity | reflexivity | exact Hlast |].
  assert (Hr : r = (NextResponse.json updatedProcess 200, d')) by exact HPOST.
  rewrite Hr. cbn [fst snd NextResponse.status].
  split_and!; [done..|].
  rewrite Hframe by discriminate. exact Hfirst.
Defined.

(** ** The order of the checks *)

(** A caller without the elevated role who names a step instance that
    does not exist is answered 403 Forbidden, not 404: the role is checked
    before the step instance is looked up. *)
Lemma role_checked_before_existence :
  let r := StepAction.POST (Scenario.ann "z") "p-0" "missing"
             (Scenario.actionBody "approve") Scenario.db1 in
  processStepInstances Scenario.db1 !! "missing" = None
  ∧ r = (NextResponse.error "Forbidden" 403, Scenario.db1)
  ∧ errorKind r.1 = Some ForbiddenError
  ∧ errorKind r.1 ≠ Some NotFoundError.
Proof.
  cbn zeta. split_and!; [by vm_compute..|discriminate].
Qed.

(** C3, as the handler does it.  For an authenticated caller the checks
    run in this order, each answering with its own error and leaving the
    database as it was: the elevated role (403, ForbiddenError) first; for
    a well-formed body, the existence of the step instance (404,
    NotFoundError); then that it belongs to the process of the path (400,
    ValidationError); then that it is PENDING (400); then that its step
    is an APPROVAL step (400).  A check answers whatever the later checks
    would have said; in particular a caller without the role gets 403
    whether or not the step instance exists. *)
Theorem preconditions_in_order (env : Env) (user : SessionUser.t)
    (processId stepId : string) (body : Json) (d : Db) :
  session env = Some user →
  (isApprover (SessionUser.role user) = false →
   StepAction.POST env processId stepId body d = (NextResponse.error "Forbidden" 403, d))
  ∧ (isApprover (SessionUser.role user) = true →
     is_Some (StepAction.actionSchema_safeParse body) →
     (processStepInstances d !! stepId = None →
      StepAction.POST env processId stepId body d
      = (NextResponse.error "Step not found" 404, d))
     ∧ (∀ ctx, StepAction.findStepInstance d stepId = Some (Some ctx) →
          let si := StepAction.stepInstance ctx in
          (ProcessStepInstance.processInstanceId si ≠ processId →
           StepAction.POST env processId stepId body d
           = (NextResponse.error "Step does not belong to this process" 400, d))
          ∧ (ProcessStepInstance.processInstanceId si = processId →
             ProcessStepInstance.status si ≠ StepStatus.PENDING →
             StepAction.POST env processId stepId body d
             = (NextResponse.error "Step is not pending" 400, d))
          ∧ (ProcessStepInstance.processInstanceId si = processId →
             ProcessStepInstance.status si = StepStatus.PENDING →
             WorkflowStep.stepType (StepAction.workflowStep ctx) ≠ APPROVAL →
             StepAction.POST env processId stepId body d
             = (NextResponse.error "This step type does not support approval actions" 400,
                d)))).
Proof.
  intros Hs. unfold StepAction.POST. rewrite Hs. split.
  - by intros ->.
  - intros -> [[action comments] ->]. cbn [negb]. split.
    + intros Hnone. apply findStepInstance_None in Hnone. by rewrite Hnone.
    + intros ctx ->. cbn zeta. split_and!.
      * intros Hne. by rewrite bool_decide_eq_false_2.
      * intros Heq Hne. rewrite bool_decide_eq_true_2 by done. cbn [negb].
        by rewrite bool_decide_eq_false_2.
      * intros Heq Hpending Hne. rewrite !bool_decide_eq_true_2 by done. cbn [negb].
        by rewrite bool_decide_eq_false_2.
Qed.

(** Ann, who is no approver, names a step instance that does not exist. *)
Lemma preconditions_in_order_witness :
  session (Scenario.ann "z") = Some (SessionUser.mk "ann" USER)
  ∧ StepAction.POST (Scenario.ann "z") "p-0" "missing" (Scenario.actionBody "approve")
      Scenario.db1
    = (NextResponse.error "Forbidden" 403, Scenario.db1).
Proof.
  split; [reflexivity|].
  apply (preconditions_in_order (Scenario.ann "z") (SessionUser.mk "ann" USER)
           "p-0" "missing" (Scenario.actionBody "approve") Scenario.db1 eq_refl).
  reflexivity.
Defined.

(** ** Terminal process statuses *)

(** Ann starts a process with two approvals, Bob rejects the first one:
    the process is REJECTED and its second approval is still PENDING.  Bob
    then approves that second approval: the call succeeds and turns the
    REJECTED process into a COMPLETED one. *)
Lemma rejected_process_still_acts :
  let r := StepAction.POST Scenario.bobLater "p-0" "p-2"
             (Scenario.actionBody "approve") Scenario.db2 in
  processStatus Scenario.db2 "p-0" = Some ProcessStatus.REJECTED
  ∧ processStepInstances Scenario.db2 !! "p-2"
    = Some (ProcessStepInstance.mk "p-0" "two-2" StepStatus.PENDING None None None)
  ∧ NextResponse.ok r.1 = true
  ∧ NextResponse.status r.1 = 200%nat
  ∧ processStatus r.2 "p-0" = Some ProcessStatus.COMPLETED.
Proof.
  cbn zeta. split_and!; by vm_compute.
Qed.

(** C5, as the handler does it.  The handler looks at the step instance
    only, never at the status of the process: against a process that has
    no pending approval step instance left (whatever its status,
    COMPLETED and REJECTED included) every call fails and leaves the
    database as it was. *)
Theorem no_pending_approval_no_action (env : Env) (processId stepId : string)
    (body : Json) (d : Db) :
  pendingApprovals d processId = [] →
  ∃ message status,
    StepAction.POST env processId stepId body d = (NextResponse.error message status, d).
Proof.
  intros Hnone. unfold StepAction.POST.
  destruct (session env) as [user|]; [|by eauto].
  destruct (negb _); [by eauto|].
  destruct (StepAction.actionSchema_safeParse body) as [[action comments]|]; [|by eauto].
  destruct (StepAction.findStepInstance d stepId) as [[ctx|]|] eqn:Hctx; [|by eauto..].
  repeat (case_bool_decide; cbn [negb]; [|by eauto]).
  exfalso.
  destruct (findStepInstance_Some _ _ _ Hctx) as (Hsi & Hws & _ & _ & _ & Hsteps).
  match goal with H : _ = processId |- _ => rewrite H in Hsteps end.
  destruct (stepsOfProcess_complete _ _ _ _ _ Hsteps Hsi) as (ws & Hws' & Hin); [done|].
  rewrite Hws in Hws'. injection Hws' as <-.
  unfold pendingApprovals in Hnone. rewrite Hsteps in Hnone.
  assert (Hin' : StepWithWorkflowStep.mk stepId (StepAction.stepInstance ctx)
                   (StepAction.workflowStep ctx)
                 ∈ filter (λ s, isPendingApproval s = true) (StepAction.process_steps ctx)).
  { apply list_elem_of_filter. split; [|done].
    unfold isPendingApproval. cbn. by rewrite !bool_decide_eq_true_2. }
  rewrite Hnone in Hin'. by apply elem_of_nil in Hin'.
Qed.

(** The process [q-0] is COMPLETED with every step done: approving its
    approval step again is refused. *)
Lemma no_pending_approval_no_action_witness :
  processStatus Scenario.db3 "q-0" = Some ProcessStatus.COMPLETED
  ∧ pendingApprovals Scenario.db3 "q-0" = []
  ∧ ∃ message status,
      StepAction.POST Scenario.bobLater "q-0" "q-2" (Scenario.actionBody "approve")
        Scenario.db3
      = (NextResponse.error message status, Scenario.db3).
Proof.
  split; [by vm_compute|]. split; [by vm_compute|].
  apply no_pending_approval_no_action. by vm_compute.
Defined.

(** ** Notification of the approvers after an approve *)

Lemma tx_ret_frame {A} (a : A) : writesProcessTablesOnly (tx_ret a).
Proof. intros d a' d' H. unfold tx_ret in H. by simplify_eq. Qed.

Lemma tx_bind_frame {A B} (m : Tx A) (k : A → Tx B) :
  writesProcessTablesOnly m →
  (∀ a, writesProcessTablesOnly (k a)) →
  writesProcessTablesOnly (tx_bind m k).
Proof.
  intros Hm Hk d b d' H. unfold tx_bind in H.
  destruct (m d) as [[a d1]|] eqn:Hmd; [|done].
  destruct (Hm _ _ _ Hmd) as (<- & <- & <- & <- & <- & <-).
  exact (Hk a _ _ _ H).
Qed.

Lemma processStepInstance_update_frame (id : string)
    (data : ProcessStepInstance.t → ProcessStepInstance.t) :
  writesProcessTablesOnly (processStepInstance_update id data).
Proof.
  intros d a d' H. unfold processStepInstance_update in H.
  destruct (processStepInstances d !! id); by simplify_eq.
Qed.

Lemma processInstance_update_frame (id : string)
    (data : ProcessInstance.t → ProcessInstance.t) :
  writesProcessTablesOnly (processInstance_update id data).
Proof.
  intros d a d' H. unfold processInstance_update in H.
  destruct (processInstances d !! id); by simplify_eq.
Qed.

Lemma processStepInstance_create_frame (id : string) (r : ProcessStepInstance.t) :
  writesProcessTablesOnly (processStepInstance_create id r).
Proof.
  intros d a d' H. unfold processStepInstance_create in H.
  destruct (processStepInstances d !! id); by simplify_eq.
Qed.

Lemma processInstance_create_frame (id : string) (r : ProcessInstance.t) :
  writesProcessTablesOnly (processInstance_create id r).
Proof.
  intros d a d' H. unfold processInstance_create in H.
  destruct (processInstances d !! id); by simplify_eq.
Qed.

Create HintDb tx_frame.
#[local] Hint Resolve tx_ret_frame processStepInstance_update_frame
  processInstance_update_frame processStepInstance_create_frame
  processInstance_create_frame : tx_frame.

Lemma transition_frame (processId stepId : string) (action : StepAction.Action)
    (comments : option string) (userId : string) (now : Date)
    (ctx : StepAction.StepInstanceWithContext) :
  writesProcessTablesOnly
    (StepAction.transition processId stepId action comments userId now ctx).
Proof.
  unfold StepAction.transition.
  apply tx_bind_frame; [auto with tx_frame|]. intros _.
  repeat case_match; repeat (apply tx_bind_frame; [|intros _]); auto with tx_frame.
Qed.

Lemma approverNotifications_users (processId name : string) (d1 d2 : Db) :
  users d1 = users d2 →
  approverNotifications processId name d1 = approverNotifications processId name d2.
Proof. intros H. unfold approverNotifications, approvers. by rewrite H. Qed.

(** C10.  After a successful approve of a step at stepOrder [n] the
    creator of the process gets one UPDATE notification, and the approver
    pool is notified (one ACTION_REQUIRED notification for every user
    with the ADMIN or APPROVER role) exactly when the template has an
    APPROVAL step at [n + 1].  When the steps at [n + 1] are not APPROVAL
    steps (a NOTIFICATION step that the call auto-completed, say) the pool
    is not notified, whatever the type of the step at [n + 2]. *)
Theorem approvers_notified_iff_next_is_approval (env : Env) (processId stepId : string)
    (body : Json) (comments : option string) (d d' : Db) (resp : StepAction.Response)
    (n : Z) (p : ProcessInstance.t) (w : WorkflowTemplate.t) :
  StepAction.POST env processId stepId body d = (resp, d') →
  NextResponse.ok resp = true →
  StepAction.actionSchema_safeParse body = Some (StepAction.approve, comments) →
  stepOrderOf d stepId = Some n →
  processInstances d !! processId = Some p →
  workflowTemplates d !! ProcessInstance.workflowTemplateId p = Some w →
  let steps := stepsOfTemplate d (ProcessInstance.workflowTemplateId p) in
  let pool := approverNotifications processId (WorkflowTemplate.name w) d in
  ∃ message,
    let note := Notification.mk (ProcessInstance.createdById p) (Some processId)
                  message UPDATE false in
    ((∃ s, s ∈ steps ∧ WorkflowStep.stepOrder s.2 = n + 1
           ∧ WorkflowStep.stepType s.2 = APPROVAL) →
     notifications d' = (notifications d ++ [note] ++ pool)%list)
    ∧ ((∀ s, s ∈ steps → WorkflowStep.stepOrder s.2 = n + 1 →
             WorkflowStep.stepType s.2 ≠ APPROVAL) →
       notifications d' = (notifications d ++ [note])%list).
Proof.
  intros HPOST Hok Hbody Hn Hp Hw.
  destruct (POST_ok _ _ _ _ _ _ _ HPOST Hok)
    as (user & action' & comments' & ctx & dT & Hs & _ & Hbody' & Hctx & Hpid & _ & _ & Htx & ->).
  rewrite Hbody in Hbody'. injection Hbody' as <- <-.
  destruct (findStepInstance_Some _ _ _ Hctx) as (_ & _ & Hp' & Hw' & Hsteps & _).
  rewrite Hpid, Hp in Hp'. injection Hp' as Hp'. rewrite <- Hp' in Hw', Hsteps.
  rewrite Hw in Hw'. injection Hw' as Hw'.
  rewrite (ctx_stepOrderOf _ _ _ Hctx) in Hn. injection Hn as Hn.
  destruct (transition_frame _ _ _ _ _ _ _ _ _ _ Htx) as (Husers & _ & _ & _ & _ & Hnotes).
  cbn zeta. unfold StepAction.afterCommit, notifyProcessCreator, StepAction.notificationAction.
  cbn zeta. rewrite <- Hp', <- Hw'.
  eexists. split.
  - intros Hsome.
    destruct (StepAction.nextApprovalStep ctx) eqn:Hfind.
    + rewrite notifyApprovers_notifications. cbn [notifications createNotification
        createAuditLog set_notifications set_auditLogs].
      rewrite Hnotes, <- app_assoc.
      by rewrite (approverNotifications_users _ _ _ d) by exact Husers.
    + exfalso. destruct Hsome as (s & Hin & Hord & Hty).
      unfold StepAction.nextApprovalStep in Hfind. rewrite Hsteps in Hfind.
      pose proof (find_None_elem _ _ _ Hfind Hin) as Hf. cbn beta in Hf.
      unfold StepAction.hasStepOrder in Hf.
      rewrite Hn, !bool_decide_eq_true_2 in Hf by done. done.
  - intros Hnone.
    destruct (StepAction.nextApprovalStep ctx) as [s|] eqn:Hfind.
    + exfalso. unfold StepAction.nextApprovalStep in Hfind. rewrite Hsteps in Hfind.
      apply find_Some_elem in Hfind as [Hin Hf].
      apply andb_true_iff in Hf as [Hord Hty].
      apply bool_decide_eq_true in Hord, Hty.
      apply (Hnone s Hin); [by rewrite <- Hn | done].
    + cbn [notifications createNotification createAuditLog set_notifications
           set_auditLogs]. by rewrite Hnotes.
Qed.

(** Bob approves the first approval [r-1] of the approval, notice,
    approval process [r-0]: the notice is auto-completed, an approval is
    next, and the only notification goes to Ann, the creator; the pool of
    two approvers gets none. *)
Lemma approvers_notified_iff_next_is_approval_witness :
  let body := Scenario.actionBody "approve" in
  let r := StepAction.POST Scenario.bob "r-0" "r-1" body Scenario.db1 in
  NextResponse.ok r.1 = true
  ∧ stepOrderOf Scenario.db1 "r-1" = Some 1
  ∧ templateStepAt Scenario.db1 "r-0" 2 = Some ("relay-2", Scenario.notificationStep "relay" 2)
  ∧ templateStepAt Scenario.db1 "r-0" 3 = Some ("relay-3", Scenario.approvalStep "relay" 3)
  ∧ (ProcessStepInstance.status <$> processStepInstances r.2 !! "r-2")
    = Some StepStatus.COMPLETED
  ∧ length (approverNotifications "r-0" "Relay" Scenario.db1) = 2%nat
  ∧ ∃ message,
      notifications r.2
      = (notifications Scenario.db1
         ++ [Notification.mk "ann" (Some "r-0") message UPDATE false])%list.
Proof.
  intros body r.
  assert (H1 : StepAction.POST Scenario.bob "r-0" "r-1" body Scenario.db1 = (r.1, r.2))
    by apply surjective_pairing.
  assert (H2 : NextResponse.ok r.1 = true) by (vm_compute; reflexivity).
  assert (H3 : StepAction.actionSchema_safeParse body
               = Some (StepAction.approve, None)) by (vm_compute; reflexivity).
  assert (H4 : stepOrderOf Scenario.db1 "r-1" = Some 1) by (vm_compute; reflexivity).
  assert (H5 : processInstances Scenario.db1 !! "r-0"
               = Some (ProcessInstance.mk "relay" "ann" (JObject JEnd)
                         ProcessStatus.IN_PROGRESS)) by (vm_compute; reflexivity).
  assert (H6 : workflowTemplates Scenario.db1 !! "relay"
               = Some (WorkflowTemplate.mk "Relay" WorkflowStatus.ACTIVE))
    by (vm_compute; reflexivity).
  assert (Hsteps : stepsOfTemplate Scenario.db1 "relay"
                   = [("relay-1", Scenario.approvalStep "relay" 1);
                      ("relay-2", Scenario.notificationStep "relay" 2);
                      ("relay-3", Scenario.approvalStep "relay" 3)])
    by (vm_compute; reflexivity).
  destruct (approvers_notified_iff_next_is_approval _ _ _ _ _ _ _ _ _ _ _ H1 H2 H3 H4 H5 H6)
    as (message & _ & Hquiet).
  split_and!;
    [exact H2 | exact H4 | by vm_compute | by vm_compute | by vm_compute | by vm_compute |].
  exists message. apply Hquiet.
  intros s Hin Hord. cbn [ProcessInstance.workflowTemplateId] in Hin.
  rewrite Hsteps in Hin.
  repeat (apply elem_of_cons in Hin as [->|Hin]);
    [discriminate Hord | discriminate | discriminate Hord |].
  apply elem_of_nil in Hin. destruct Hin.
Defined.

(** ** Creation: the preconditions *)

(** C7.  For an authenticated caller and a well-formed body, creation
    fails with 404 (NotFoundError) when the template does not exist, with
    400 (ValidationError) when the template is not ACTIVE, and with 400
    when it has no step.  In each case the database after the call is the
    database before it: no process, step instance, audit entry or
    notification has been written. *)
Theorem createProcess_preconditions (env : Env) (user : SessionUser.t) (body : Json)
    (workflowTemplateId : string) (formData : Json) (d : Db) :
  session env = Some user →
  CreateProcess.createProcessSchema_safeParse body = Some (workflowTemplateId, formData) →
  (workflowTemplates d !! workflowTemplateId = None →
   CreateProcess.POST env body d = (NextResponse.error "Workflow not found" 404, d))
  ∧ (∀ w, workflowTemplates d !! workflowTemplateId = Some w →
       (WorkflowTemplate.status w ≠ WorkflowStatus.ACTIVE →
        CreateProcess.POST env body d
        = (NextResponse.error "Workflow is not active" 400, d))
       ∧ (WorkflowTemplate.status w = WorkflowStatus.ACTIVE →
          stepsOfTemplate d workflowTemplateId = [] →
          CreateProcess.POST env body d
          = (NextResponse.error "Workflow has no steps defined" 400, d))).
Proof.
  intros Hs Hbody. unfold CreateProcess.POST, CreateProcess.findWorkflow.
  rewrite Hs, Hbody. split.
  - by intros ->.
  - intros w ->. cbn. split.
    + intros Hne. by rewrite bool_decide_eq_false_2.
    + intros Heq Hnil. rewrite bool_decide_eq_true_2 by done. cbn [negb].
      by rewrite Hnil.
Qed.

(** Ann asks for a process of a template that does not exist. *)
Lemma createProcess_preconditions_witness :
  session (Scenario.ann "n") = Some (SessionUser.mk "ann" USER)
  ∧ CreateProcess.createProcessSchema_safeParse (Scenario.createBody "nowhere")
    = Some ("nowhere", JObject JEnd)
  ∧ workflowTemplates Scenario.db1 !! "nowhere" = None
  ∧ CreateProcess.POST (Scenario.ann "n") (Scenario.createBody "nowhere") Scenario.db1
    = (NextResponse.error "Workflow not found" 404, Scenario.db1).
Proof.
  assert (Hbody : CreateProcess.createProcessSchema_safeParse (Scenario.createBody "nowhere")
                  = Some ("nowhere", JObject JEnd)) by (vm_compute; reflexivity).
  assert (Hnone : workflowTemplates Scenario.db1 !! "nowhere" = None)
    by (vm_compute; reflexivity).
  split_and!; [reflexivity | exact Hbody | exact Hnone |].
  exact (proj1 (createProcess_preconditions (Scenario.ann "n") (SessionUser.mk "ann" USER)
                  (Scenario.createBody "nowhere") "nowhere" (JObject JEnd) Scenario.db1
                  eq_refl Hbody) Hnone).
Defined.

(** ** Template status: the activation guards *)

(** C9.  For an administrator, a well-formed body and an existing
    template: the transition to ACTIVE fails with 400 (ValidationError)
    when the template has no step, and when one of its steps is a FORM
    step while it has no form schema; the database, and with it the status
    of the template, is then as it was.  The guards apply to ACTIVE only:
    the transition to DRAFT or ARCHIVED succeeds and stores the new
    status, whatever the steps and the form schema are. *)
Theorem activation_guards (env : Env) (user : SessionUser.t) (id : string) (body : Json)
    (status : WorkflowStatus.t) (w : WorkflowTemplate.t) (d : Db) :
  session env = Some user →
  SessionUser.role user = ADMIN →
  StatusRoute.updateStatusSchema_safeParse body = Some status →
  workflowTemplates d !! id = Some w →
  (status = WorkflowStatus.ACTIVE →
   (∀ k s, workflowSteps d !! k = Some s → WorkflowStep.workflowTemplateId s ≠ id) →
   StatusRoute.PATCH env id body d
   = (NextResponse.error "Workflow must have at least one step to be activated" 400, d))
  ∧ (status = WorkflowStatus.ACTIVE →
     (∃ k s, workflowSteps d !! k = Some s ∧ WorkflowStep.workflowTemplateId s = id
             ∧ WorkflowStep.stepType s = FORM) →
     formSchemas d !! id = None →
     StatusRoute.PATCH env id body d
     = (NextResponse.error "Workflow with form step must have a form schema defined" 400, d))
  ∧ (status ≠ WorkflowStatus.ACTIVE →
     ∃ updated d',
       StatusRoute.PATCH env id body d = (NextResponse.json updated 200, d')
       ∧ workflowTemplates d'
         = <[id := WorkflowTemplate.mk (WorkflowTemplate.name w) status]> (workflowTemplates d)).
Proof.
  intros Hs Hrole Hbody Hw.
  unfold StatusRoute.PATCH, StatusRoute.findWorkflow. rewrite Hs, Hrole, Hbody, Hw.
  rewrite (bool_decide_eq_true_2 (ADMIN = ADMIN)) by done.
  cbn [negb mbind option_bind]. unfold StatusRoute.activationError.
  cbn [StatusRoute.steps StatusRoute.formSchema StatusRoute.workflow].
  split_and!.
  - intros -> Hnone. rewrite (bool_decide_eq_true_2 (_ = WorkflowStatus.ACTIVE)) by done.
    destruct (filter _ _) as [|[k s] l] eqn:Hl; [done|]. exfalso.
    assert (Hin : (k, s) ∈ filter
              (λ s : string * WorkflowStep.t, WorkflowStep.workflowTemplateId s.2 = id)
              (map_to_list (workflowSteps d))) by (rewrite Hl; left).
    apply list_elem_of_filter in Hin as [Hid Hin].
    apply elem_of_map_to_list in Hin. by eapply Hnone.
  - intros -> (k & s & Hk & Hid & Hty) Hschema.
    rewrite (bool_decide_eq_true_2 (_ = WorkflowStatus.ACTIVE)) by done.
    assert (Hin : (k, s) ∈ filter
              (λ s : string * WorkflowStep.t, WorkflowStep.workflowTemplateId s.2 = id)
              (map_to_list (workflowSteps d))).
    { apply list_elem_of_filter. split; [done|]. by apply elem_of_map_to_list. }
    destruct (filter _ _) as [|x l] eqn:Hl; [by apply elem_of_nil in Hin|].
    cbn [length]. rewrite (bool_decide_eq_false_2 (S _ = 0%nat)) by done.
    replace (StatusRoute.hasFormStep (x :: l)) with true.
    + rewrite Hschema. done.
    + symmetry. apply existsb_exists. exists (k, s).
      split; [by apply list_elem_of_In|]. cbn. by rewrite bool_decide_eq_true_2.
  - intros Hne. rewrite (bool_decide_eq_false_2 (_ = WorkflowStatus.ACTIVE)) by done.
    eexists _, _. split; [reflexivity|]. done.
Qed.

(** Eve, an administrator, tries to activate the template without steps. *)
Lemma activation_guards_witness :
  session Scenario.eve = Some (SessionUser.mk "eve" ADMIN)
  ∧ StatusRoute.updateStatusSchema_safeParse (Scenario.statusBody "ACTIVE")
    = Some WorkflowStatus.ACTIVE
  ∧ workflowTemplates Scenario.db0 !! "empty"
    = Some (WorkflowTemplate.mk "Empty" WorkflowStatus.DRAFT)
  ∧ StatusRoute.PATCH Scenario.eve "empty" (Scenario.statusBody "ACTIVE") Scenario.db0
    = (NextResponse.error "Workflow must have at least one step to be activated" 400,
       Scenario.db0).
Proof.
  assert (Hbody : StatusRoute.updateStatusSchema_safeParse (Scenario.statusBody "ACTIVE")
                  = Some WorkflowStatus.ACTIVE) by (vm_compute; reflexivity).
  assert (Hw : workflowTemplates Scenario.db0 !! "empty"
               = Some (WorkflowTemplate.mk "Empty" WorkflowStatus.DRAFT))
    by (vm_compute; reflexivity).
  split_and!; [reflexivity | exact Hbody | exact Hw |].
  apply (activation_guards Scenario.eve (SessionUser.mk "eve" ADMIN) "empty"
           (Scenario.statusBody "ACTIVE") WorkflowStatus.ACTIVE
           (WorkflowTemplate.mk "Empty" WorkflowStatus.DRAFT) Scenario.db0
           eq_refl eq_refl Hbody Hw); [reflexivity|].
  intros k s Hk Hid.
  assert (Hin : (k, s) ∈ filter
            (λ s : string * WorkflowStep.t, WorkflowStep.workflowTemplateId s.2 = "empty")
            (map_to_list (workflowSteps Scenario.db0))).
  { apply list_elem_of_filter. split; [done|]. by apply elem_of_map_to_list. }
  assert (Hnil : filter
            (λ s : string * WorkflowStep.t, WorkflowStep.workflowTemplateId s.2 = "empty")
            (map_to_list (workflowSteps Scenario.db0)) = []) by (vm_compute; reflexivity).
  rewrite Hnil in Hin. apply elem_of_nil in Hin. destruct Hin.
Defined.

(** ** Creation: the process and its step instances *)

Section Sorted.
Context {A : Type} (key : A → Z).

Let le (a b : A) : Prop := (key a ≤ key b)%Z.

Lemma insertBy_sorted (x : A) (l : list A) :
  StronglySorted le l → StronglySorted le (insertBy key x l).
Proof.
  induction 1 as [|y l Hl IH Hy]; cbn [insertBy].
  - repeat constructor.
  - destruct (Z.leb_spec (key x) (key y)) as [Hle|Hlt].
    + constructor; [by constructor|].
      constructor; [done|].
      eapply Forall_impl; [exact Hy|]. intros z Hz. unfold le in *. lia.
    + constructor; [done|].
      apply Forall_forall. intros z Hz.
      apply elem_of_insertBy in Hz as [->|Hz].
      * unfold le. lia.
      * by eapply Forall_forall in Hy.
Qed.

(** [orderBy] yields its rows by ascending key. *)
Lemma orderBy_sorted (l : list A) : StronglySorted le (orderBy key l).
Proof.
  unfold orderBy. induction l as [|x l IH]; cbn [foldr].
  - constructor.
  - by apply insertBy_sorted.
Qed.
End Sorted.

Section CreateStepInstances.
Import CreateProcess.

Variables (cuid : nat → string) (processId userId : string) (now : Date).

(** The step instances created for the steps from [index] on: one row
    per step under a key of its own, nothing else touched. *)
Lemma createStepInstances_spec (steps : list (string * WorkflowStep.t)) :
  ∀ (index : nat) (d d' : Db) (created : list (string * ProcessStepInstance.t)),
    createStepInstances cuid processId userId now index steps d = Some (created, d') →
    processInstances d' = processInstances d
    ∧ (∀ i step, steps !! i = Some step →
         processStepInstances d !! cuid (S (index + i)) = None
         ∧ processStepInstances d' !! cuid (S (index + i))
           = Some (stepInstanceData processId userId now (index + i)%nat step))
    ∧ (∀ i j step step', steps !! i = Some step → steps !! j = Some step' →
         cuid (S (index + i)) = cuid (S (index + j)) → i = j)
    ∧ (∀ k, (∀ i, (i < length steps)%nat → k ≠ cuid (S (index + i))) →
            processStepInstances d' !! k = processStepInstances d !! k).
Proof.
  induction steps as [|step rest IH]; intros index d d' created H.
  - cbn in H. unfold tx_ret in H. simplify_eq.
    split_and!; [done| | |done]; intros; by simplify_list_eq.
  - cbn [createStepInstances] in H. unfold tx_bind, processStepInstance_create in H.
    destruct (processStepInstances d !! cuid (S index)) eqn:Hfree; [done|].
    destruct (createStepInstances _ _ _ _ _ rest _) as [[sis d1]|] eqn:Hrest; [|done].
    unfold tx_ret in H. simplify_eq.
    destruct (IH _ _ _ _ Hrest) as (Hp & Hrows & Hinj & Hframe).
    cbn [processInstances processStepInstances set_processStepInstances] in *.
    assert (Hhead : ∀ i s, rest !! i = Some s → cuid (S index) ≠ cuid (S (S index + i))).
    { intros i s Hi Heq. destruct (Hrows i s Hi) as [Hnone _].
      rewrite <- Heq, lookup_insert_eq in Hnone. done. }
    split_and!.
    + done.
    + intros [|i] s Hi; cbn in Hi.
      * simplify_eq. rewrite Nat.add_0_r. split; [done|].
        rewrite Hframe, lookup_insert_eq; [done|].
        intros i0 Hi0 Heq. apply lookup_lt_is_Some in Hi0 as [s0 Hi0]. by eapply Hhead.
      * replace (index + S i)%nat with (S index + i)%nat by lia.
        destruct (Hrows i s Hi) as [Hnone Hsome]. split; [|done].
        rewrite lookup_insert_ne in Hnone; [done|]. by eapply Hhead.
    + intros [|i] [|j] s s' Hi Hj Heq; cbn in Hi, Hj.
      * done.
      * exfalso. rewrite Nat.add_0_r in Heq.
        replace (index + S j)%nat with (S index + j)%nat in Heq by lia.
        by eapply Hhead.
      * exfalso. rewrite Nat.add_0_r in Heq.
        replace (index + S i)%nat with (S index + i)%nat in Heq by lia.
        symmetry in Heq. by eapply Hhead.
      * f_equal. eapply Hinj; [done..|].
        by replace (S index + i)%nat with (index + S i)%nat by lia;
           replace (S index + j)%nat with (index + S j)%nat by lia.
    + intros k Hk. rewrite Hframe.
      * rewrite lookup_insert_ne; [done|].
        intros Heq. apply (Hk 0%nat); [cbn; lia|]. by rewrite Nat.add_0_r.
      * intros i Hi. replace (S index + i)%nat with (index + S i)%nat by lia.
        apply Hk. cbn. lia.
Qed.

Lemma createStepInstances_frame (steps : list (string * WorkflowStep.t)) (index : nat) :
  writesProcessTablesOnly (createStepInstances cuid processId userId now index steps).
Proof.
  revert index. induction steps as [|step rest IH]; intros index; cbn [createStepInstances].
  - apply tx_ret_frame.
  - apply tx_bind_frame; [apply processStepInstance_create_frame|]. intros si.
    apply tx_bind_frame; [apply IH|]. intros sis. apply tx_ret_frame.
Qed.

End CreateStepInstances.

Lemma createProcess_afterCommit_tables (userId processId : string) (formData : Json)
    (w : CreateProcess.WorkflowWithSteps) (d : Db) :
  let d' := CreateProcess.afterCommit userId processId formData w d in
  workflowSteps d' = workflowSteps d
  ∧ processInstances d' = processInstances d
  ∧ processStepInstances d' = processStepInstances d.
Proof.
  unfold CreateProcess.afterCommit. cbn zeta.
  destruct (CreateProcess.hasApprovalPending _); [|done].
  by edestruct notifyApprovers_tables as (_ & _ & -> & _ & -> & -> & _).
Qed.

(** A successful creation has found an ACTIVE template with a step, has
    committed the transaction and has run the side effects. *)
Lemma createProcess_ok (env : Env) (body : Json) (d d' : Db)
    (resp : CreateProcess.Response) :
  CreateProcess.POST env body d = (resp, d') →
  NextResponse.ok resp = true →
  ∃ user workflowTemplateId formData w processInstance stepInstances dT,
    session env = Some user
    ∧ CreateProcess.createProcessSchema_safeParse body = Some (workflowTemplateId, formData)
    ∧ CreateProcess.findWorkflow d workflowTemplateId = Some w
    ∧ WorkflowTemplate.status (CreateProcess.workflow w) = WorkflowStatus.ACTIVE
    ∧ CreateProcess.steps w ≠ []
    ∧ CreateProcess.create env (SessionUser.id user) workflowTemplateId formData
        (CreateProcess.steps w) d
      = Some ((processInstance, stepInstances), dT)
    ∧ d' = CreateProcess.afterCommit (SessionUser.id user) processInstance.1 formData w dT
    ∧ is_Some (findProcessWithSteps d' processInstance.1).
Proof.
  unfold CreateProcess.POST. intros H Hok.
  destruct (session env) as [user|]; [|by simplify_eq].
  destruct (CreateProcess.createProcessSchema_safeParse body)
    as [[workflowTemplateId formData]|]; [|by simplify_eq].
  destruct (CreateProcess.findWorkflow d workflowTemplateId) as [w|] eqn:Hw;
    [|by simplify_eq].
  destruct (bool_decide (WorkflowTemplate.status _ = _)) eqn:Hactive;
    cbn [negb] in H; [|by simplify_eq].
  destruct (bool_decide (length _ = 0%nat)) eqn:Hempty; [by simplify_eq|].
  apply bool_decide_eq_true in Hactive. apply bool_decide_eq_false in Hempty.
  destruct (CreateProcess.create _ _ _ _ _ _) as [[[processInstance stepInstances] dT]|]
    eqn:Htx; [|by simplify_eq].
  cbn zeta in H.
  destruct (findProcessWithSteps _ _) eqn:Hfetch; [|by simplify_eq].
  injection H as <- <-.
  exists user, workflowTemplateId, formData, w, processInstance, stepInstances, dT.
  split_and!; try done; try (by eauto).
  intros Hnil. by rewrite Hnil in Hempty.
Qed.

(** The tables after a successful creation. *)
Lemma createProcess_committed (env : Env) (body : Json) (d d' : Db)
    (resp : CreateProcess.Response) :
  CreateProcess.POST env body d = (resp, d') →
  NextResponse.ok resp = true →
  ∃ user workflowTemplateId formData,
    let processId := cuid env 0%nat in
    let steps := stepsOfTemplate d workflowTemplateId in
    session env = Some user
    ∧ CreateProcess.createProcessSchema_safeParse body = Some (workflowTemplateId, formData)
    ∧ workflowSteps d' = workflowSteps d
    ∧ processInstances d !! processId = None
    ∧ processInstances d'
      = <[processId := ProcessInstance.mk workflowTemplateId (SessionUser.id user) formData
                         ProcessStatus.IN_PROGRESS]> (processInstances d)
    ∧ (∀ (i : nat) step, steps !! i = Some step →
         processStepInstances d !! cuid env (S i) = None
         ∧ processStepInstances d' !! cuid env (S i)
           = Some (CreateProcess.stepInstanceData processId (SessionUser.id user)
                     (now env) i step))
    ∧ (∀ (i j : nat) step step', steps !! i = Some step → steps !! j = Some step' →
         cuid env (S i) = cuid env (S j) → i = j)
    ∧ (∀ k, (∀ i : nat, (i < length steps)%nat → k ≠ cuid env (S i)) →
            processStepInstances d' !! k = processStepInstances d !! k)
    ∧ is_Some (stepsOfProcess d' processId).
Proof.
  intros HPOST Hok.
  destruct (createProcess_ok _ _ _ _ _ HPOST Hok)
    as (user & workflowTemplateId & formData & w & processInstance & stepInstances & dT
        & Hs & Hbody & Hw & _ & _ & Htx & -> & Hfetch).
  exists user, workflowTemplateId, formData. cbn zeta.
  unfold CreateProcess.findWorkflow in Hw.
  destruct (workflowTemplates d !! workflowTemplateId) as [wt|]; [|done].
  cbn in Hw. injection Hw as <-. cbn [CreateProcess.steps] in Htx.
  assert (Hws : workflowSteps dT = workflowSteps d).
  { assert (Hframe : writesProcessTablesOnly
              (CreateProcess.create env (SessionUser.id user) workflowTemplateId formData
                 (stepsOfTemplate d workflowTemplateId))).
    { unfold CreateProcess.create.
      apply tx_bind_frame; [apply processInstance_create_frame|]. intros pi.
      apply tx_bind_frame; [apply createStepInstances_frame|]. intros sis.
      apply tx_ret_frame. }
    by destruct (Hframe _ _ _ Htx) as (_ & _ & -> & _). }
  unfold CreateProcess.create, tx_bind, processInstance_create in Htx.
  destruct (processInstances d !! cuid env 0%nat) eqn:Hfree; [done|].
  cbn [fst] in Htx.
  destruct (CreateProcess.createStepInstances _ _ _ _ _ _ _) as [[sis d1]|] eqn:Hsteps;
    [|done].
  unfold tx_ret in Htx. injection Htx as <- <- <-.
  destruct (createStepInstances_spec _ _ _ _ _ _ _ _ _ Hsteps)
    as (Hp & Hrows & Hinj & Hframe).
  cbn [processInstances processStepInstances set_processInstances] in Hp, Hrows, Hframe.
  cbn [fst] in Hfetch |- *.
  destruct (createProcess_afterCommit_tables (SessionUser.id user) (cuid env 0%nat)
              formData
              (CreateProcess.mkWorkflow wt (stepsOfTemplate d workflowTemplateId)
                 (formSchemas d !! workflowTemplateId)) d1) as (Hws' & Hp' & Hsi').
  cbn zeta in Hws', Hp', Hsi'.
  unfold findProcessWithSteps in Hfetch.
  rewrite Hp', Hp, lookup_insert_eq in Hfetch.
  rewrite Hws', Hws, Hp', Hsi', Hp.
  split_and!; try done.
  destruct (stepsOfProcess _ _); [by eauto|]. by destruct Hfetch.
Qed.

(** ** Creation: which step instance is completed at once *)

(** The template [gap] is a FORM step at stepOrder 2 followed by an
    approval at stepOrder 3.  Ann's process gets the step instance of the
    FORM step COMPLETED with Ann as actor, although its stepOrder is not
    1: the handler completes the step at index 0 of the ordered steps. *)
Lemma first_step_not_stepOrder_1 :
  let r := CreateProcess.POST (Scenario.ann "g") (Scenario.createBody "gap") Scenario.db0 in
  NextResponse.status r.1 = 201%nat
  ∧ workflowSteps Scenario.db0 !! "gap-2" = Some (WorkflowStep.mk "gap" 2 FORM "Request")
  ∧ processStepInstances r.2 !! "g-1"
    = Some (ProcessStepInstance.mk "g-0" "gap-2" StepStatus.COMPLETED
              (Some "ann") (Some 1000) None).
Proof.
  cbn zeta. split_and!; by vm_compute.
Qed.

(** C4, as the handler does it.  A successful creation stores one new
    process with status IN_PROGRESS and, for the template steps in
    stepOrder order, one new step instance each under a key of its own:
    the instance of the step at index 0 is COMPLETED with actor = creator
    and acted-at = now when that step is a FORM step, every other instance
    is PENDING with no actor and no acted-at.  No other process or step
    instance changes. *)
Theorem createProcess_outcome (env : Env) (user : SessionUser.t) (body : Json)
    (workflowTemplateId : string) (formData : Json) (d d' : Db)
    (resp : CreateProcess.Response) :
  session env = Some user →
  CreateProcess.createProcessSchema_safeParse body = Some (workflowTemplateId, formData) →
  CreateProcess.POST env body d = (resp, d') →
  NextResponse.ok resp = true →
  let steps := stepsOfTemplate d workflowTemplateId in
  let processId := cuid env 0%nat in
  StronglySorted
    (λ a b : string * WorkflowStep.t,
       (WorkflowStep.stepOrder a.2 ≤ WorkflowStep.stepOrder b.2)%Z) steps
  ∧ processInstances d !! processId = None
  ∧ processInstances d'
    = <[processId := ProcessInstance.mk workflowTemplateId (SessionUser.id user) formData
                       ProcessStatus.IN_PROGRESS]> (processInstances d)
  ∧ (∀ (i : nat) step, steps !! i = Some step →
       let first := bool_decide (i = 0%nat ∧ WorkflowStep.stepType step.2 = FORM) in
       processStepInstances d !! cuid env (S i) = None
       ∧ processStepInstances d' !! cuid env (S i)
         = Some {| ProcessStepInstance.processInstanceId := processId;
                   ProcessStepInstance.workflowStepId := step.1;
                   ProcessStepInstance.status :=
                     if first then StepStatus.COMPLETED else StepStatus.PENDING;
                   ProcessStepInstance.actedById :=
                     if first then Some (SessionUser.id user) else None;
                   ProcessStepInstance.actedAt :=
                     if first then Some (now env) else None;
                   ProcessStepInstance.comments := None |})
  ∧ (∀ (i j : nat) step step', steps !! i = Some step → steps !! j = Some step' →
       cuid env (S i) = cuid env (S j) → i = j)
  ∧ (∀ k, (∀ i : nat, (i < length steps)%nat → k ≠ cuid env (S i)) →
          processStepInstances d' !! k = processStepInstances d !! k).
Proof.
  intros Hs Hbody HPOST Hok.
  destruct (createProcess_committed _ _ _ _ _ HPOST Hok)
    as (user' & tid & formData' & Hs' & Hbody' & _ & Hfree & Hp & Hrows & Hinj & Hframe & _).
  rewrite Hs in Hs'. injection Hs' as <-.
  rewrite Hbody in Hbody'. injection Hbody' as <- <-.
  cbn zeta. split_and!; try done.
  - apply (orderBy_sorted (λ s : string * WorkflowStep.t, WorkflowStep.stepOrder s.2)).
  - intros i step Hi. destruct (Hrows i step Hi) as [Hnone Hsome].
    split; [done|].
    rewrite Hsome. unfold CreateProcess.stepInstanceData, CreateProcess.isSubmittedForm.
    do 2 f_equal;
      (destruct (decide (i = 0%nat)) as [->|Hi0];
       destruct (decide (WorkflowStep.stepType step.2 = FORM)) as [Hty|Hty];
       [ rewrite !bool_decide_eq_true_2 by done; done
       | rewrite (bool_decide_eq_false_2 (WorkflowStep.stepType _ = _)) by done;
         rewrite (bool_decide_eq_false_2 (_ ∧ _)) by tauto; by rewrite andb_false_r
       | rewrite !(bool_decide_eq_false_2 (i = 0%nat)) by done;
         rewrite (bool_decide_eq_false_2 (_ ∧ _)) by tauto; done
       | rewrite !(bool_decide_eq_false_2 (i = 0%nat)) by done;
         rewrite (bool_decide_eq_false_2 (_ ∧ _)) by tauto; done ]).
Qed.

(** Ann starts a process of the form, approval, notice template: the
    process [q-0] is IN_PROGRESS, the form [q-1] is COMPLETED by Ann, the
    approval [q-2] is PENDING. *)
Lemma createProcess_outcome_witness :
  let r := CreateProcess.POST (Scenario.ann "q") (Scenario.createBody "notice")
             Scenario.db0 in
  NextResponse.ok r.1 = true
  ∧ CreateProcess.createProcessSchema_safeParse (Scenario.createBody "notice")
    = Some ("notice", JObject JEnd)
  ∧ processInstances r.2 !! "q-0"
    = Some (ProcessInstance.mk "notice" "ann" (JObject JEnd) ProcessStatus.IN_PROGRESS)
  ∧ processStepInstances r.2 !! "q-1"
    = Some (ProcessStepInstance.mk "q-0" "notice-1" StepStatus.COMPLETED
              (Some "ann") (Some 1000) None)
  ∧ processStepInstances r.2 !! "q-2"
    = Some (ProcessStepInstance.mk "q-0" "notice-2" StepStatus.PENDING None None None).
Proof.
  intros r.
  assert (H1 : CreateProcess.POST (Scenario.ann "q") (Scenario.createBody "notice")
                 Scenario.db0 = (r.1, r.2)) by apply surjective_pairing.
  assert (H2 : NextResponse.ok r.1 = true) by (vm_compute; reflexivity).
  assert (H3 : CreateProcess.createProcessSchema_safeParse (Scenario.createBody "notice")
               = Some ("notice", JObject JEnd)) by (vm_compute; reflexivity).
  assert (Hform : stepsOfTemplate Scenario.db0 "notice" !! 0%nat
                  = Some ("notice-1", Scenario.formStep "notice" 1))
    by (vm_compute; reflexivity).
  assert (Happroval : stepsOfTemplate Scenario.db0 "notice" !! 1%nat
                      = Some ("notice-2", Scenario.approvalStep "notice" 2))
    by (vm_compute; reflexivity).
  destruct (createProcess_outcome (Scenario.ann "q") (SessionUser.mk "ann" USER)
              (Scenario.createBody "notice") "notice" (JObject JEnd)
              Scenario.db0 r.2 r.1 eq_refl H3 H1 H2)
    as (_ & _ & Hp & Hrows & _).
  pose proof (proj2 (Hrows 0%nat _ Hform)) as Hq1.
  pose proof (proj2 (Hrows 1%nat _ Happroval)) as Hq2.
  split_and!; [exact H2 | exact H3 | | exact Hq1 | exact Hq2].
  rewrite Hp. apply lookup_insert_eq.
Defined.

(** ** The invariant behind the approve transition

    The approve transition writes the next step instance and the process
    status only when the process has a step instance for the template
    step that follows the approved one.  Creation establishes this for
    every step of the template, and no step action breaks it, so the case
    without a step instance does not arise in a process the handlers
    made. *)

Lemma sameRelations_refl (d : Db) : sameRelations d d.
Proof. by split_and!. Qed.

Lemma sameRelations_trans (d1 d2 d3 : Db) :
  sameRelations d1 d2 → sameRelations d2 d3 → sameRelations d1 d3.
Proof.
  intros (Hw1 & Hs1 & Hp1) (Hw2 & Hs2 & Hp2). split_and!.
  - congruence.
  - intros k. by rewrite Hs2, Hs1.
  - intros q. by rewrite Hp2, Hp1.
Qed.

Lemma tx_ret_keepsRelations {A} (a : A) : keepsRelations (tx_ret a).
Proof. intros d a' d' H. unfold tx_ret in H. simplify_eq. apply sameRelations_refl. Qed.

Lemma tx_bind_keepsRelations {A B} (m : Tx A) (k : A → Tx B) :
  keepsRelations m → (∀ a, keepsRelations (k a)) → keepsRelations (tx_bind m k).
Proof.
  intros Hm Hk d b d' H. unfold tx_bind in H.
  destruct (m d) as [[a d1]|] eqn:Hmd; [|done].
  eapply sameRelations_trans; [by eapply Hm | by eapply Hk].
Qed.

Lemma processStepInstance_update_keepsRelations (id : string)
    (data : ProcessStepInstance.t → ProcessStepInstance.t) :
  (∀ r, relations (data r) = relations r) →
  keepsRelations (processStepInstance_update id data).
Proof.
  intros Hdata d a d' H. unfold processStepInstance_update in H.
  destruct (processStepInstances d !! id) as [r|] eqn:Hr; [|done]. simplify_eq.
  split_and!; [done| |done]. intros k. cbn.
  destruct (decide (id = k)) as [<-|Hne].
  - rewrite lookup_insert_eq, Hr. cbn. by rewrite Hdata.
  - by rewrite lookup_insert_ne.
Qed.

Lemma processInstance_update_keepsRelations (id : string) (status : ProcessStatus.t) :
  keepsRelations (processInstance_update id (ProcessInstance.set_status status)).
Proof.
  intros d a d' H. unfold processInstance_update in H.
  destruct (processInstances d !! id) as [r|] eqn:Hr; [|done]. simplify_eq.
  split_and!; [done|done|]. intros q. cbn.
  destruct (decide (id = q)) as [<-|Hne].
  - by rewrite lookup_insert_eq, Hr.
  - by rewrite lookup_insert_ne.
Qed.

Lemma transition_keepsRelations (processId stepId : string) (action : StepAction.Action)
    (comments : option string) (userId : string) (now : Date)
    (ctx : StepAction.StepInstanceWithContext) :
  keepsRelations (StepAction.transition processId stepId action comments userId now ctx).
Proof.
  unfold StepAction.transition.
  apply tx_bind_keepsRelations;
    [by apply processStepInstance_update_keepsRelations|]. intros _.
  repeat case_match;
    repeat (apply tx_bind_keepsRelations; [|intros _]);
    first [ apply processInstance_update_keepsRelations
          | by apply processStepInstance_update_keepsRelations
          | apply tx_ret_keepsRelations ].
Qed.

(** Whatever it answers, a step action changes no relation. *)
Lemma stepAction_sameRelations (env : Env) (processId stepId : string) (body : Json)
    (d d' : Db) (resp : StepAction.Response) :
  StepAction.POST env processId stepId body d = (resp, d') → sameRelations d d'.
Proof.
  unfold StepAction.POST. intros H.
  repeat (match type of H with
          | context [match ?x with _ => _ end] => destruct x eqn:?
          | context [if ?x then _ else _] => destruct x eqn:?
          end; try (injection H as <- <-; apply sameRelations_refl)).
  all: cbn zeta in H; repeat case_match; injection H as <- <-.
  all: match goal with
       | Htx : StepAction.transition _ _ _ _ _ _ _ _ = Some (_, ?dT) |- _ =>
           eapply sameRelations_trans; [exact (transition_keepsRelations _ _ _ _ _ _ _ _ _ _ Htx)|]
       end.
  all: match goal with
       | |- sameRelations ?dT (StepAction.afterCommit ?p ?a ?c ?u ?x ?dT) =>
           destruct (afterCommit_tables p a c u x dT) as (_ & _ & Hws & _ & Hp & Hsi);
           cbn zeta in Hws, Hp, Hsi; split_and!; [done| |]; intros ?; by rewrite ?Hp, ?Hsi
       end.
Qed.

Section SameRelations.
Variables (d d' : Db).
Hypothesis Hsame : sameRelations d d'.

Lemma templateStepAt_sameRelations (q : string) (n : Z) :
  templateStepAt d' q n = templateStepAt d q n.
Proof.
  destruct Hsame as (Hws & _ & Hp). specialize (Hp q).
  unfold templateStepAt, stepsOfTemplate. rewrite Hws.
  destruct (processInstances d' !! q) as [p'|], (processInstances d !! q) as [p|];
    cbn in Hp |- *; try done.
  injection Hp as ->. done.
Qed.

Lemma stepsOfProcess_sameRelations (q : string) :
  is_Some (stepsOfProcess d q) → is_Some (stepsOfProcess d' q).
Proof.
  destruct Hsame as (Hws & Hsi & _).
  rewrite !stepsOfProcess_is_Some. intros H k r' Hk Hq.
  specialize (Hsi k). rewrite Hk in Hsi.
  destruct (processStepInstances d !! k) as [r|] eqn:Hr; [|done].
  cbn in Hsi. unfold relations in Hsi. simplify_eq.
  rewrite Hws.
  match goal with Heq : ProcessStepInstance.workflowStepId _ = _ |- _ => rewrite Heq end.
  apply (H k r Hr). congruence.
Qed.

Lemma stepInstanceAt_sameRelations (q : string) (n : Z) :
  is_Some (stepInstanceAt d q n) → is_Some (stepInstanceAt d' q n).
Proof.
  intros [x Hx]. unfold stepInstanceAt in Hx |- *.
  destruct (stepsOfProcess d q) as [l|] eqn:Hl; [|done]. cbn in Hx.
  destruct (stepsOfProcess_sameRelations q) as [l' Hl']; [by rewrite Hl; eauto|].
  rewrite Hl'. cbn.
  apply find_Some_elem in Hx as [Hin Hord].
  destruct (stepsOfProcess_elem _ _ _ _ Hl Hin) as (Hrow & Hpid & Hjoin).
  destruct Hsame as (Hws & Hsi & _). specialize (Hsi (StepWithWorkflowStep.id x)).
  rewrite Hrow in Hsi.
  destruct (processStepInstances d' !! StepWithWorkflowStep.id x) as [r'|] eqn:Hr'; [|done].
  cbn in Hsi. unfold relations in Hsi. injection Hsi as Hpid' Hwsid'.
  destruct (stepsOfProcess_complete _ _ _ _ _ Hl' Hr') as (ws & Hws' & Hin'); [congruence|].
  rewrite Hws, Hwsid', Hjoin in Hws'. injection Hws' as <-.
  destruct (find _ l') eqn:Hfind; [by eauto|].
  pose proof (find_None_elem _ _ _ Hfind Hin') as Hf.
  unfold StepAction.instanceHasStepOrder in Hf, Hord. cbn in Hf. congruence.
Qed.

Lemma stepsHaveInstances_sameRelations (q : string) :
  stepsHaveInstances d q → stepsHaveInstances d' q.
Proof.
  intros H n. rewrite templateStepAt_sameRelations.
  intros Hn. by apply stepInstanceAt_sameRelations, H.
Qed.
End SameRelations.

(** No step action, successful or not, takes a step instance away from a
    template step. *)
Lemma stepAction_keeps_instances (env : Env) (processId stepId : string) (body : Json)
    (d d' : Db) (resp : StepAction.Response) (q : string) :
  StepAction.POST env processId stepId body d = (resp, d') →
  stepsHaveInstances d q → stepsHaveInstances d' q.
Proof.
  intros H. eapply stepsHaveInstances_sameRelations. by eapply stepAction_sameRelations.
Qed.

(** A successful creation gives the new process a step instance for every
    step of its template. *)
Lemma createProcess_establishes_instances (env : Env) (body : Json) (d d' : Db)
    (resp : CreateProcess.Response) :
  CreateProcess.POST env body d = (resp, d') →
  NextResponse.ok resp = true →
  stepsHaveInstances d' (cuid env 0%nat).
Proof.
  intros HPOST Hok n.
  destruct (createProcess_committed _ _ _ _ _ HPOST Hok)
    as (user & tid & formData & _ & _ & Hws & _ & Hp & Hrows & _ & _ & [l Hl]).
  cbn zeta in *.
  unfold templateStepAt, stepInstanceAt. rewrite Hp, lookup_insert_eq, Hl. cbn.
  unfold stepsOfTemplate. rewrite Hws. fold (stepsOfTemplate d tid).
  intros [s Hs]. apply find_Some_elem in Hs as [Hin Hord].
  pose proof (proj1 (stepsOfTemplate_elem _ _ _) Hin) as [Hrow _].
  apply list_elem_of_lookup in Hin as [i Hi].
  destruct (Hrows i s Hi) as [_ Hsi].
  destruct (stepsOfProcess_complete _ _ _ _ _ Hl Hsi) as (ws & Hws' & Hin'); [done|].
  cbn in Hws'. rewrite Hws, Hrow in Hws'. injection Hws' as <-.
  destruct (find _ l) eqn:Hfind; [by eauto|].
  pose proof (find_None_elem _ _ _ Hfind Hin') as Hf.
  unfold StepAction.instanceHasStepOrder in Hf. cbn in Hf.
  unfold StepAction.hasStepOrder in Hord. by rewrite Hf in Hord.
Qed.

(** * Further properties of the handlers *)

(** ** The step action always completes *)

Section StepActionRuns.
Import StepAction.

Variables (d : Db) (processId stepId : string) (ctx : StepInstanceWithContext).
Hypothesis Hctx : findStepInstance d stepId = Some (Some ctx).
Hypothesis Hpid : ProcessStepInstance.processInstanceId (stepInstance ctx) = processId.

(** Every row the transaction updates is there: it does not throw. *)
Lemma transition_runs (action : Action) (comments : option string) (userId : string)
    (now : Date) :
  is_Some (transition processId stepId action comments userId now ctx d).
Proof.
  destruct (findStepInstance_Some _ _ _ Hctx) as (Hsi & _ & Hp & _).
  rewrite Hpid in Hp.
  unfold transition, tx_bind, tx_ret, processStepInstance_update, processInstance_update.
  rewrite Hsi.
  destruct action;
    cbn [processInstances processStepInstances set_processStepInstances];
    rewrite ?Hp; [|by eauto..].
  destruct (find (hasStepOrder _) (workflow_steps ctx)) as [nws|];
    cbn [processInstances set_processStepInstances]; rewrite ?Hp; [|by eauto].
  destruct (find (instanceHasStepOrder _) (process_steps ctx)) as [nsi|] eqn:Hnsi;
    [|by eauto].
  destruct (decide _);
    cbn [processInstances processStepInstances set_processStepInstances];
    rewrite ?Hp; [|by eauto].
  destruct (ctx_other_instance _ _ _ Hctx _ _ Hnsi) as [Hne Hrow]; [lia|].
  rewrite lookup_insert_ne by done. rewrite Hrow.
  destruct (find (hasStepOrder _) (workflow_steps ctx));
    cbn [processInstances processStepInstances set_processStepInstances];
    rewrite ?Hp; by eauto.
Qed.

(** After the commit the process can be read back. *)
Lemma stepAction_fetch (action : Action) (comments : option string) (userId : string)
    (now : Date) (dT : Db) :
  transition processId stepId action comments userId now ctx d = Some (tt, dT) →
  is_Some (findProcessWithSteps (afterCommit processId action comments userId ctx dT)
             processId).
Proof.
  intros Htx.
  destruct (findStepInstance_Some _ _ _ Hctx) as (_ & _ & _ & _ & _ & Hsteps).
  rewrite Hpid in Hsteps.
  pose proof (transition_keepsRelations _ _ _ _ _ _ _ _ _ _ Htx) as Hsame.
  destruct (afterCommit_tables processId action comments userId ctx dT)
    as (_ & _ & Hws & _ & Hp & Hsi). cbn zeta in Hws, Hp, Hsi.
  assert (Hsame' : sameRelations d (afterCommit processId action comments userId ctx dT)).
  { destruct Hsame as (H1 & H2 & H3). split_and!.
    - by rewrite Hws.
    - intros k. by rewrite Hsi.
    - intros q. by rewrite Hp. }
  destruct (stepsOfProcess_sameRelations _ _ Hsame' processId) as [l Hl]; [by eauto|].
  unfold findProcessWithSteps. rewrite Hl.
  destruct (processInstances _ !! processId); by eauto.
Qed.

End StepActionRuns.

(** With every check passed the handler answers 200. *)
Lemma stepAction_succeeds (env : Env) (user : SessionUser.t) (processId stepId : string)
    (body : Json) (action : StepAction.Action) (comments : option string) (d : Db)
    (ctx : StepAction.StepInstanceWithContext) :
  session env = Some user →
  isApprover (SessionUser.role user) = true →
  StepAction.actionSchema_safeParse body = Some (action, comments) →
  StepAction.findStepInstance d stepId = Some (Some ctx) →
  ProcessStepInstance.processInstanceId (StepAction.stepInstance ctx) = processId →
  ProcessStepInstance.status (StepAction.stepInstance ctx) = StepStatus.PENDING →
  WorkflowStep.stepType (StepAction.workflowStep ctx) = APPROVAL →
  ∃ updatedProcess d',
    StepAction.POST env processId stepId body d = (NextResponse.json updatedProcess 200, d').
Proof.
  intros Hs Hrole Hbody Hctx Hpid Hpending Hty.
  destruct (transition_runs d processId stepId ctx Hctx Hpid action comments
              (SessionUser.id user) (now env)) as [[[] dT] Htx].
  destruct (stepAction_fetch d processId stepId ctx Hctx Hpid action comments
              (SessionUser.id user) (now env) dT Htx) as [updated Hfetch].
  exists updated. eexists.
  unfold StepAction.POST. rewrite Hs, Hrole, Hbody, Hctx. cbn [negb].
  rewrite !bool_decide_eq_true_2 by done. cbn [negb].
  rewrite Htx. cbn zeta. rewrite Hfetch. reflexivity.
Qed.

(** An answer other than 200 comes from a check that failed before
    anything was written. *)
Lemma stepAction_error_unchanged (env : Env) (processId stepId : string) (body : Json)
    (d d' : Db) (resp : StepAction.Response) :
  StepAction.POST env processId stepId body d = (resp, d') →
  NextResponse.ok resp = false →
  d' = d.
Proof.
  unfold StepAction.POST. intros H Hok.
  destruct (session env) as [user|]; [|by simplify_eq].
  destruct (negb _); [by simplify_eq|].
  destruct (StepAction.actionSchema_safeParse body) as [[action comments]|];
    [|by simplify_eq].
  destruct (StepAction.findStepInstance d stepId) as [[ctx|]|] eqn:Hctx;
    [|by simplify_eq..].
  destruct (bool_decide (_ = processId)) eqn:Hpid; cbn [negb] in H; [|by simplify_eq].
  apply bool_decide_eq_true in Hpid.
  destruct (negb _); [by simplify_eq|].
  destruct (negb _); [by simplify_eq|].
  destruct (StepAction.transition _ _ _ _ _ _ _ _) as [[[] dT]|] eqn:Htx;
    [|by simplify_eq].
  cbn zeta in H.
  destruct (stepAction_fetch d processId stepId ctx Hctx Hpid action comments
              (SessionUser.id user) (now env) dT Htx) as [updated Hfetch].
  rewrite Hfetch in H. by simplify_eq.
Qed.

(** The row of the acted step after the transaction. *)
Lemma transition_acted_row (d dT : Db) (processId stepId : string)
    (ctx : StepAction.StepInstanceWithContext) (action : StepAction.Action)
    (comments : option string) (userId : string) (now : Date) :
  StepAction.findStepInstance d stepId = Some (Some ctx) →
  ProcessStepInstance.processInstanceId (StepAction.stepInstance ctx) = processId →
  StepAction.transition processId stepId action comments userId now ctx d = Some (tt, dT) →
  processStepInstances dT !! stepId
  = Some (StepAction.actedData action userId now comments (StepAction.stepInstance ctx)).
Proof.
  intros Hctx Hpid Htx.
  destruct (findStepInstance_Some _ _ _ Hctx) as (Hsi & _ & Hp & _).
  rewrite Hpid in Hp.
  destruct (decide (action = StepAction.approve)) as [->|Hne].
  - destruct (find (StepAction.hasStepOrder
                      (WorkflowStep.stepOrder (StepAction.workflowStep ctx) + 1))
                (StepAction.workflow_steps ctx)) as [nws|] eqn:Hnext.
    + destruct (find (StepAction.instanceHasStepOrder
                        (WorkflowStep.stepOrder (StepAction.workflowStep ctx) + 1))
                  (StepAction.process_steps ctx)) as [nsi|] eqn:Hnsi.
      * destruct (ctx_other_instance _ _ _ Hctx _ _ Hnsi) as [Hother Hrow]; [lia|].
        destruct (decide (WorkflowStep.stepType nws.2 = NOTIFICATION)) as [Hty|Hty].
        -- pose proof (transition_approve_notification _ _ _ _ _ _ _ _ _ _ Hsi Hp
                         _ _ Hnext Hnsi Hty Hother Hrow Htx) as HdT.
           cbn zeta in HdT. subst dT.
           destruct (find _ _);
             cbn [processStepInstances set_processInstances set_processStepInstances];
             rewrite lookup_insert_ne by done; apply lookup_insert_eq.
        -- rewrite (transition_approve_next _ _ _ _ _ _ _ _ _ _ Hsi Hp
                      _ _ Hnext Hnsi Hty Htx).
           apply lookup_insert_eq.
      * rewrite (transition_approve_no_instance _ _ _ _ _ _ _ _ _ Hsi _ Hnext Hnsi Htx).
        apply lookup_insert_eq.
    + rewrite (transition_approve_last _ _ _ _ _ _ _ _ _ _ Hsi Hp Hnext Htx).
      apply lookup_insert_eq.
  - rewrite (transition_not_approve _ _ _ _ _ _ _ _ _ _ Hsi Hp _ Hne Htx).
    apply lookup_insert_eq.
Qed.

(** Whatever it answers, a step action leaves users, templates, template
    steps and form schemas alone. *)
Lemma stepAction_frame (env : Env) (processId stepId : string) (body : Json)
    (d d' : Db) (resp : StepAction.Response) :
  StepAction.POST env processId stepId body d = (resp, d') →
  users d' = users d
  ∧ workflowTemplates d' = workflowTemplates d
  ∧ workflowSteps d' = workflowSteps d
  ∧ formSchemas d' = formSchemas d.
Proof.
  intros HPOST. destruct (NextResponse.ok resp) eqn:Hok.
  - destruct (POST_ok _ _ _ _ _ _ _ HPOST Hok)
      as (user & action & comments & ctx & dT & _ & _ & _ & _ & _ & _ & _ & Htx & ->).
    destruct (transition_frame _ _ _ _ _ _ _ _ _ _ Htx) as (<- & <- & <- & <- & _).
    by destruct (afterCommit_tables processId action comments (SessionUser.id user) ctx dT)
      as (-> & -> & -> & -> & _).
  - by rewrite (stepAction_error_unchanged _ _ _ _ _ _ _ HPOST Hok).
Qed.

(** ** Processes keep everything but their status *)

Lemma sameProcessesUpToStatus_refl (d : Db) : sameProcessesUpToStatus d d.
Proof. done. Qed.

Lemma sameProcessesUpToStatus_trans (d1 d2 d3 : Db) :
  sameProcessesUpToStatus d1 d2 → sameProcessesUpToStatus d2 d3 →
  sameProcessesUpToStatus d1 d3.
Proof. intros H1 H2 q. by rewrite H2, H1. Qed.

Section TxKeeps.
Variable R : Db → Db → Prop.
Hypothesis R_refl : ∀ d, R d d.
Hypothesis R_trans : ∀ d1 d2 d3, R d1 d2 → R d2 d3 → R d1 d3.

Lemma txKeeps_ret {A} (a : A) : txKeeps R (tx_ret a).
Proof. intros d a' d' H. unfold tx_ret in H. simplify_eq. apply R_refl. Qed.

Lemma txKeeps_bind {A B} (m : Tx A) (k : A → Tx B) :
  txKeeps R m → (∀ a, txKeeps R (k a)) → txKeeps R (tx_bind m k).
Proof.
  intros Hm Hk d b d' H. unfold tx_bind in H.
  destruct (m d) as [[a d1]|] eqn:Hmd; [|done].
  eapply R_trans; [by eapply Hm | by eapply Hk].
Qed.
End TxKeeps.

Lemma processStepInstance_update_sameProcesses (id : string)
    (data : ProcessStepInstance.t → ProcessStepInstance.t) :
  txKeeps sameProcessesUpToStatus (processStepInstance_update id data).
Proof.
  intros d a d' H. unfold processStepInstance_update in H.
  destruct (processStepInstances d !! id); by simplify_eq.
Qed.

Lemma processInstance_update_sameProcesses (id : string) (status : ProcessStatus.t) :
  txKeeps sameProcessesUpToStatus
    (processInstance_update id (ProcessInstance.set_status status)).
Proof.
  intros d a d' H. unfold processInstance_update in H.
  destruct (processInstances d !! id) as [r|] eqn:Hr; [|done]. simplify_eq.
  intros q. cbn. destruct (decide (id = q)) as [<-|Hne].
  - by rewrite lookup_insert_eq, Hr.
  - by rewrite lookup_insert_ne.
Qed.

Lemma transition_sameProcesses (processId stepId : string) (action : StepAction.Action)
    (comments : option string) (userId : string) (now : Date)
    (ctx : StepAction.StepInstanceWithContext) :
  txKeeps sameProcessesUpToStatus
    (StepAction.transition processId stepId action comments userId now ctx).
Proof.
  pose proof sameProcessesUpToStatus_refl as Hrefl.
  pose proof sameProcessesUpToStatus_trans as Htrans.
  unfold StepAction.transition.
  apply txKeeps_bind; [done|apply processStepInstance_update_sameProcesses|]. intros _.
  repeat case_match;
    repeat (apply txKeeps_bind; [done| |intros _]);
    first [ apply processInstance_update_sameProcesses
          | apply processStepInstance_update_sameProcesses
          | by apply txKeeps_ret ].
Qed.

Lemma stepAction_sameProcesses (env : Env) (processId stepId : string) (body : Json)
    (d d' : Db) (resp : StepAction.Response) :
  StepAction.POST env processId stepId body d = (resp, d') →
  sameProcessesUpToStatus d d'.
Proof.
  intros HPOST. destruct (NextResponse.ok resp) eqn:Hok.
  - destruct (POST_ok _ _ _ _ _ _ _ HPOST Hok)
      as (user & action & comments & ctx & dT & _ & _ & _ & _ & _ & _ & _ & Htx & ->).
    pose proof (transition_sameProcesses _ _ _ _ _ _ _ _ _ _ Htx) as Hsame.
    destruct (afterCommit_tables processId action comments (SessionUser.id user) ctx dT)
      as (_ & _ & _ & _ & Hp & _). cbn zeta in Hp.
    intros q. by rewrite Hp.
  - rewrite (stepAction_error_unchanged _ _ _ _ _ _ _ HPOST Hok).
    apply sameProcessesUpToStatus_refl.
Qed.

(** ** Step action: success, failure, repetition *)

(** X1.  An approver who sends a well-formed body for a PENDING step
    instance of an APPROVAL step, under the process it belongs to, is
    always answered 200, whichever the action and whatever the rest of the
    process looks like: the handler never ends in 500 there.  The acted
    step is COMPLETED after an approve and REJECTED after a reject or a
    request for changes, with the caller as actor. *)
Theorem pending_approval_is_actionable (env : Env) (user : SessionUser.t)
    (processId stepId : string) (body : Json) (action : StepAction.Action)
    (comments : option string) (d : Db) (ctx : StepAction.StepInstanceWithContext) :
  session env = Some user →
  isApprover (SessionUser.role user) = true →
  StepAction.actionSchema_safeParse body = Some (action, comments) →
  StepAction.findStepInstance d stepId = Some (Some ctx) →
  ProcessStepInstance.processInstanceId (StepAction.stepInstance ctx) = processId →
  ProcessStepInstance.status (StepAction.stepInstance ctx) = StepStatus.PENDING →
  WorkflowStep.stepType (StepAction.workflowStep ctx) = APPROVAL →
  ∃ updatedProcess d',
    StepAction.POST env processId stepId body d = (NextResponse.json updatedProcess 200, d')
    ∧ (ProcessStepInstance.status <$> processStepInstances d' !! stepId)
      = Some (match action with
              | StepAction.approve => StepStatus.COMPLETED
              | _ => StepStatus.REJECTED
              end)
    ∧ (ProcessStepInstance.actedById <$> processStepInstances d' !! stepId)
      = Some (Some (SessionUser.id user)).
Proof.
  intros Hs Hrole Hbody Hctx Hpid Hpending Hty.
  destruct (stepAction_succeeds _ _ _ _ _ _ _ _ _ Hs Hrole Hbody Hctx Hpid Hpending Hty)
    as (updated & d' & HPOST).
  exists updated, d'. split; [done|].
  destruct (POST_ok _ _ _ _ _ _ _ HPOST eq_refl)
    as (user' & action' & comments' & ctx' & dT & Hs' & _ & Hbody' & Hctx' & _ & _ & _
        & Htx & ->).
  rewrite Hs in Hs'. injection Hs' as <-.
  rewrite Hbody in Hbody'. injection Hbody' as <- <-.
  rewrite Hctx in Hctx'. injection Hctx' as <-.
  destruct (afterCommit_tables processId action comments (SessionUser.id user) ctx dT)
    as (_ & _ & _ & _ & _ & ->).
  rewrite (transition_acted_row _ _ _ _ _ _ _ _ _ Hctx Hpid Htx).
  split; [|done]. cbn. by destruct action.
Qed.

(** Bob requests changes on the first approval [p-1] of [p-0]. *)
Lemma pending_approval_is_actionable_witness :
  let first := ProcessStepInstance.mk "p-0" "two-1" StepStatus.PENDING None None None in
  let second := ProcessStepInstance.mk "p-0" "two-2" StepStatus.PENDING None None None in
  let ctx :=
    StepAction.mkContext first (Scenario.approvalStep "two" 1)
      (ProcessInstance.mk "two" "ann" (JObject JEnd) ProcessStatus.IN_PROGRESS)
      (WorkflowTemplate.mk "Two approvals" WorkflowStatus.ACTIVE)
      [("two-1", Scenario.approvalStep "two" 1); ("two-2", Scenario.approvalStep "two" 2)]
      [StepWithWorkflowStep.mk "p-1" first (Scenario.approvalStep "two" 1);
       StepWithWorkflowStep.mk "p-2" second (Scenario.approvalStep "two" 2)] in
  let r := StepAction.POST Scenario.bob "p-0" "p-1"
             (Scenario.actionBody "request_changes") Scenario.db1 in
  StepAction.findStepInstance Scenario.db1 "p-1" = Some (Some ctx)
  ∧ NextResponse.status r.1 = 200%nat
  ∧ (ProcessStepInstance.status <$> processStepInstances r.2 !! "p-1")
    = Some StepStatus.REJECTED.
Proof.
  intros first second ctx r.
  assert (Hctx : StepAction.findStepInstance Scenario.db1 "p-1" = Some (Some ctx))
    by (vm_compute; reflexivity).
  destruct (pending_approval_is_actionable Scenario.bob (SessionUser.mk "bob" APPROVER)
              "p-0" "p-1" (Scenario.actionBody "request_changes")
              StepAction.request_changes None Scenario.db1 ctx)
    as (updatedProcess & d' & HPOST & Hstatus & _);
    [reflexivity | reflexivity | vm_compute; reflexivity | exact Hctx
    | reflexivity | reflexivity | reflexivity |].
  assert (Hr : r = (NextResponse.json updatedProcess 200, d')) by exact HPOST.
  rewrite Hr. cbn [fst snd NextResponse.status].
  split_and!; [exact Hctx | reflexivity | exact Hstatus].
Defined.

(** X2.  A call that is not answered 200 has changed nothing: no step
    instance, no process, no audit entry and no notification.  Every
    failure comes from a check that runs before the first write, and the
    read-back after the commit cannot fail. *)
Theorem failed_action_changes_nothing (env : Env) (processId stepId : string)
    (body : Json) (d d' : Db) (resp : StepAction.Response) :
  StepAction.POST env processId stepId body d = (resp, d') →
  NextResponse.status resp ≠ 200%nat →
  d' = d.
Proof.
  intros HPOST Hstatus.
  destruct (NextResponse.ok resp) eqn:Hok.
  - exfalso. apply Hstatus.
    destruct (POST_ok _ _ _ _ _ _ _ HPOST Hok)
      as (user & action & comments & ctx & dT & Hs & Hrole & Hbody & Hctx & Hpid
          & Hpending & Hty & _).
    destruct (stepAction_succeeds _ _ _ _ _ _ _ _ _ Hs Hrole Hbody Hctx Hpid Hpending Hty)
      as (updated & d'' & HPOST').
    rewrite HPOST in HPOST'. by injection HPOST' as -> _.
  - by eapply stepAction_error_unchanged.
Qed.

(** Bob tries to act on the form step [q-1], which is no approval. *)
Lemma failed_action_changes_nothing_witness :
  let r := StepAction.POST Scenario.bob "q-0" "q-1" (Scenario.actionBody "approve")
             Scenario.db1 in
  NextResponse.status r.1 = 400%nat ∧ r.2 = Scenario.db1.
Proof.
  intros r.
  assert (H1 : StepAction.POST Scenario.bob "q-0" "q-1" (Scenario.actionBody "approve")
                 Scenario.db1 = (r.1, r.2)) by apply surjective_pairing.
  assert (H2 : NextResponse.status r.1 = 400%nat) by (vm_compute; reflexivity).
  split; [exact H2|].
  apply (failed_action_changes_nothing _ _ _ _ _ _ _ H1).
  rewrite H2. discriminate.
Defined.

(** X3.  Every successful step action appends exactly one entry to the
    audit log, after the entries that were there: tagged STEP_COMPLETED for
    an approve, STEP_REJECTED for a reject and CHANGES_REQUESTED for a
    request for changes, written in the name of the caller and attached to
    the process. *)
Theorem action_is_audited (env : Env) (processId stepId : string) (body : Json)
    (action : StepAction.Action) (comments : option string) (d d' : Db)
    (resp : StepAction.Response) :
  StepAction.POST env processId stepId body d = (resp, d') →
  NextResponse.ok resp = true →
  StepAction.actionSchema_safeParse body = Some (action, comments) →
  ∃ user entry,
    session env = Some user
    ∧ auditLogs d' = (auditLogs d ++ [entry])%list
    ∧ AuditLog.action entry
      = match action with
        | StepAction.approve => "STEP_COMPLETED"
        | StepAction.reject => "STEP_REJECTED"
        | StepAction.request_changes => "CHANGES_REQUESTED"
        end
    ∧ AuditLog.changedById entry = SessionUser.id user
    ∧ AuditLog.processInstanceId entry = Some processId.
Proof.
  intros HPOST Hok Hbody.
  destruct (POST_ok _ _ _ _ _ _ _ HPOST Hok)
    as (user & action' & comments' & ctx & dT & Hs & _ & Hbody' & _ & _ & _ & _ & Htx & ->).
  rewrite Hbody in Hbody'. injection Hbody' as <- <-.
  destruct (transition_frame _ _ _ _ _ _ _ _ _ _ Htx) as (_ & _ & _ & _ & Hlogs & _).
  exists user, (StepAction.auditEntry processId action comments (SessionUser.id user) ctx).
  split_and!; [done| |by destruct action|done|done].
  unfold StepAction.afterCommit. cbn zeta.
  destruct action; [destruct (StepAction.nextApprovalStep ctx)|..];
    try (edestruct notifyApprovers_tables as (_ & _ & _ & _ & _ & _ & ->));
    cbn [auditLogs notifyProcessCreator createNotification createAuditLog
         set_notifications set_auditLogs];
    by rewrite Hlogs.
Qed.

(** Bob rejects [p-1]: one STEP_REJECTED entry more. *)
Lemma action_is_audited_witness :
  let body := Scenario.actionBody "reject" in
  let r := StepAction.POST Scenario.bob "p-0" "p-1" body Scenario.db1 in
  NextResponse.ok r.1 = true
  ∧ length (auditLogs r.2) = S (length (auditLogs Scenario.db1))
  ∧ (AuditLog.action <$> last (auditLogs r.2)) = Some "STEP_REJECTED".
Proof.
  intros body r.
  assert (H1 : StepAction.POST Scenario.bob "p-0" "p-1" body Scenario.db1 = (r.1, r.2))
    by apply surjective_pairing.
  assert (H2 : NextResponse.ok r.1 = true) by (vm_compute; reflexivity).
  assert (H3 : StepAction.actionSchema_safeParse body = Some (StepAction.reject, None))
    by (vm_compute; reflexivity).
  destruct (action_is_audited _ _ _ _ _ _ _ _ _ H1 H2 H3)
    as (user & entry & _ & Hlogs & Htag & _).
  split; [exact H2|]. rewrite Hlogs. split.
  - rewrite length_app. cbn. lia.
  - rewrite last_snoc. cbn. by rewrite Htag.
Defined.

(** X4.  After a successful reject or request for changes exactly one
    notification is added: an unread ACTION_REQUIRED message for the
    creator of the process.  The approver pool is not notified. *)
Theorem rejection_notifies_creator_only (env : Env) (processId stepId : string)
    (body : Json) (action : StepAction.Action) (comments : option string) (d d' : Db)
    (resp : StepAction.Response) :
  StepAction.POST env processId stepId body d = (resp, d') →
  NextResponse.ok resp = true →
  StepAction.actionSchema_safeParse body = Some (action, comments) →
  action ≠ StepAction.approve →
  ∃ p message,
    processInstances d !! processId = Some p
    ∧ notifications d'
      = (notifications d
         ++ [Notification.mk (ProcessInstance.createdById p) (Some processId) message
               ACTION_REQUIRED false])%list.
Proof.
  intros HPOST Hok Hbody Hne.
  destruct (POST_ok _ _ _ _ _ _ _ HPOST Hok)
    as (user & action' & comments' & ctx & dT & Hs & _ & Hbody' & Hctx & Hpid & _ & _
        & Htx & ->).
  rewrite Hbody in Hbody'. injection Hbody' as <- <-.
  destruct (findStepInstance_Some _ _ _ Hctx) as (_ & _ & Hp & _). rewrite Hpid in Hp.
  destruct (transition_frame _ _ _ _ _ _ _ _ _ _ Htx) as (_ & _ & _ & _ & _ & Hnotes).
  exists (StepAction.process ctx).
  destruct action; [done|..]; eexists; (split; [done|]);
    unfold StepAction.afterCommit, notifyProcessCreator; cbn zeta;
    cbn [notifications createNotification createAuditLog set_notifications set_auditLogs
         StepAction.notificationAction];
    by rewrite Hnotes.
Qed.

(** Bob rejects [p-1]: Ann, the creator, is told; nobody else is. *)
Lemma rejection_notifies_creator_only_witness :
  let body := Scenario.actionBody "reject" in
  let r := StepAction.POST Scenario.bob "p-0" "p-1" body Scenario.db1 in
  NextResponse.ok r.1 = true
  ∧ ∃ message,
      notifications r.2
      = (notifications Scenario.db1
         ++ [Notification.mk "ann" (Some "p-0") message ACTION_REQUIRED false])%list.
Proof.
  intros body r.
  assert (H1 : StepAction.POST Scenario.bob "p-0" "p-1" body Scenario.db1 = (r.1, r.2))
    by apply surjective_pairing.
  assert (H2 : NextResponse.ok r.1 = true) by (vm_compute; reflexivity).
  assert (H3 : StepAction.actionSchema_safeParse body = Some (StepAction.reject, None))
    by (vm_compute; reflexivity).
  assert (Hp : processInstances Scenario.db1 !! "p-0"
               = Some (ProcessInstance.mk "two" "ann" (JObject JEnd)
                         ProcessStatus.IN_PROGRESS)) by (vm_compute; reflexivity).
  destruct (rejection_notifies_creator_only _ _ _ _ _ _ _ _ _ H1 H2 H3)
    as (p & message & Hp' & Hnotes); [discriminate|].
  rewrite Hp in Hp'. injection Hp' as <-.
  split; [exact H2|]. exists message. exact Hnotes.
Defined.

(** X5.  Acting a second time on a step instance that a call has acted on
    is refused: whoever the approver and whatever the action, the answer
    is 400 Step is not pending and the database stays as the first call
    left it. *)
Theorem second_action_is_refused (env : Env) (processId stepId : string) (body : Json)
    (d d' : Db) (resp : StepAction.Response)
    (env2 : Env) (user2 : SessionUser.t) (body2 : Json) :
  StepAction.POST env processId stepId body d = (resp, d') →
  NextResponse.ok resp = true →
  session env2 = Some user2 →
  isApprover (SessionUser.role user2) = true →
  is_Some (StepAction.actionSchema_safeParse body2) →
  StepAction.POST env2 processId stepId body2 d'
  = (NextResponse.error "Step is not pending" 400, d').
Proof.
  intros HPOST Hok Hs2 Hrole2 [[action2 comments2] Hbody2].
  pose proof (stepAction_sameRelations _ _ _ _ _ _ _ HPOST) as Hsame.
  destruct (stepAction_frame _ _ _ _ _ _ _ HPOST) as (_ & Hwt & Hws & _).
  destruct (POST_ok _ _ _ _ _ _ _ HPOST Hok)
    as (user & action & comments & ctx & dT & _ & _ & _ & Hctx & Hpid & _ & _ & Htx & Hd').
  destruct (findStepInstance_Some _ _ _ Hctx) as (Hsi & Hstep & Hp & Hw & _ & Hsteps).
  rewrite Hpid in Hp, Hsteps.
  assert (Hrow : processStepInstances d' !! stepId
                 = Some (StepAction.actedData action (SessionUser.id user) (now env)
                           comments (StepAction.stepInstance ctx))).
  { rewrite Hd'.
    destruct (afterCommit_tables processId action comments (SessionUser.id user) ctx dT)
      as (_ & _ & _ & _ & _ & ->).
    by eapply transition_acted_row. }
  destruct Hsame as (_ & _ & Hprocs). specialize (Hprocs processId). rewrite Hp in Hprocs.
  destruct (processInstances d' !! processId) as [p'|] eqn:Hp'; [|done].
  cbn in Hprocs. injection Hprocs as Htid.
  destruct (stepsOfProcess_sameRelations _ _ (stepAction_sameRelations _ _ _ _ _ _ _ HPOST)
              processId) as [steps' Hsteps']; [by eauto|].
  unfold StepAction.POST. rewrite Hs2, Hrole2, Hbody2. cbn [negb].
  unfold StepAction.findStepInstance. rewrite Hrow. cbn [StepAction.actedData
    ProcessStepInstance.workflowStepId ProcessStepInstance.processInstanceId].
  rewrite Hws, Hstep. cbn. rewrite Hpid, Hp'. cbn. rewrite Hwt, Htid, Hw. cbn.
  rewrite Hsteps'. cbn.
  rewrite bool_decide_eq_true_2 by done. cbn [negb].
  rewrite bool_decide_eq_false_2; [done|]. by destruct (decide _).
Qed.

(** Bob approves [p-1]; Eve then tries to reject it. *)
Lemma second_action_is_refused_witness :
  let r := StepAction.POST Scenario.bob "p-0" "p-1" (Scenario.actionBody "approve")
             Scenario.db1 in
  NextResponse.ok r.1 = true
  ∧ StepAction.POST Scenario.eve "p-0" "p-1" (Scenario.actionBody "reject") r.2
    = (NextResponse.error "Step is not pending" 400, r.2).
Proof.
  intros r.
  assert (H1 : StepAction.POST Scenario.bob "p-0" "p-1" (Scenario.actionBody "approve")
                 Scenario.db1 = (r.1, r.2)) by apply surjective_pairing.
  assert (H2 : NextResponse.ok r.1 = true) by (vm_compute; reflexivity).
  split; [exact H2|].
  apply (second_action_is_refused _ _ _ _ _ _ _ Scenario.eve (SessionUser.mk "eve" ADMIN)
           (Scenario.actionBody "reject") H1 H2);
    [reflexivity | reflexivity | vm_compute; by eexists].
Defined.

(** X6.  Whatever it answers, a step action creates and deletes no row
    and moves none: users, templates, template steps and form schemas are
    as before; every step instance is still there, under the same process
    and workflow step, and no new one appears; every process is still
    there with the same template, creator and form data, and no new one
    appears.  Only the status columns, the acted-by, acted-at and comments
    columns, the audit log and the notifications can differ. *)
Theorem action_keeps_rows (env : Env) (processId stepId : string) (body : Json)
    (d d' : Db) (resp : StepAction.Response) :
  StepAction.POST env processId stepId body d = (resp, d') →
  users d' = users d
  ∧ workflowTemplates d' = workflowTemplates d
  ∧ workflowSteps d' = workflowSteps d
  ∧ formSchemas d' = formSchemas d
  ∧ (∀ k, match processStepInstances d !! k, processStepInstances d' !! k with
          | Some r, Some r' =>
              ProcessStepInstance.processInstanceId r' = ProcessStepInstance.processInstanceId r
              ∧ ProcessStepInstance.workflowStepId r' = ProcessStepInstance.workflowStepId r
          | None, None => True
          | _, _ => False
          end)
  ∧ (∀ q, match processInstances d !! q, processInstances d' !! q with
          | Some p, Some p' =>
              ProcessInstance.workflowTemplateId p' = ProcessInstance.workflowTemplateId p
              ∧ ProcessInstance.createdById p' = ProcessInstance.createdById p
              ∧ ProcessInstance.formData p' = ProcessInstance.formData p
          | None, None => True
          | _, _ => False
          end).
Proof.
  intros HPOST.
  destruct (stepAction_frame _ _ _ _ _ _ _ HPOST) as (Hu & Hwt & Hws & Hfs).
  destruct (stepAction_sameRelations _ _ _ _ _ _ _ HPOST) as (_ & Hrel & _).
  pose proof (stepAction_sameProcesses _ _ _ _ _ _ _ HPOST) as Hprocs.
  split_and!; try done.
  - intros k. specialize (Hrel k).
    destruct (processStepInstances d !! k), (processStepInstances d' !! k);
      cbn in Hrel; try done.
    unfold relations in Hrel. by simplify_eq.
  - intros q. specialize (Hprocs q).
    destruct (processInstances d !! q) as [p|], (processInstances d' !! q) as [p'|];
      cbn in Hprocs; try done.
    destruct p, p'. cbn in *. unfold ProcessInstance.set_status in Hprocs. cbn in Hprocs.
    by simplify_eq.
Qed.

(** Bob approves the approval [q-2]: Ann's form data is where it was. *)
Lemma action_keeps_rows_witness :
  let r := StepAction.POST Scenario.bob "q-0" "q-2" (Scenario.actionBody "approve")
             Scenario.db1 in
  workflowSteps r.2 = workflowSteps Scenario.db1
  ∧ (ProcessInstance.formData <$> processInstances r.2 !! "q-0") = Some (JObject JEnd).
Proof.
  intros r.
  assert (H1 : StepAction.POST Scenario.bob "q-0" "q-2" (Scenario.actionBody "approve")
                 Scenario.db1 = (r.1, r.2)) by apply surjective_pairing.
  assert (Hp : processInstances Scenario.db1 !! "q-0"
               = Some (ProcessInstance.mk "notice" "ann" (JObject JEnd)
                         ProcessStatus.IN_PROGRESS)) by (vm_compute; reflexivity).
  destruct (action_keeps_rows _ _ _ _ _ _ _ H1) as (_ & _ & Hws & _ & _ & Hprocs).
  split; [exact Hws|].
  specialize (Hprocs "q-0"). rewrite Hp in Hprocs.
  destruct (processInstances r.2 !! "q-0") as [p'|]; [|destruct Hprocs].
  destruct Hprocs as (_ & _ & Hdata). cbn. by rewrite Hdata.
Defined.

(** The three action names are read back as the actions they name, and
    nothing else is an action. *)
Lemma parseAction_name (s : string) (a : StepAction.Action) :
  StepAction.parseAction s = Some a ↔ s = StepAction.Action_name a.
Proof.
  unfold StepAction.parseAction. split.
  - repeat case_decide; intros; by simplify_eq.
  - intros ->. by destruct a.
Qed.

(** X7.  The action of the body is matched against the three names
    exactly: an approver whose body carries any other string as action is
    answered 400 Invalid request before the step instance is looked up,
    and nothing changes. *)
Theorem unknown_action_is_refused (env : Env) (user : SessionUser.t)
    (processId stepId : string) (fields : JsonFields) (name : string) (d : Db) :
  session env = Some user →
  isApprover (SessionUser.role user) = true →
  json_get "action" fields = Some (JString name) →
  (∀ a, name ≠ StepAction.Action_name a) →
  StepAction.POST env processId stepId (JObject fields) d
  = (NextResponse.error "Invalid request" 400, d).
Proof.
  intros Hs Hrole Hget Hname.
  unfold StepAction.POST, StepAction.actionSchema_safeParse.
  rewrite Hs, Hrole, Hget. cbn [negb].
  destruct (StepAction.parseAction name) as [a|] eqn:Hparse; [|done].
  apply parseAction_name in Hparse. by destruct (Hname a).
Qed.

(** Bob sends the action Approve, with a capital letter. *)
Lemma unknown_action_is_refused_witness :
  StepAction.POST Scenario.bob "p-0" "p-1" (Scenario.actionBody "Approve") Scenario.db1
  = (NextResponse.error "Invalid request" 400, Scenario.db1).
Proof.
  apply (unknown_action_is_refused Scenario.bob (SessionUser.mk "bob" APPROVER)
           "p-0" "p-1" (JField "action" (JString "Approve") JEnd) "Approve" Scenario.db1);
    [reflexivity | reflexivity | reflexivity |].
  intros []; discriminate.
Defined.

(** ** Creation: when it succeeds, and what it answers *)

Section CreateStepInstancesRuns.
Import CreateProcess.
Variables (cuid : nat → string) (processId userId : string) (now : Date).

(** With unused, pairwise distinct keys the step instances are created. *)
Lemma createStepInstances_runs (steps : list (string * WorkflowStep.t)) :
  ∀ (index : nat) (d : Db),
    (∀ i, (i < length steps)%nat →
          processStepInstances d !! cuid (S (index + i)) = None) →
    (∀ i j, (i < length steps)%nat → (j < length steps)%nat →
            cuid (S (index + i)) = cuid (S (index + j)) → i = j) →
    is_Some (createStepInstances cuid processId userId now index steps d).
Proof.
  induction steps as [|step rest IH]; intros index d Hfree Hinj.
  - by eexists.
  - cbn [createStepInstances]. unfold tx_bind, processStepInstance_create.
    pose proof (Hfree 0%nat ltac:(cbn; lia)) as H0. rewrite Nat.add_0_r in H0.
    rewrite H0.
    destruct (IH (S index)
                (set_processStepInstances
                   (<[cuid (S index) := stepInstanceData processId userId now index step]>
                      (processStepInstances d)) d)) as [[sis d1] Hrest].
    + intros i Hi. cbn [processStepInstances set_processStepInstances].
      rewrite lookup_insert_ne.
      * replace (S index + i)%nat with (index + S i)%nat by lia.
        apply Hfree. cbn. lia.
      * intros Heq.
        replace (S index + i)%nat with (index + S i)%nat in Heq by lia.
        rewrite <- (Nat.add_0_r index) in Heq at 1.
        apply Hinj in Heq; [lia | cbn; lia | cbn; lia].
    + intros i j Hi Hj Heq.
      replace (S index + i)%nat with (index + S i)%nat in Heq by lia.
      replace (S index + j)%nat with (index + S j)%nat in Heq by lia.
      apply Hinj in Heq; [lia | cbn; lia | cbn; lia].
    + rewrite Hrest. by eexists.
Qed.
End CreateStepInstancesRuns.

(** Whatever it answers, a creation leaves users, templates, template
    steps and form schemas alone. *)
Lemma createProcess_frame (env : Env) (body : Json) (d d' : Db)
    (resp : CreateProcess.Response) :
  CreateProcess.POST env body d = (resp, d') →
  users d' = users d
  ∧ workflowTemplates d' = workflowTemplates d
  ∧ workflowSteps d' = workflowSteps d
  ∧ formSchemas d' = formSchemas d.
Proof.
  unfold CreateProcess.POST. intros H.
  destruct (session env) as [user|]; [|by simplify_eq].
  destruct (CreateProcess.createProcessSchema_safeParse body) as [[tid formData]|];
    [|by simplify_eq].
  destruct (CreateProcess.findWorkflow d tid) as [w|]; [|by simplify_eq].
  destruct (negb _); [by simplify_eq|].
  destruct (bool_decide _); [by simplify_eq|].
  destruct (CreateProcess.create _ _ _ _ _ _) as [[[pi sis] dT]|] eqn:Htx;
    [|by simplify_eq].
  assert (Hframe : writesProcessTablesOnly
            (CreateProcess.create env (SessionUser.id user) tid formData
               (CreateProcess.steps w))).
  { unfold CreateProcess.create.
    apply tx_bind_frame; [apply processInstance_create_frame|]. intros ?.
    apply tx_bind_frame; [apply createStepInstances_frame|]. intros ?.
    apply tx_ret_frame. }
  destruct (Hframe _ _ _ Htx) as (Hu & Hwt & Hws & Hfs & _).
  cbn zeta in H.
  assert (Hafter : ∀ dA, dA = CreateProcess.afterCommit (SessionUser.id user) pi.1
                                formData w dT →
            users dA = users d ∧ workflowTemplates dA = workflowTemplates d
            ∧ workflowSteps dA = workflowSteps d ∧ formSchemas dA = formSchemas d).
  { intros dA ->. unfold CreateProcess.afterCommit. cbn zeta.
    destruct (CreateProcess.hasApprovalPending _);
      try (edestruct notifyApprovers_tables as (-> & -> & -> & -> & _)); done. }
  destruct (findProcessWithSteps _ _); injection H as <- <-; by apply Hafter.
Qed.

(** With an ACTIVE template that has a step, unused keys and no step
    instance left behind by a process that is gone, creation answers 201
    with the new process. *)
Lemma createProcess_succeeds (env : Env) (user : SessionUser.t) (body : Json)
    (workflowTemplateId : string) (formData : Json) (w : WorkflowTemplate.t) (d : Db) :
  let steps := stepsOfTemplate d workflowTemplateId in
  session env = Some user →
  CreateProcess.createProcessSchema_safeParse body = Some (workflowTemplateId, formData) →
  workflowTemplates d !! workflowTemplateId = Some w →
  WorkflowTemplate.status w = WorkflowStatus.ACTIVE →
  steps ≠ [] →
  processInstances d !! cuid env 0%nat = None →
  (∀ i, (i < length steps)%nat → processStepInstances d !! cuid env (S i) = None) →
  (∀ i j, (i < length steps)%nat → (j < length steps)%nat →
          cuid env (S i) = cuid env (S j) → i = j) →
  (∀ k r, processStepInstances d !! k = Some r →
          is_Some (processInstances d !! ProcessStepInstance.processInstanceId r)) →
  ∃ completeProcess d',
    CreateProcess.POST env body d = (NextResponse.json (Some completeProcess) 201, d')
    ∧ ProcessWithSteps.id completeProcess = cuid env 0%nat
    ∧ ProcessWithSteps.row completeProcess
      = ProcessInstance.mk workflowTemplateId (SessionUser.id user) formData
          ProcessStatus.IN_PROGRESS
    ∧ stepsOfProcess d' (cuid env 0%nat) = Some (ProcessWithSteps.steps completeProcess).
Proof.
  intros steps Hs Hbody Hw Hactive Hsteps Hfree Hfrees Hinj Hfk.
  assert (Htx : is_Some (CreateProcess.create env (SessionUser.id user) workflowTemplateId
                           formData steps d)).
  { unfold CreateProcess.create, tx_bind, processInstance_create. rewrite Hfree.
    cbn [fst].
    destruct (createStepInstances_runs (cuid env) (cuid env 0%nat) (SessionUser.id user)
                (now env) steps 0%nat
                (set_processInstances
                   (<[cuid env 0%nat := ProcessInstance.mk workflowTemplateId
                        (SessionUser.id user) formData ProcessStatus.IN_PROGRESS]>
                      (processInstances d)) d)) as [[sis d1] Hrun]; [done|done|].
    rewrite Hrun. by eexists. }
  destruct Htx as [[[pi sis] dT] Htx].
  set (wl := CreateProcess.mkWorkflow w steps (formSchemas d !! workflowTemplateId)).
  set (d' := CreateProcess.afterCommit (SessionUser.id user) pi.1 formData wl dT).
  assert (HPOST : ∀ fetched, findProcessWithSteps d' pi.1 = Some fetched →
            CreateProcess.POST env body d = (NextResponse.json fetched 201, d')).
  { intros fetched Hfetch. unfold CreateProcess.POST, CreateProcess.findWorkflow.
    rewrite Hs, Hbody, Hw. cbn [mbind option_bind CreateProcess.workflow CreateProcess.steps].
    rewrite bool_decide_eq_true_2 by done. cbn [negb].
    rewrite bool_decide_eq_false_2
      by (intros Hlen; apply Hsteps; exact (nil_length_inv _ Hlen)).
    fold steps. rewrite Htx. cbn zeta. fold wl. fold d'. by rewrite Hfetch. }
  (* the tables after the transaction *)
  pose proof Htx as Htx'.
  unfold CreateProcess.create, tx_bind, processInstance_create in Htx'.
  rewrite Hfree in Htx'. cbn [fst] in Htx'.
  destruct (CreateProcess.createStepInstances _ _ _ _ _ _ _) as [[sis' d1]|] eqn:Hrun;
    [|done].
  unfold tx_ret in Htx'. injection Htx' as <- <- <-.
  destruct (createStepInstances_spec _ _ _ _ _ _ _ _ _ Hrun) as (Hp & Hrows & _ & Hframe).
  cbn [processInstances processStepInstances set_processInstances] in Hp, Hrows, Hframe.
  assert (Hws1 : workflowSteps d1 = workflowSteps d).
  { pose proof (createStepInstances_frame (cuid env) (cuid env 0%nat) (SessionUser.id user)
                  (now env) steps 0%nat _ _ _ Hrun) as (_ & _ & Hws1 & _).
    exact Hws1. }
  destruct (createProcess_afterCommit_tables (SessionUser.id user) (cuid env 0%nat)
              formData wl d1) as (Hws' & Hp' & Hsi').
  cbn zeta in Hws', Hp', Hsi'. cbn [fst] in d', HPOST. fold d' in Hws', Hp', Hsi'.
  assert (Hfetch : is_Some (stepsOfProcess d' (cuid env 0%nat))).
  { apply stepsOfProcess_is_Some. intros k r Hk Hpid.
    rewrite Hsi' in Hk. rewrite Hws', Hws1.
    destruct (decide (k ∈ (λ i, cuid env (S i)) <$> seq 0 (length steps)))
      as [Hin|Hnot].
    - apply list_elem_of_fmap in Hin as (i & -> & Hi).
      apply elem_of_seq in Hi as [_ Hi]. cbn in Hi.
      apply lookup_lt_is_Some in Hi as [step Hi].
      destruct (Hrows i step Hi) as [_ Hrow]. cbn [Nat.add] in Hrow.
      rewrite Hrow in Hk. injection Hk as <-. cbn.
      apply list_elem_of_lookup_2, stepsOfTemplate_elem in Hi as [Hi _]. by eauto.
    - exfalso. rewrite Hframe in Hk.
      2:{ intros i Hi ->. apply Hnot, list_elem_of_fmap. exists i.
          split; [done|]. apply elem_of_seq. cbn. lia. }
      destruct (Hfk k r Hk) as [p Hp0]. rewrite Hpid, Hfree in Hp0. done. }
  destruct Hfetch as [l Hl].
  exists (ProcessWithSteps.mk (cuid env 0%nat)
            (ProcessInstance.mk workflowTemplateId (SessionUser.id user) formData
               ProcessStatus.IN_PROGRESS) l), d'.
  split_and!; [|done|done|done].
  apply HPOST. unfold findProcessWithSteps.
  rewrite Hp', Hp, lookup_insert_eq, Hl. done.
Qed.

Section OrderByPermutation.
Context {A : Type} (key : A → Z).

Lemma insertBy_Permutation (x : A) (l : list A) : insertBy key x l ≡ₚ x :: l.
Proof.
  induction l as [|y l IH]; cbn [insertBy]; [done|].
  destruct (key x <=? key y)%Z; [done|].
  rewrite IH. apply Permutation_swap.
Qed.

(** [orderBy] reorders its rows and neither drops nor repeats one. *)
Lemma orderBy_Permutation (l : list A) : orderBy key l ≡ₚ l.
Proof.
  unfold orderBy. induction l as [|x l IH]; cbn [foldr]; [done|].
  by rewrite insertBy_Permutation, IH.
Qed.
End OrderByPermutation.

(** The answer of a successful creation is the new process read back. *)
Lemma createProcess_response (env : Env) (body : Json) (d d' : Db)
    (resp : CreateProcess.Response) :
  CreateProcess.POST env body d = (resp, d') →
  NextResponse.ok resp = true →
  ∃ fetched,
    resp = NextResponse.json fetched 201
    ∧ findProcessWithSteps d' (cuid env 0%nat) = Some fetched.
Proof.
  unfold CreateProcess.POST. intros H Hok.
  destruct (session env) as [user|]; [|by simplify_eq].
  destruct (CreateProcess.createProcessSchema_safeParse body) as [[tid formData]|];
    [|by simplify_eq].
  destruct (CreateProcess.findWorkflow d tid) as [w|]; [|by simplify_eq].
  destruct (negb _); [by simplify_eq|].
  destruct (bool_decide _); [by simplify_eq|].
  destruct (CreateProcess.create _ _ _ _ _ _) as [[[pi sis] dT]|] eqn:Htx;
    [|by simplify_eq].
  assert (Hpi : pi.1 = cuid env 0%nat).
  { unfold CreateProcess.create, tx_bind, processInstance_create in Htx.
    destruct (processInstances d !! cuid env 0%nat); [done|]. cbn [fst] in Htx.
    destruct (CreateProcess.createStepInstances _ _ _ _ _ _ _) as [[? ?]|]; [|done].
    unfold tx_ret in Htx. by simplify_eq. }
  cbn zeta in H. rewrite Hpi in H.
  destruct (findProcessWithSteps _ _) as [fetched|] eqn:Hfetch; [|by simplify_eq].
  injection H as <- <-. by exists fetched.
Qed.

(** A joined step instance carries the workflow step its row names. *)
Lemma joinWorkflowStep_proj (d : Db) (dummy : WorkflowStep.t)
    (F : list (string * ProcessStepInstance.t)) (rows : list StepWithWorkflowStep.t) :
  Forall2 (λ x y, joinWorkflowStep d x = Some y) F rows →
  (λ s, (ProcessStepInstance.workflowStepId (StepWithWorkflowStep.row s),
         StepWithWorkflowStep.workflowStep s)) <$> rows
  = (λ s : string * ProcessStepInstance.t,
       (ProcessStepInstance.workflowStepId s.2,
        default dummy (workflowSteps d !! ProcessStepInstance.workflowStepId s.2))) <$> F.
Proof.
  induction 1 as [|x y F0 rows0 Hxy _ IH]; [done|].
  cbn. f_equal; [|exact IH].
  unfold joinWorkflowStep in Hxy.
  destruct (workflowSteps d !! ProcessStepInstance.workflowStepId x.2) as [ws|]; [|done].
  cbn in Hxy. by simplify_eq.
Qed.

(** The steps read back for a new process are the template's steps, one
    step instance each. *)
Lemma created_steps_Permutation (env : Env) (body : Json) (d d' : Db)
    (resp : CreateProcess.Response) (workflowTemplateId : string) (formData : Json)
    (l : list StepWithWorkflowStep.t) :
  CreateProcess.POST env body d = (resp, d') →
  NextResponse.ok resp = true →
  CreateProcess.createProcessSchema_safeParse body = Some (workflowTemplateId, formData) →
  (∀ k r, processStepInstances d !! k = Some r →
          is_Some (processInstances d !! ProcessStepInstance.processInstanceId r)) →
  stepsOfProcess d' (cuid env 0%nat) = Some l →
  (λ s, (ProcessStepInstance.workflowStepId (StepWithWorkflowStep.row s),
         StepWithWorkflowStep.workflowStep s)) <$> l
  ≡ₚ stepsOfTemplate d workflowTemplateId.
Proof.
  intros HPOST Hok Hbody Hfk Hl.
  destruct (createProcess_committed _ _ _ _ _ HPOST Hok)
    as (user & tid & formData' & _ & Hbody' & Hws & Hfree & _ & Hrows & Hinj & Hframe & _).
  rewrite Hbody in Hbody'. injection Hbody' as <- <-. cbn zeta in *.
  set (steps := stepsOfTemplate d workflowTemplateId) in *.
  set (q := cuid env 0%nat) in *.
  set (C := imap (λ i step, (cuid env (S i),
                CreateProcess.stepInstanceData q (SessionUser.id user) (now env) i step))
              steps).
  set (F := filter (λ s : string * ProcessStepInstance.t,
                      ProcessStepInstance.processInstanceId s.2 = q)
              (map_to_list (processStepInstances d'))).
  set (dummy := WorkflowStep.mk "" 0 FORM "").
  set (g := λ s : string * ProcessStepInstance.t,
              (ProcessStepInstance.workflowStepId s.2,
               default dummy (workflowSteps d' !! ProcessStepInstance.workflowStepId s.2))).
  assert (HFC : F ≡ₚ C).
  { apply NoDup_Permutation.
    - apply NoDup_filter, NoDup_map_to_list.
    - apply NoDup_alt. intros i j x Hi Hj. unfold C in Hi, Hj.
      rewrite list_lookup_imap in Hi, Hj.
      destruct (steps !! i) as [si|] eqn:Hsi; [|done].
      destruct (steps !! j) as [sj|] eqn:Hsj; [|done].
      cbn in Hi, Hj. simplify_eq. by eapply (Hinj i j).
    - intros [k r]. unfold F. rewrite list_elem_of_filter, elem_of_map_to_list. cbn. split.
      + intros [Hpid Hk].
        destruct (decide (k ∈ (λ i, cuid env (S i)) <$> seq 0 (length steps)))
          as [Hin|Hnot].
        * apply list_elem_of_fmap in Hin as (i & -> & Hi).
          apply elem_of_seq in Hi as [_ Hi]. cbn in Hi.
          apply lookup_lt_is_Some in Hi as [step Hi].
          destruct (Hrows i step Hi) as [_ Hrow]. rewrite Hrow in Hk. injection Hk as <-.
          by apply (elem_of_lookup_imap_2
                      (λ i step, (cuid env (S i),
                         CreateProcess.stepInstanceData q (SessionUser.id user)
                           (now env) i step))).
        * exfalso. rewrite Hframe in Hk.
          2:{ intros i Hi ->. apply Hnot, list_elem_of_fmap. exists i.
              split; [done|]. apply elem_of_seq. cbn. lia. }
          destruct (Hfk k r Hk) as [p Hp0]. rewrite Hpid in Hp0.
          by rewrite Hfree in Hp0.
      + intros Hin. apply elem_of_lookup_imap_1 in Hin as (i & step & Heq & Hi).
        injection Heq as -> ->. destruct (Hrows i step Hi) as [_ Hrow]. done. }
  unfold stepsOfProcess in Hl. fold q in Hl. fold F in Hl.
  destruct (mapM (joinWorkflowStep d') F) as [rows|] eqn:Hrowsl; [|done].
  cbn in Hl. injection Hl as <-.
  apply mapM_Some_1 in Hrowsl.
  pose proof (joinWorkflowStep_proj d' dummy F rows Hrowsl) as Hproj. fold g in Hproj.
  rewrite orderBy_Permutation, Hproj, HFC.
  replace (g <$> C) with steps; [done|].
  apply list_eq. intros i. unfold C.
  rewrite list_lookup_fmap, list_lookup_imap.
  destruct (steps !! i) as [step|] eqn:Hi; [|done].
  cbn. unfold g. cbn. rewrite Hws.
  apply list_elem_of_lookup_2, stepsOfTemplate_elem in Hi as [Hi _].
  rewrite Hi. cbn. by destruct step.
Qed.

(** An approval is pending right after the creation exactly when the
    first step is an approval, or the first step is a form and the second
    one an approval. *)
Lemma hasApprovalPending_iff (steps : list (string * WorkflowStep.t)) :
  CreateProcess.hasApprovalPending steps = true ↔
  (∃ s, steps !! 0%nat = Some s ∧ WorkflowStep.stepType s.2 = APPROVAL)
  ∨ (∃ s0 s1, steps !! 0%nat = Some s0 ∧ WorkflowStep.stepType s0.2 = FORM
              ∧ steps !! 1%nat = Some s1 ∧ WorkflowStep.stepType s1.2 = APPROVAL).
Proof.
  unfold CreateProcess.hasApprovalPending. rewrite existsb_exists. split.
  - intros ([i s] & Hin & Hf).
    apply list_elem_of_In, elem_of_lookup_imap_1 in Hin as (i' & s' & Heq & Hi).
    injection Heq as -> ->.
    apply andb_true_iff in Hf as [Hty Hf]. apply bool_decide_eq_true in Hty.
    apply orb_true_iff in Hf as [Hf|Hf].
    + apply bool_decide_eq_true in Hf as ->. left. by eauto.
    + apply andb_true_iff in Hf as [Hone Hfirst].
      apply bool_decide_eq_true in Hone as ->.
      destruct (steps !! 0%nat) as [s0|] eqn:H0; [|done].
      apply bool_decide_eq_true in Hfirst. right. by eauto 10.
  - intros [(s & H0 & Hty)|(s0 & s1 & H0 & Hty0 & H1 & Hty1)].
    + exists (0%nat, s). split.
      * apply list_elem_of_In.
        by apply (elem_of_lookup_imap_2 (λ index step, (index, step))).
      * cbn. by rewrite (bool_decide_eq_true_2 _ Hty).
    + exists (1%nat, s1). split.
      * apply list_elem_of_In.
        by apply (elem_of_lookup_imap_2 (λ index step, (index, step))).
      * cbn. rewrite H0.
        by rewrite (bool_decide_eq_true_2 _ Hty0), (bool_decide_eq_true_2 _ Hty1).
Qed.

(** X8.  Creation cannot fail once its checks pass and the generated keys
    are unused: for an authenticated caller, a well-formed body, an ACTIVE
    template with at least one step, a process key and pairwise distinct
    step keys that no row has, and a database in which every step instance
    belongs to a process, the answer is 201 with the new IN_PROGRESS
    process. *)
Theorem creation_succeeds_with_unused_keys (env : Env) (user : SessionUser.t)
    (body : Json) (workflowTemplateId : string) (formData : Json)
    (w : WorkflowTemplate.t) (d : Db) :
  let steps := stepsOfTemplate d workflowTemplateId in
  session env = Some user →
  CreateProcess.createProcessSchema_safeParse body = Some (workflowTemplateId, formData) →
  workflowTemplates d !! workflowTemplateId = Some w →
  WorkflowTemplate.status w = WorkflowStatus.ACTIVE →
  steps ≠ [] →
  processInstances d !! cuid env 0%nat = None →
  (∀ i, (i < length steps)%nat → processStepInstances d !! cuid env (S i) = None) →
  (∀ i j, (i < length steps)%nat → (j < length steps)%nat →
          cuid env (S i) = cuid env (S j) → i = j) →
  (∀ k r, processStepInstances d !! k = Some r →
          is_Some (processInstances d !! ProcessStepInstance.processInstanceId r)) →
  ∃ completeProcess d',
    CreateProcess.POST env body d = (NextResponse.json (Some completeProcess) 201, d')
    ∧ ProcessWithSteps.id completeProcess = cuid env 0%nat
    ∧ ProcessInstance.status (ProcessWithSteps.row completeProcess)
      = ProcessStatus.IN_PROGRESS
    ∧ ProcessInstance.createdById (ProcessWithSteps.row completeProcess)
      = SessionUser.id user.
Proof.
  intros steps Hs Hbody Hw Hactive Hsteps Hfree Hfrees Hinj Hfk.
  destruct (createProcess_succeeds env user body workflowTemplateId formData w d
              Hs Hbody Hw Hactive Hsteps Hfree Hfrees Hinj Hfk)
    as (cp & d' & HPOST & Hid & Hrow & _).
  exists cp, d'. rewrite Hrow. by split_and!.
Qed.

(** X9.  When creation succeeds in a database in which every step
    instance belongs to a process, the process in the answer is the new
    one and its steps are the template's steps, one step instance for each
    template step, in ascending stepOrder, every one belonging to the new
    process. *)
Theorem created_process_lists_its_steps (env : Env) (body : Json) (d d' : Db)
    (resp : CreateProcess.Response) (workflowTemplateId : string) (formData : Json) :
  CreateProcess.POST env body d = (resp, d') →
  NextResponse.ok resp = true →
  CreateProcess.createProcessSchema_safeParse body = Some (workflowTemplateId, formData) →
  (∀ k r, processStepInstances d !! k = Some r →
          is_Some (processInstances d !! ProcessStepInstance.processInstanceId r)) →
  ∃ completeProcess,
    let steps := ProcessWithSteps.steps completeProcess in
    resp = NextResponse.json (Some completeProcess) 201
    ∧ ProcessWithSteps.id completeProcess = cuid env 0%nat
    ∧ (λ s, (ProcessStepInstance.workflowStepId (StepWithWorkflowStep.row s),
             StepWithWorkflowStep.workflowStep s)) <$> steps
      ≡ₚ stepsOfTemplate d workflowTemplateId
    ∧ length steps = length (stepsOfTemplate d workflowTemplateId)
    ∧ StronglySorted
        (λ a b, (WorkflowStep.stepOrder (StepWithWorkflowStep.workflowStep a)
                 ≤ WorkflowStep.stepOrder (StepWithWorkflowStep.workflowStep b))%Z) steps
    ∧ Forall (λ s, ProcessStepInstance.processInstanceId (StepWithWorkflowStep.row s)
                   = cuid env 0%nat) steps.
Proof.
  intros HPOST Hok Hbody Hfk.
  pose proof Hok as Hok'.
  destruct (createProcess_response _ _ _ _ _ HPOST Hok) as (fetched & -> & Hfetch).
  destruct (createProcess_committed _ _ _ _ _ HPOST Hok')
    as (user & tid & formData' & _ & _ & _ & _ & Hp & _ & _ & _ & [l Hl]).
  cbn zeta in Hp.
  unfold findProcessWithSteps in Hfetch. rewrite Hp, lookup_insert_eq, Hl in Hfetch.
  cbn in Hfetch. injection Hfetch as <-.
  eexists. cbn zeta. cbn [ProcessWithSteps.steps ProcessWithSteps.id].
  pose proof (created_steps_Permutation _ _ _ _ _ _ _ _ HPOST Hok' Hbody Hfk Hl) as Hperm.
  split_and!; [reflexivity|reflexivity|exact Hperm| | |].
  - rewrite <- (Permutation_length Hperm). by rewrite length_fmap.
  - pose proof Hl as Hl'. unfold stepsOfProcess in Hl'.
    destruct (mapM _ _) as [rows|]; [|done]. cbn in Hl'. injection Hl' as <-.
    apply (orderBy_sorted
             (λ s, WorkflowStep.stepOrder (StepWithWorkflowStep.workflowStep s))).
  - apply Forall_forall. intros s Hin.
    by destruct (stepsOfProcess_elem _ _ _ _ Hl Hin) as (_ & Hpid & _).
Qed.

(** X10.  A successful creation appends one PROCESS_CREATED audit entry in
    the name of the creator and one unread INFO notification for the
    creator.  The approver pool is notified as well exactly when an
    approval is the next thing to happen: the first step of the template is
    an APPROVAL step, or the first step is a FORM step and the second one
    an APPROVAL step. *)
Theorem creation_notifies (env : Env) (user : SessionUser.t) (body : Json)
    (workflowTemplateId : string) (formData : Json) (w : WorkflowTemplate.t)
    (d d' : Db) (resp : CreateProcess.Response) :
  CreateProcess.POST env body d = (resp, d') →
  NextResponse.ok resp = true →
  session env = Some user →
  CreateProcess.createProcessSchema_safeParse body = Some (workflowTemplateId, formData) →
  workflowTemplates d !! workflowTemplateId = Some w →
  let steps := stepsOfTemplate d workflowTemplateId in
  let processId := cuid env 0%nat in
  let name := WorkflowTemplate.name w in
  let note := Notification.mk (SessionUser.id user) (Some processId)
                ("Your " +:+ quoted name +:+ " request has been submitted") INFO false in
  let approvalNext :=
    (∃ s, steps !! 0%nat = Some s ∧ WorkflowStep.stepType s.2 = APPROVAL)
    ∨ (∃ s0 s1, steps !! 0%nat = Some s0 ∧ WorkflowStep.stepType s0.2 = FORM
                ∧ steps !! 1%nat = Some s1 ∧ WorkflowStep.stepType s1.2 = APPROVAL) in
  (∃ entry, auditLogs d' = (auditLogs d ++ [entry])%list
            ∧ AuditLog.action entry = "PROCESS_CREATED"
            ∧ AuditLog.changedById entry = SessionUser.id user
            ∧ AuditLog.processInstanceId entry = Some processId)
  ∧ (approvalNext →
     notifications d'
     = (notifications d ++ [note] ++ approverNotifications processId name d)%list)
  ∧ (¬ approvalNext → notifications d' = (notifications d ++ [note])%list).
Proof.
  intros HPOST Hok Hs Hbody Hw.
  destruct (createProcess_ok _ _ _ _ _ HPOST Hok)
    as (user' & tid & formData' & wl & pi & sis & dT & Hs' & Hbody' & Hwl & _ & _ & Htx
        & -> & _).
  rewrite Hs in Hs'. injection Hs' as <-.
  rewrite Hbody in Hbody'. injection Hbody' as <- <-.
  unfold CreateProcess.findWorkflow in Hwl. rewrite Hw in Hwl. cbn in Hwl.
  injection Hwl as <-. cbn [CreateProcess.steps] in Htx.
  assert (Hframe : writesProcessTablesOnly
            (CreateProcess.create env (SessionUser.id user) workflowTemplateId formData
               (stepsOfTemplate d workflowTemplateId))).
  { unfold CreateProcess.create.
    apply tx_bind_frame; [apply processInstance_create_frame|]. intros ?.
    apply tx_bind_frame; [apply createStepInstances_frame|]. intros ?.
    apply tx_ret_frame. }
  destruct (Hframe _ _ _ Htx) as (Hu & _ & _ & _ & Hlogs & Hnotes).
  assert (Hpi : pi.1 = cuid env 0%nat).
  { unfold CreateProcess.create, tx_bind, processInstance_create in Htx.
    destruct (processInstances d !! cuid env 0%nat); [done|]. cbn [fst] in Htx.
    destruct (CreateProcess.createStepInstances _ _ _ _ _ _ _) as [[? ?]|]; [|done].
    unfold tx_ret in Htx. by simplify_eq. }
  rewrite Hpi. cbn zeta.
  unfold CreateProcess.afterCommit. cbn zeta.
  cbn [CreateProcess.workflow CreateProcess.steps].
  pose proof (hasApprovalPending_iff (stepsOfTemplate d workflowTemplateId)) as Hiff.
  destruct (CreateProcess.hasApprovalPending _) eqn:Hpending.
  - split_and!.
    + eexists. edestruct notifyApprovers_tables as (_ & _ & _ & _ & _ & _ & ->).
      cbn [auditLogs createNotification createAuditLog set_notifications set_auditLogs].
      rewrite Hlogs. by split_and!.
    + intros _. rewrite notifyApprovers_notifications.
      cbn [notifications createNotification createAuditLog set_notifications
           set_auditLogs].
      rewrite Hnotes, <- app_assoc.
      by rewrite (approverNotifications_users _ _ _ d) by exact Hu.
    + intros Hnot. destruct Hnot. by apply Hiff.
  - split_and!.
    + eexists.
      cbn [auditLogs createNotification createAuditLog set_notifications set_auditLogs].
      rewrite Hlogs. by split_and!.
    + intros Hnext. apply Hiff in Hnext. done.
    + intros _.
      cbn [notifications createNotification createAuditLog set_notifications
           set_auditLogs].
      by rewrite Hnotes.
Qed.

(** Ann starts a process of the form, approval, notice template in the
    database without processes: the keys [q-0] .. [q-3] are unused and the
    answer is 201 with the process [q-0]. *)
Lemma creation_succeeds_with_unused_keys_witness :
  ∃ completeProcess d',
    CreateProcess.POST (Scenario.ann "q") (Scenario.createBody "notice") Scenario.db0
    = (NextResponse.json (Some completeProcess) 201, d')
    ∧ ProcessWithSteps.id completeProcess = "q-0"
    ∧ ProcessInstance.status (ProcessWithSteps.row completeProcess)
      = ProcessStatus.IN_PROGRESS
    ∧ ProcessInstance.createdById (ProcessWithSteps.row completeProcess) = "ann".
Proof.
  assert (Hlen : length (stepsOfTemplate Scenario.db0 "notice") = 3%nat)
    by (vm_compute; reflexivity).
  apply (creation_succeeds_with_unused_keys (Scenario.ann "q") (SessionUser.mk "ann" USER)
           (Scenario.createBody "notice") "notice" (JObject JEnd)
           (WorkflowTemplate.mk "Leave" WorkflowStatus.ACTIVE) Scenario.db0).
  - reflexivity.
  - vm_compute; reflexivity.
  - vm_compute; reflexivity.
  - reflexivity.
  - intros Hnil. rewrite Hnil in Hlen. discriminate Hlen.
  - vm_compute; reflexivity.
  - intros i _. apply lookup_empty.
  - rewrite Hlen. intros i j Hi Hj Heq.
    destruct i as [|[|[|i]]]; [| | |lia];
      (destruct j as [|[|[|j]]]; [| | |lia]);
      first [reflexivity | vm_compute in Heq; discriminate Heq].
  - intros k r Hk. cbn [Scenario.db0 processStepInstances] in Hk.
    rewrite lookup_empty in Hk. discriminate Hk.
Defined.

(** The process Ann starts of the form, approval, notice template lists
    three steps, as the template has. *)
Lemma created_process_lists_its_steps_witness :
  let r := CreateProcess.POST (Scenario.ann "q") (Scenario.createBody "notice")
             Scenario.db0 in
  ∃ completeProcess,
    r.1 = NextResponse.json (Some completeProcess) 201
    ∧ ProcessWithSteps.id completeProcess = "q-0"
    ∧ length (ProcessWithSteps.steps completeProcess) = 3%nat.
Proof.
  intros r.
  assert (H1 : CreateProcess.POST (Scenario.ann "q") (Scenario.createBody "notice")
                 Scenario.db0 = (r.1, r.2)) by apply surjective_pairing.
  assert (H2 : NextResponse.ok r.1 = true) by (vm_compute; reflexivity).
  assert (H3 : CreateProcess.createProcessSchema_safeParse (Scenario.createBody "notice")
               = Some ("notice", JObject JEnd)) by (vm_compute; reflexivity).
  assert (Hlen : length (stepsOfTemplate Scenario.db0 "notice") = 3%nat)
    by (vm_compute; reflexivity).
  assert (Hfk : ∀ k r, processStepInstances Scenario.db0 !! k = Some r →
                  is_Some (processInstances Scenario.db0
                           !! ProcessStepInstance.processInstanceId r)).
  { intros k r0 Hk. cbn [Scenario.db0 processStepInstances] in Hk.
    rewrite lookup_empty in Hk. discriminate Hk. }
  destruct (created_process_lists_its_steps (Scenario.ann "q")
              (Scenario.createBody "notice") Scenario.db0 r.2 r.1 "notice" (JObject JEnd)
              H1 H2 H3 Hfk)
    as (cp & Hresp & Hid & _ & Hl & _).
  exists cp. split_and!; [exact Hresp | exact Hid |].
  rewrite <- Hlen. exact Hl.
Defined.

(** Ann starts a process of the form, approval, notice template: the
    approval comes second after a form, so the approver pool is notified
    after Ann. *)
Lemma creation_notifies_witness :
  let r := CreateProcess.POST (Scenario.ann "q") (Scenario.createBody "notice")
             Scenario.db0 in
  notifications r.2
  = ([Notification.mk "ann" (Some "q-0")
        ("Your " +:+ quoted "Leave" +:+ " request has been submitted") INFO false]
     ++ approverNotifications "q-0" "Leave" Scenario.db0)%list.
Proof.
  intros r.
  assert (H1 : CreateProcess.POST (Scenario.ann "q") (Scenario.createBody "notice")
                 Scenario.db0 = (r.1, r.2)) by apply surjective_pairing.
  assert (H2 : NextResponse.ok r.1 = true) by (vm_compute; reflexivity).
  assert (H3 : CreateProcess.createProcessSchema_safeParse (Scenario.createBody "notice")
               = Some ("notice", JObject JEnd)) by (vm_compute; reflexivity).
  assert (Hw : workflowTemplates Scenario.db0 !! "notice"
               = Some (WorkflowTemplate.mk "Leave" WorkflowStatus.ACTIVE))
    by (vm_compute; reflexivity).
  assert (Hform : stepsOfTemplate Scenario.db0 "notice" !! 0%nat
                  = Some ("notice-1", Scenario.formStep "notice" 1))
    by (vm_compute; reflexivity).
  assert (Happroval : stepsOfTemplate Scenario.db0 "notice" !! 1%nat
                      = Some ("notice-2", Scenario.approvalStep "notice" 2))
    by (vm_compute; reflexivity).
  destruct (creation_notifies (Scenario.ann "q") (SessionUser.mk "ann" USER)
              (Scenario.createBody "notice") "notice" (JObject JEnd)
              (WorkflowTemplate.mk "Leave" WorkflowStatus.ACTIVE)
              Scenario.db0 r.2 r.1 H1 H2 eq_refl H3 Hw)
    as (_ & Hnext & _).
  apply Hnext. right.
  exists ("notice-1", Scenario.formStep "notice" 1),
         ("notice-2", Scenario.approvalStep "notice" 2).
  split_and!; [exact Hform | reflexivity | exact Happroval | reflexivity].
Defined.

(** ** Creation, then the first decision *)

(** X11.  Creation and the step action fit together: after a successful
    creation, an approver who sends a well-formed action on the step
    instance of any APPROVAL step of the template gets 200.  The step
    instance is found under the key creation gave it, belongs to the new
    process and is PENDING. *)
Theorem created_approval_is_actionable (env approverEnv : Env) (approver : SessionUser.t)
    (body actionBody : Json) (workflowTemplateId : string) (formData : Json)
    (action : StepAction.Action) (comments : option string)
    (d d' : Db) (resp : CreateProcess.Response) (i : nat)
    (step : string * WorkflowStep.t) :
  CreateProcess.POST env body d = (resp, d') →
  NextResponse.ok resp = true →
  CreateProcess.createProcessSchema_safeParse body = Some (workflowTemplateId, formData) →
  stepsOfTemplate d workflowTemplateId !! i = Some step →
  WorkflowStep.stepType step.2 = APPROVAL →
  session approverEnv = Some approver →
  isApprover (SessionUser.role approver) = true →
  StepAction.actionSchema_safeParse actionBody = Some (action, comments) →
  ∃ updatedProcess d'',
    StepAction.POST approverEnv (cuid env 0%nat) (cuid env (S i)) actionBody d'
    = (NextResponse.json updatedProcess 200, d'').
Proof.
  intros HPOST Hok Hbody Hi Hty Hs Hrole Haction.
  destruct (createProcess_frame _ _ _ _ _ HPOST) as (_ & Hwt & _ & _).
  destruct (createProcess_ok _ _ _ _ _ HPOST Hok)
    as (_ & tid0 & fd0 & wl & _ & _ & _ & _ & Hbody0 & Hwl & _).
  destruct (createProcess_committed _ _ _ _ _ HPOST Hok)
    as (user & tid & fd & _ & Hbody' & Hws & _ & Hp & Hrows & _ & _ & [l Hl]).
  cbn zeta in Hp, Hrows, Hl.
  rewrite Hbody in Hbody0, Hbody'. injection Hbody0 as <- <-. injection Hbody' as <- <-.
  unfold CreateProcess.findWorkflow in Hwl.
  destruct (workflowTemplates d !! workflowTemplateId) as [w|] eqn:Hw; [|done].
  destruct (Hrows i step Hi) as [_ Hrow].
  assert (Hstep : workflowSteps d' !! step.1 = Some step.2).
  { rewrite Hws. apply (stepsOfTemplate_elem d workflowTemplateId step).
    by eapply list_elem_of_lookup_2. }
  assert (Hpending : CreateProcess.isSubmittedForm i step = false).
  { unfold CreateProcess.isSubmittedForm. rewrite Hty.
    rewrite (bool_decide_eq_false_2 (APPROVAL = FORM)) by done. apply andb_false_r. }
  eapply (stepAction_succeeds approverEnv approver (cuid env 0%nat) (cuid env (S i))
            actionBody action comments d'); [done..| | | |].
  - unfold StepAction.findStepInstance. rewrite Hrow.
    cbn [CreateProcess.stepInstanceData ProcessStepInstance.workflowStepId
         ProcessStepInstance.processInstanceId].
    rewrite Hstep, Hp, lookup_insert_eq. cbn.
    rewrite Hwt, Hw. cbn. rewrite Hl. cbn. reflexivity.
  - reflexivity.
  - cbn. by rewrite Hpending.
  - exact Hty.
Qed.

(** Ann starts a process of the two-approval template and Bob approves its
    second approval at once: 200. *)
Lemma created_approval_is_actionable_witness :
  let r := CreateProcess.POST (Scenario.ann "p") (Scenario.createBody "two")
             Scenario.db0 in
  ∃ updatedProcess d'',
    StepAction.POST Scenario.bob "p-0" "p-2" (Scenario.actionBody "approve") r.2
    = (NextResponse.json updatedProcess 200, d'').
Proof.
  intros r.
  assert (H1 : CreateProcess.POST (Scenario.ann "p") (Scenario.createBody "two")
                 Scenario.db0 = (r.1, r.2)) by apply surjective_pairing.
  assert (H2 : NextResponse.ok r.1 = true) by (vm_compute; reflexivity).
  assert (H3 : CreateProcess.createProcessSchema_safeParse (Scenario.createBody "two")
               = Some ("two", JObject JEnd)) by (vm_compute; reflexivity).
  assert (H4 : stepsOfTemplate Scenario.db0 "two" !! 1%nat
               = Some ("two-2", Scenario.approvalStep "two" 2))
    by (vm_compute; reflexivity).
  assert (H5 : StepAction.actionSchema_safeParse (Scenario.actionBody "approve")
               = Some (StepAction.approve, None)) by (vm_compute; reflexivity).
  exact (created_approval_is_actionable (Scenario.ann "p") Scenario.bob
           (SessionUser.mk "bob" APPROVER) (Scenario.createBody "two")
           (Scenario.actionBody "approve") "two" (JObject JEnd) StepAction.approve None
           Scenario.db0 r.2 r.1 1%nat ("two-2", Scenario.approvalStep "two" 2)
           H1 H2 H3 H4 eq_refl eq_refl eq_refl H5).
Defined.

(** ** Reading one process *)

(** The audit history of a process, newest first, starts with the entry
    appended last. *)
Lemma auditLogsOf_snoc (d d' : Db) (processId : string) (entry : AuditLog.t) :
  auditLogs d' = (auditLogs d ++ [entry])%list →
  AuditLog.processInstanceId entry = Some processId →
  ProcessDetail.auditLogsOf d' processId = entry :: ProcessDetail.auditLogsOf d processId.
Proof.
  intros Hlogs Hentry. unfold ProcessDetail.auditLogsOf.
  rewrite Hlogs, filter_app, reverse_app.
  rewrite filter_cons_True by exact Hentry. reflexivity.
Qed.

(** X12.  Who may read a process: for an authenticated caller and a
    process that loads, the answer is 403 Forbidden exactly when the caller
    has the role USER and did not create the process, and 200 with the
    process otherwise; approvers and administrators read every process.  A
    process id without a row gives 404. *)
Theorem process_detail_access (env : Env) (user : SessionUser.t) (id : string) (d : Db) :
  session env = Some user →
  (processInstances d !! id = None →
   ProcessDetail.GET env id d = NextResponse.error "Process not found" 404)
  ∧ ∀ process, ProcessDetail.findProcess d id = Some (Some process) →
      let creator := ProcessInstance.createdById (ProcessDetail.row process) in
      (SessionUser.role user = USER ∧ creator ≠ SessionUser.id user →
       ProcessDetail.GET env id d = NextResponse.error "Forbidden" 403)
      ∧ (SessionUser.role user ≠ USER ∨ creator = SessionUser.id user →
         ProcessDetail.GET env id d = NextResponse.json process 200).
Proof.
  intros Hs. unfold ProcessDetail.GET. rewrite Hs. split.
  - intros Hnone. unfold ProcessDetail.findProcess. by rewrite Hnone.
  - intros process ->. cbn zeta. split.
    + intros [Hrole Hother].
      rewrite (bool_decide_eq_true_2 _ Hrole), (bool_decide_eq_false_2 _ Hother).
      reflexivity.
    + intros [Hrole|Hcreator].
      * by rewrite (bool_decide_eq_false_2 _ Hrole).
      * rewrite (bool_decide_eq_true_2 _ Hcreator). by rewrite andb_false_r.
Qed.

(** X13.  Creation and the detail page fit together: after a successful
    creation the creator, and every approver or administrator, reads the
    new process with 200; it has the steps of the creation's answer, and
    its history, newest first, starts with the PROCESS_CREATED entry.  Any
    other caller with the role USER gets 403. *)
Theorem created_process_is_readable (env readerEnv : Env) (user reader : SessionUser.t)
    (body : Json) (d d' : Db) (resp : CreateProcess.Response) :
  CreateProcess.POST env body d = (resp, d') →
  NextResponse.ok resp = true →
  session env = Some user →
  session readerEnv = Some reader →
  let processId := cuid env 0%nat in
  (SessionUser.role reader = USER ∧ SessionUser.id reader ≠ SessionUser.id user →
   ProcessDetail.GET readerEnv processId d' = NextResponse.error "Forbidden" 403)
  ∧ (SessionUser.role reader ≠ USER ∨ SessionUser.id reader = SessionUser.id user →
     ∃ process entry history,
       ProcessDetail.GET readerEnv processId d' = NextResponse.json process 200
       ∧ resp = NextResponse.json
                  (Some (ProcessWithSteps.mk processId (ProcessDetail.row process)
                           (ProcessDetail.steps process))) 201
       ∧ ProcessDetail.auditLogs process = entry :: history
       ∧ AuditLog.action entry = "PROCESS_CREATED"
       ∧ AuditLog.changedById entry = SessionUser.id user).
Proof.
  intros HPOST Hok Hs Hreader processId.
  destruct (createProcess_frame _ _ _ _ _ HPOST) as (_ & Hwt & _ & _).
  destruct (createProcess_response _ _ _ _ _ HPOST Hok) as (fetched & Hresp & Hfetch).
  destruct (createProcess_ok _ _ _ _ _ HPOST Hok)
    as (user0 & tid0 & fd0 & wl & pi & sis & dT & Hs0 & Hbody0 & Hwl & _ & _ & Htx
        & Hd' & _).
  destruct (createProcess_committed _ _ _ _ _ HPOST Hok)
    as (user' & tid & fd & Hs' & Hbody' & _ & _ & Hp & _ & _ & _ & [l Hl]).
  cbn zeta in Hp, Hl.
  rewrite Hs in Hs0, Hs'. injection Hs0 as <-. injection Hs' as <-.
  rewrite Hbody0 in Hbody'. injection Hbody' as <- <-.
  unfold CreateProcess.findWorkflow in Hwl.
  destruct (workflowTemplates d !! tid0) as [w|] eqn:Hw; [|done].
  cbn in Hwl. injection Hwl as <-.
  assert (Hrow : processInstances d' !! processId
                 = Some (ProcessInstance.mk tid0 (SessionUser.id user) fd0
                           ProcessStatus.IN_PROGRESS)).
  { subst processId. rewrite Hp. apply lookup_insert_eq. }
  fold processId in Hl, Hfetch.
  assert (Hfind : ProcessDetail.findProcess d' processId
                  = Some (Some (ProcessDetail.mkProcess processId
                                  (ProcessInstance.mk tid0 (SessionUser.id user) fd0
                                     ProcessStatus.IN_PROGRESS) w
                                  (stepsOfTemplate d' tid0) (formSchemas d' !! tid0) l
                                  (ProcessDetail.auditLogsOf d' processId)))).
  { unfold ProcessDetail.findProcess. rewrite Hrow. cbn. rewrite Hwt, Hw. cbn.
    rewrite Hl. reflexivity. }
  unfold findProcessWithSteps in Hfetch. rewrite Hrow, Hl in Hfetch. cbn in Hfetch.
  injection Hfetch as <-.
  unfold ProcessDetail.GET. rewrite Hreader, Hfind.
  cbn [ProcessDetail.row ProcessInstance.createdById]. split.
  - intros [Hrole Hother].
    rewrite (bool_decide_eq_true_2 _ Hrole).
    rewrite (bool_decide_eq_false_2 (SessionUser.id user = SessionUser.id reader))
      by congruence.
    reflexivity.
  - intros Hmay.
    assert (Hgate : bool_decide (SessionUser.role reader = USER)
                    && negb (bool_decide (SessionUser.id user = SessionUser.id reader))
                    = false).
    { destruct Hmay as [Hrole|Hcreator].
      - by rewrite (bool_decide_eq_false_2 _ Hrole).
      - rewrite (bool_decide_eq_true_2 (SessionUser.id user = SessionUser.id reader))
          by congruence.
        apply andb_false_r. }
    rewrite Hgate.
    assert (Hlogs : ∃ entry, auditLogs d' = (auditLogs d ++ [entry])%list
                      ∧ AuditLog.action entry = "PROCESS_CREATED"
                      ∧ AuditLog.changedById entry = SessionUser.id user
                      ∧ AuditLog.processInstanceId entry = Some processId).
    { assert (Hframe : writesProcessTablesOnly
                (CreateProcess.create env (SessionUser.id user) tid0 fd0
                   (stepsOfTemplate d tid0))).
      { unfold CreateProcess.create.
        apply tx_bind_frame; [apply processInstance_create_frame|]. intros ?.
        apply tx_bind_frame; [apply createStepInstances_frame|]. intros ?.
        apply tx_ret_frame. }
      cbn [CreateProcess.steps] in Htx.
      destruct (Hframe _ _ _ Htx) as (_ & _ & _ & _ & HlogsT & _).
      assert (Hpi : pi.1 = processId).
      { unfold CreateProcess.create, tx_bind, processInstance_create in Htx.
        destruct (processInstances d !! cuid env 0%nat); [done|]. cbn [fst] in Htx.
        destruct (CreateProcess.createStepInstances _ _ _ _ _ _ _) as [[? ?]|]; [|done].
        unfold tx_ret in Htx. by simplify_eq. }
      rewrite Hpi in Hd'. rewrite Hd'. unfold CreateProcess.afterCommit. cbn zeta.
      destruct (CreateProcess.hasApprovalPending _).
      - eexists. edestruct notifyApprovers_tables as (_ & _ & _ & _ & _ & _ & ->).
        cbn [auditLogs createNotification createAuditLog set_notifications
             set_auditLogs].
        rewrite HlogsT. by split_and!.
      - eexists.
        cbn [auditLogs createNotification createAuditLog set_notifications
             set_auditLogs].
        rewrite HlogsT. by split_and!. }
    destruct Hlogs as (entry & Hlogs & Haction & Hby & Hpid).
    eexists _, entry, _. split_and!; [reflexivity|exact Hresp| |exact Haction|exact Hby].
    cbn [ProcessDetail.auditLogs]. by apply auditLogsOf_snoc.
Qed.

(** Ann reads her process [p-0]; Eve, an administrator, reads it too. *)
Lemma process_detail_access_witness :
  ∃ process,
    ProcessDetail.GET (Scenario.ann "z") "p-0" Scenario.db1 = NextResponse.json process 200
    ∧ ProcessDetail.GET Scenario.eve "p-0" Scenario.db1 = NextResponse.json process 200
    ∧ ProcessDetail.GET Scenario.eve "none" Scenario.db1
      = NextResponse.error "Process not found" 404.
Proof.
  destruct (ProcessDetail.findProcess Scenario.db1 "p-0") as [[process|]|] eqn:Hfind;
    [|vm_compute in Hfind; discriminate Hfind..].
  assert (Hcreator : ProcessInstance.createdById (ProcessDetail.row process) = "ann").
  { vm_compute in Hfind. injection Hfind as <-. reflexivity. }
  assert (Hnone : processInstances Scenario.db1 !! "none" = None)
    by (vm_compute; reflexivity).
  exists process. split_and!.
  - apply (process_detail_access (Scenario.ann "z") (SessionUser.mk "ann" USER) "p-0"
             Scenario.db1 eq_refl).
    + exact Hfind.
    + right. exact Hcreator.
  - apply (process_detail_access Scenario.eve (SessionUser.mk "eve" ADMIN) "p-0"
             Scenario.db1 eq_refl).
    + exact Hfind.
    + left. intros Hrole. discriminate Hrole.
  - apply (process_detail_access Scenario.eve (SessionUser.mk "eve" ADMIN) "none"
             Scenario.db1 eq_refl).
    exact Hnone.
Defined.

(** Ann starts a process and Bob, an approver, reads it. *)
Lemma created_process_is_readable_witness :
  let r := CreateProcess.POST (Scenario.ann "q") (Scenario.createBody "notice")
             Scenario.db0 in
  ∃ process, ProcessDetail.GET Scenario.bob "q-0" r.2 = NextResponse.json process 200.
Proof.
  intros r.
  assert (H1 : CreateProcess.POST (Scenario.ann "q") (Scenario.createBody "notice")
                 Scenario.db0 = (r.1, r.2)) by apply surjective_pairing.
  assert (H2 : NextResponse.ok r.1 = true) by (vm_compute; reflexivity).
  destruct (created_process_is_readable (Scenario.ann "q") Scenario.bob
              (SessionUser.mk "ann" USER) (SessionUser.mk "bob" APPROVER)
              (Scenario.createBody "notice") Scenario.db0 r.2 r.1 H1 H2 eq_refl eq_refl)
    as [_ Hread].
  destruct Hread as (process & _ & _ & Hget & _).
  - left. intros Hrole. discriminate Hrole.
  - exists process. exact Hget.
Defined.

(** ** Template status: what a change does *)

(** A successful status change was asked by an administrator with a
    well-formed body for an existing template that passes the guards; it
    stores the status and appends one audit entry. *)
Lemma statusRoute_ok (env : Env) (id : string) (body : Json) (d d' : Db)
    (resp : StatusRoute.Response) :
  StatusRoute.PATCH env id body d = (resp, d') →
  NextResponse.ok resp = true →
  ∃ user status w,
    session env = Some user
    ∧ SessionUser.role user = ADMIN
    ∧ StatusRoute.updateStatusSchema_safeParse body = Some status
    ∧ workflowTemplates d !! id = Some w
    ∧ (status = WorkflowStatus.ACTIVE →
       StatusRoute.activationError
         (StatusRoute.mkWorkflow w
            (filter (λ s, WorkflowStep.workflowTemplateId s.2 = id)
               (map_to_list (workflowSteps d)))
            (formSchemas d !! id)) = None)
    ∧ resp = NextResponse.json
               (StatusRoute.mkWorkflow (WorkflowTemplate.set_status status w)
                  (stepsOfTemplate d id) (formSchemas d !! id)) 200
    ∧ d' = createAuditLog
             (AuditLog.mk None "WORKFLOW_STATUS_CHANGED" (SessionUser.id user)
                (Some (StatusRoute.statusJson (WorkflowTemplate.status w)))
                (Some (StatusRoute.statusJson status))
                (Some ("Workflow " +:+ quoted (WorkflowTemplate.name w)
                       +:+ " status changed from "
                       +:+ StatusRoute.Status_name (WorkflowTemplate.status w)
                       +:+ " to " +:+ StatusRoute.Status_name status)))
             (set_workflowTemplates
                (<[id := WorkflowTemplate.set_status status w]> (workflowTemplates d)) d).
Proof.
  unfold StatusRoute.PATCH, StatusRoute.findWorkflow. intros H Hok.
  destruct (session env) as [user|]; [|by simplify_eq].
  destruct (bool_decide (SessionUser.role user = ADMIN)) eqn:Hrole; cbn [negb] in H;
    [|by simplify_eq].
  apply bool_decide_eq_true in Hrole.
  destruct (StatusRoute.updateStatusSchema_safeParse body) as [status|]; [|by simplify_eq].
  destruct (workflowTemplates d !! id) as [w|]; cbn [mbind option_bind] in H;
    [|by simplify_eq].
  destruct (bool_decide (status = WorkflowStatus.ACTIVE)) eqn:Hactive.
  - destruct (StatusRoute.activationError _) eqn:Hguard; [by simplify_eq|].
    cbn zeta in H. cbn [StatusRoute.workflow] in H.
    injection H as <- <-. exists user, status, w. by split_and!.
  - apply bool_decide_eq_false in Hactive.
    cbn zeta in H. cbn [StatusRoute.workflow] in H.
    injection H as <- <-. exists user, status, w. by split_and!.
Qed.

(** A refused status change writes nothing. *)
Lemma statusRoute_error_unchanged (env : Env) (id : string) (body : Json) (d d' : Db)
    (resp : StatusRoute.Response) :
  StatusRoute.PATCH env id body d = (resp, d') →
  NextResponse.ok resp = false →
  d' = d.
Proof.
  unfold StatusRoute.PATCH. intros H Hok.
  destruct (session env) as [user|]; [|by simplify_eq].
  destruct (negb _); [by simplify_eq|].
  destruct (StatusRoute.updateStatusSchema_safeParse body) as [status|]; [|by simplify_eq].
  destruct (StatusRoute.findWorkflow d id) as [w|]; [|by simplify_eq].
  destruct (if bool_decide _ then _ else _); [by simplify_eq|].
  cbn zeta in H. injection H as <- <-. discriminate Hok.
Qed.

(** The steps the status handler counts are those the creation handler
    creates step instances for. *)
Lemma stepsOfTemplate_length (d : Db) (id : string) :
  length (stepsOfTemplate d id)
  = length (filter (λ s : string * WorkflowStep.t, WorkflowStep.workflowTemplateId s.2 = id)
              (map_to_list (workflowSteps d))).
Proof. unfold stepsOfTemplate. apply Permutation_length, orderBy_Permutation. Qed.

(** X14.  The activation guards are the only obstacle: for an
    administrator, a body asking for ACTIVE and an existing template that
    has a step, and that has a form schema or no FORM step, the answer is
    200 and the template is stored as ACTIVE under its name. *)
Theorem activation_succeeds (env : Env) (user : SessionUser.t) (id : string) (body : Json)
    (w : WorkflowTemplate.t) (d : Db) :
  session env = Some user →
  SessionUser.role user = ADMIN →
  StatusRoute.updateStatusSchema_safeParse body = Some WorkflowStatus.ACTIVE →
  workflowTemplates d !! id = Some w →
  (∃ k s, workflowSteps d !! k = Some s ∧ WorkflowStep.workflowTemplateId s = id) →
  (is_Some (formSchemas d !! id)
   ∨ ∀ k s, workflowSteps d !! k = Some s → WorkflowStep.workflowTemplateId s = id →
            WorkflowStep.stepType s ≠ FORM) →
  ∃ updated d',
    StatusRoute.PATCH env id body d = (NextResponse.json updated 200, d')
    ∧ workflowTemplates d' !! id
      = Some (WorkflowTemplate.mk (WorkflowTemplate.name w) WorkflowStatus.ACTIVE).
Proof.
  intros Hs Hrole Hbody Hw (k & s & Hk & Hid) Hschema.
  unfold StatusRoute.PATCH, StatusRoute.findWorkflow. rewrite Hs, Hrole, Hbody, Hw.
  rewrite (bool_decide_eq_true_2 (ADMIN = ADMIN)) by done.
  cbn [negb mbind option_bind].
  rewrite (bool_decide_eq_true_2 (WorkflowStatus.ACTIVE = WorkflowStatus.ACTIVE)) by done.
  assert (Hguard : StatusRoute.activationError
            (StatusRoute.mkWorkflow w
               (filter (λ s, WorkflowStep.workflowTemplateId s.2 = id)
                  (map_to_list (workflowSteps d)))
               (formSchemas d !! id)) = None).
  { unfold StatusRoute.activationError.
    cbn [StatusRoute.steps StatusRoute.formSchema].
    assert (Hin : (k, s) ∈ filter
              (λ s : string * WorkflowStep.t, WorkflowStep.workflowTemplateId s.2 = id)
              (map_to_list (workflowSteps d))).
    { apply list_elem_of_filter. split; [done|]. by apply elem_of_map_to_list. }
    rewrite bool_decide_eq_false_2; last first.
    { intros Hlen. apply nil_length_inv in Hlen. rewrite Hlen in Hin.
      by apply elem_of_nil in Hin. }
    destruct Hschema as [[schema Hschema]|Hnoform].
    - rewrite Hschema. rewrite (bool_decide_eq_false_2 (Some schema = None)) by done.
      by rewrite andb_false_r.
    - destruct (StatusRoute.hasFormStep _) eqn:Hform; [|done]. exfalso.
      unfold StatusRoute.hasFormStep in Hform.
      apply existsb_exists in Hform as ([k' s'] & Hin' & Hty).
      apply bool_decide_eq_true in Hty.
      apply list_elem_of_In, list_elem_of_filter in Hin' as [Hid' Hin'].
      apply elem_of_map_to_list in Hin'. by eapply Hnoform. }
  rewrite Hguard. cbn zeta. eexists _, _. split; [reflexivity|].
  cbn [workflowTemplates createAuditLog set_auditLogs set_workflowTemplates
       StatusRoute.workflow].
  apply lookup_insert_eq.
Qed.

(** X15.  A status change touches one template and the audit log: whatever
    the answer, users, steps, form schemas, processes, step instances and
    notifications are as before, every other template is as before and the
    template keeps its name.  A refused change leaves the whole database
    as it was; an accepted one was asked by an administrator and appends
    exactly one WORKFLOW_STATUS_CHANGED entry in that administrator's
    name. *)
Theorem status_change_touches_one_template (env : Env) (id : string) (body : Json)
    (d d' : Db) (resp : StatusRoute.Response) :
  StatusRoute.PATCH env id body d = (resp, d') →
  users d' = users d
  ∧ workflowSteps d' = workflowSteps d
  ∧ formSchemas d' = formSchemas d
  ∧ processInstances d' = processInstances d
  ∧ processStepInstances d' = processStepInstances d
  ∧ notifications d' = notifications d
  ∧ (∀ k, k ≠ id → workflowTemplates d' !! k = workflowTemplates d !! k)
  ∧ (WorkflowTemplate.name <$> workflowTemplates d' !! id)
    = (WorkflowTemplate.name <$> workflowTemplates d !! id)
  ∧ (NextResponse.ok resp = false → d' = d)
  ∧ (NextResponse.ok resp = true →
     ∃ user entry,
       session env = Some user
       ∧ SessionUser.role user = ADMIN
       ∧ auditLogs d' = (auditLogs d ++ [entry])%list
       ∧ AuditLog.action entry = "WORKFLOW_STATUS_CHANGED"
       ∧ AuditLog.changedById entry = SessionUser.id user
       ∧ AuditLog.processInstanceId entry = None).
Proof.
  intros HPATCH. destruct (NextResponse.ok resp) eqn:Hok.
  - destruct (statusRoute_ok _ _ _ _ _ _ HPATCH Hok)
      as (user & status & w & Hs & Hrole & _ & Hw & _ & _ & ->).
    cbn [users workflowSteps formSchemas processInstances processStepInstances
         notifications workflowTemplates auditLogs createAuditLog set_auditLogs
         set_workflowTemplates].
    split_and!; try reflexivity.
    + intros k Hk. by rewrite lookup_insert_ne.
    + by rewrite lookup_insert_eq, Hw.
    + intros Hfalse. discriminate Hfalse.
    + intros _. exists user. eexists. by split_and!.
  - rewrite (statusRoute_error_unchanged _ _ _ _ _ _ HPATCH Hok).
    split_and!; try reflexivity. intros Htrue. discriminate Htrue.
Qed.

(** X16.  Archiving closes a template: after a successful change of a
    template to DRAFT or ARCHIVED, every well-formed request of an
    authenticated user to start a process of it is refused with 400
    "Workflow is not active" and writes nothing. *)
Theorem inactive_template_refuses_creation (adminEnv env : Env) (user : SessionUser.t)
    (id : string) (statusBody body : Json) (status : WorkflowStatus.t) (formData : Json)
    (d d' : Db) (resp : StatusRoute.Response) :
  StatusRoute.PATCH adminEnv id statusBody d = (resp, d') →
  NextResponse.ok resp = true →
  StatusRoute.updateStatusSchema_safeParse statusBody = Some status →
  status ≠ WorkflowStatus.ACTIVE →
  session env = Some user →
  CreateProcess.createProcessSchema_safeParse body = Some (id, formData) →
  CreateProcess.POST env body d' = (NextResponse.error "Workflow is not active" 400, d').
Proof.
  intros HPATCH Hok Hstatus Hne Hs Hbody.
  destruct (statusRoute_ok _ _ _ _ _ _ HPATCH Hok)
    as (admin & status' & w & _ & _ & Hstatus' & Hw & _ & _ & Hd').
  rewrite Hstatus in Hstatus'. injection Hstatus' as <-.
  assert (Hw' : workflowTemplates d' !! id = Some (WorkflowTemplate.set_status status w)).
  { rewrite Hd'.
    cbn [workflowTemplates createAuditLog set_auditLogs set_workflowTemplates].
    apply lookup_insert_eq. }
  unfold CreateProcess.POST, CreateProcess.findWorkflow. rewrite Hs, Hbody, Hw'.
  cbn [mbind option_bind CreateProcess.workflow WorkflowTemplate.set_status
       WorkflowTemplate.status].
  by rewrite (bool_decide_eq_false_2 _ Hne).
Qed.

(** X17.  Activation opens a template: after a successful change of a
    template to ACTIVE, a well-formed request of an authenticated user to
    start a process of it, with keys that no row has, is answered 201.  The
    guard of the activation is what makes the creation find a step. *)
Theorem active_template_accepts_creation (adminEnv env : Env) (user : SessionUser.t)
    (id : string) (statusBody body : Json) (formData : Json)
    (d d' : Db) (resp : StatusRoute.Response) :
  StatusRoute.PATCH adminEnv id statusBody d = (resp, d') →
  NextResponse.ok resp = true →
  StatusRoute.updateStatusSchema_safeParse statusBody = Some WorkflowStatus.ACTIVE →
  session env = Some user →
  CreateProcess.createProcessSchema_safeParse body = Some (id, formData) →
  let steps := stepsOfTemplate d id in
  processInstances d !! cuid env 0%nat = None →
  (∀ i, (i < length steps)%nat → processStepInstances d !! cuid env (S i) = None) →
  (∀ i j, (i < length steps)%nat → (j < length steps)%nat →
          cuid env (S i) = cuid env (S j) → i = j) →
  (∀ k r, processStepInstances d !! k = Some r →
          is_Some (processInstances d !! ProcessStepInstance.processInstanceId r)) →
  ∃ completeProcess d'',
    CreateProcess.POST env body d' = (NextResponse.json (Some completeProcess) 201, d'')
    ∧ ProcessWithSteps.id completeProcess = cuid env 0%nat.
Proof.
  intros HPATCH Hok Hstatus Hs Hbody steps Hfree Hfrees Hinj Hfk.
  destruct (statusRoute_ok _ _ _ _ _ _ HPATCH Hok)
    as (admin & status' & w & _ & _ & Hstatus' & Hw & Hguard & _ & Hd').
  rewrite Hstatus in Hstatus'. injection Hstatus' as <-.
  specialize (Hguard eq_refl).
  assert (Hsteps : stepsOfTemplate d' id = steps).
  { rewrite Hd'. reflexivity. }
  assert (Hne : steps ≠ []).
  { intros Hnil. unfold StatusRoute.activationError in Hguard.
    cbn [StatusRoute.steps] in Hguard.
    rewrite <- stepsOfTemplate_length in Hguard. fold steps in Hguard.
    rewrite Hnil in Hguard. cbn in Hguard. discriminate Hguard. }
  destruct (createProcess_succeeds env user body id formData
              (WorkflowTemplate.set_status WorkflowStatus.ACTIVE w) d')
    as (cp & d'' & HPOST & Hid & _); try done.
  - rewrite Hd'.
    cbn [workflowTemplates createAuditLog set_auditLogs set_workflowTemplates].
    apply lookup_insert_eq.
  - by rewrite Hsteps.
  - by rewrite Hd'.
  - rewrite Hsteps, Hd'. exact Hfrees.
  - rewrite Hsteps. exact Hinj.
  - rewrite Hd'. exact Hfk.
  - by exists cp, d''.
Qed.

(** Eve activates the form, approval, notice template, which has steps
    and a form schema. *)
Lemma activation_succeeds_witness :
  ∃ updated d',
    StatusRoute.PATCH Scenario.eve "notice" (Scenario.statusBody "ACTIVE") Scenario.db0
    = (NextResponse.json updated 200, d')
    ∧ workflowTemplates d' !! "notice"
      = Some (WorkflowTemplate.mk "Leave" WorkflowStatus.ACTIVE).
Proof.
  assert (Hbody : StatusRoute.updateStatusSchema_safeParse (Scenario.statusBody "ACTIVE")
                  = Some WorkflowStatus.ACTIVE) by (vm_compute; reflexivity).
  assert (Hw : workflowTemplates Scenario.db0 !! "notice"
               = Some (WorkflowTemplate.mk "Leave" WorkflowStatus.ACTIVE))
    by (vm_compute; reflexivity).
  assert (Hstep : workflowSteps Scenario.db0 !! "notice-1"
                  = Some (Scenario.formStep "notice" 1)) by (vm_compute; reflexivity).
  assert (Hschema : formSchemas Scenario.db0 !! "notice"
                    = Some (FormSchema.mk (JObject JEnd))) by (vm_compute; reflexivity).
  apply (activation_succeeds Scenario.eve (SessionUser.mk "eve" ADMIN) "notice"
           (Scenario.statusBody "ACTIVE")
           (WorkflowTemplate.mk "Leave" WorkflowStatus.ACTIVE) Scenario.db0
           eq_refl eq_refl Hbody Hw).
  - exists "notice-1", (Scenario.formStep "notice" 1). split; [exact Hstep|reflexivity].
  - left. rewrite Hschema. eexists. reflexivity.
Defined.

(** Eve archives the two-approval template: the other templates and the
    notifications are as before. *)
Lemma status_change_touches_one_template_witness :
  let r := StatusRoute.PATCH Scenario.eve "two" (Scenario.statusBody "ARCHIVED")
             Scenario.db0 in
  notifications r.2 = notifications Scenario.db0
  ∧ workflowTemplates r.2 !! "notice" = workflowTemplates Scenario.db0 !! "notice".
Proof.
  intros r.
  assert (H1 : StatusRoute.PATCH Scenario.eve "two" (Scenario.statusBody "ARCHIVED")
                 Scenario.db0 = (r.1, r.2)) by apply surjective_pairing.
  destruct (status_change_touches_one_template Scenario.eve "two"
              (Scenario.statusBody "ARCHIVED") Scenario.db0 r.2 r.1 H1)
    as (_ & _ & _ & _ & _ & Hnotes & Hother & _).
  split; [exact Hnotes|]. apply Hother. intros Heq. discriminate Heq.
Defined.

(** Eve archives the two-approval template; Ann can no longer start a
    process of it. *)
Lemma inactive_template_refuses_creation_witness :
  let r := StatusRoute.PATCH Scenario.eve "two" (Scenario.statusBody "ARCHIVED")
             Scenario.db0 in
  CreateProcess.POST (Scenario.ann "p") (Scenario.createBody "two") r.2
  = (NextResponse.error "Workflow is not active" 400, r.2).
Proof.
  intros r.
  assert (H1 : StatusRoute.PATCH Scenario.eve "two" (Scenario.statusBody "ARCHIVED")
                 Scenario.db0 = (r.1, r.2)) by apply surjective_pairing.
  assert (H2 : NextResponse.ok r.1 = true) by (vm_compute; reflexivity).
  assert (H3 : StatusRoute.updateStatusSchema_safeParse (Scenario.statusBody "ARCHIVED")
               = Some WorkflowStatus.ARCHIVED) by (vm_compute; reflexivity).
  assert (H4 : CreateProcess.createProcessSchema_safeParse (Scenario.createBody "two")
               = Some ("two", JObject JEnd)) by (vm_compute; reflexivity).
  apply (inactive_template_refuses_creation Scenario.eve (Scenario.ann "p")
           (SessionUser.mk "ann" USER) "two" (Scenario.statusBody "ARCHIVED")
           (Scenario.createBody "two") WorkflowStatus.ARCHIVED (JObject JEnd)
           Scenario.db0 r.2 r.1 H1 H2 H3).
  - intros Heq. discriminate Heq.
  - reflexivity.
  - exact H4.
Defined.

(** Eve activates the form, approval, notice template; Ann starts a
    process of it. *)
Lemma active_template_accepts_creation_witness :
  let r := StatusRoute.PATCH Scenario.eve "notice" (Scenario.statusBody "ACTIVE")
             Scenario.db0 in
  ∃ completeProcess d'',
    CreateProcess.POST (Scenario.ann "q") (Scenario.createBody "notice") r.2
    = (NextResponse.json (Some completeProcess) 201, d'')
    ∧ ProcessWithSteps.id completeProcess = "q-0".
Proof.
  intros r.
  assert (H1 : StatusRoute.PATCH Scenario.eve "notice" (Scenario.statusBody "ACTIVE")
                 Scenario.db0 = (r.1, r.2)) by apply surjective_pairing.
  assert (H2 : NextResponse.ok r.1 = true) by (vm_compute; reflexivity).
  assert (H3 : StatusRoute.updateStatusSchema_safeParse (Scenario.statusBody "ACTIVE")
               = Some WorkflowStatus.ACTIVE) by (vm_compute; reflexivity).
  assert (H4 : CreateProcess.createProcessSchema_safeParse (Scenario.createBody "notice")
               = Some ("notice", JObject JEnd)) by (vm_compute; reflexivity).
  assert (Hlen : length (stepsOfTemplate Scenario.db0 "notice") = 3%nat)
    by (vm_compute; reflexivity).
  apply (active_template_accepts_creation Scenario.eve (Scenario.ann "q")
           (SessionUser.mk "ann" USER) "notice" (Scenario.statusBody "ACTIVE")
           (Scenario.createBody "notice") (JObject JEnd) Scenario.db0 r.2 r.1
           H1 H2 H3 eq_refl H4).
  - vm_compute; reflexivity.
  - intros i _. apply lookup_empty.
  - rewrite Hlen. intros i j Hi Hj Heq.
    destruct i as [|[|[|i]]]; [| | |lia];
      (destruct j as [|[|[|j]]]; [| | |lia]);
      first [reflexivity | vm_compute in Heq; discriminate Heq].
  - intros k r0 Hk. cbn [Scenario.db0 processStepInstances] in Hk.
    rewrite lookup_empty in Hk. discriminate Hk.
Defined.

(** ** Notifications *)

(** X18.  Who the approver pool is: the notifications [notifyApprovers]
    appends go to the users with the ADMIN or APPROVER role, one to each
    and none to anybody else; each is an unread ACTION_REQUIRED
    notification of the process.  The other tables are as before. *)
Theorem pool_is_admins_and_approvers (processId name : string) (d : Db) :
  ∃ new,
    notifications (notifyApprovers processId name d) = (notifications d ++ new)%list
    ∧ NoDup (Notification.userId <$> new)
    ∧ (∀ userId, userId ∈ (Notification.userId <$> new) ↔
         ∃ u, users d !! userId = Some u
              ∧ (User.role u = ADMIN ∨ User.role u = APPROVER))
    ∧ Forall (λ n, Notification.type n = ACTION_REQUIRED
                   ∧ Notification.isRead n = false
                   ∧ Notification.processInstanceId n = Some processId) new
    ∧ users (notifyApprovers processId name d) = users d
    ∧ auditLogs (notifyApprovers processId name d) = auditLogs d.
Proof.
  exists (approverNotifications processId name d).
  destruct (notifyApprovers_tables processId name d) as (Hu & _ & _ & _ & _ & _ & Hlogs).
  assert (Hids : Notification.userId <$> approverNotifications processId name d
                 = (approvers d).*1).
  { unfold approverNotifications. generalize (approvers d) as l.
    induction l as [|a l IH]; [done|]. cbn. by rewrite <- IH. }
  split_and!; [apply notifyApprovers_notifications| | | |exact Hu|exact Hlogs].
  - rewrite Hids. unfold approvers.
    eapply sublist_NoDup; [apply (NoDup_fst_map_to_list (users d))|].
    apply fmap_sublist, sublist_filter.
  - intros userId. rewrite Hids, list_elem_of_fmap. unfold approvers. split.
    + intros ([k u] & -> & Hin). apply list_elem_of_filter in Hin as [Hrole Hin].
      apply elem_of_map_to_list in Hin. exists u. split; [done|].
      cbn in Hrole. destruct (User.role u); [by left | by right |].
      vm_compute in Hrole. discriminate Hrole.
    + intros (u & Hu' & Hrole). exists (userId, u). split; [done|].
      apply list_elem_of_filter. split; [|by apply elem_of_map_to_list].
      cbn. by destruct Hrole as [-> | ->]; vm_compute.
  - unfold approverNotifications. apply Forall_forall. intros n Hin.
    apply list_elem_of_fmap in Hin as (a & -> & _). done.
Qed.

Section UnreadCount.
Context (userId : string).




End UnreadCount.



(** Replacing an element of a list by one that counts as much for a
    filter keeps the count; by one that no longer counts, lowers it by
    one. *)
Lemma length_filter_insert {A} (P : A → Prop) `{∀ x, Decision (P x)}
    (l : list A) (i : nat) (x y : A) :
  l !! i = Some x →
  (length (filter P (<[i := y]> l)) + (if decide (P x) then 1 else 0)
   = length (filter P l) + (if decide (P y) then 1 else 0))%nat.
Proof.
  intros Hi.
  rewrite insert_take_drop by (by eapply lookup_lt_Some).
  rewrite <- (take_drop_middle l i x Hi) at 3.
  rewrite !filter_app, !filter_cons, !length_app.
  destruct (decide (P x)), (decide (P y)); cbn [length]; lia.
Qed.

(** X20.  A notification is changed by its owner only: whatever the
    answer of the PATCH, the notifications of the other users are as they
    were, no notification is added or removed, every notification other
    than the addressed one is untouched, and the other tables are as
    before.  When the addressed notification belongs to somebody else the
    answer is 403 and nothing is written; when there is none, 404. *)
Theorem notification_changed_by_owner_only (env : Env) (user : SessionUser.t) (id : nat)
    (isRead : bool) (d d' : Db) (resp : NotificationRoute.Response) :
  session env = Some user →
  NotificationRoute.PATCH env id (Some isRead) d = (resp, d') →
  length (notifications d') = length (notifications d)
  ∧ (∀ j, j ≠ id → notifications d' !! j = notifications d !! j)
  ∧ (∀ j n, notifications d !! j = Some n →
            Notification.userId n ≠ SessionUser.id user →
            notifications d' !! j = Some n)
  ∧ (notifications d !! id = None →
     resp = NextResponse.error "Notification not found" 404 ∧ d' = d)
  ∧ (∀ n, notifications d !! id = Some n →
          Notification.userId n ≠ SessionUser.id user →
          resp = NextResponse.error "Forbidden" 403 ∧ d' = d)
  ∧ users d' = users d
  ∧ processInstances d' = processInstances d
  ∧ processStepInstances d' = processStepInstances d
  ∧ auditLogs d' = auditLogs d.
Proof.
  intros Hs. unfold NotificationRoute.PATCH. rewrite Hs.
  destruct (notifications d !! id) as [n|] eqn:Hn.
  - destruct (bool_decide (Notification.userId n = SessionUser.id user)) eqn:Hown;
      cbn [negb]; intros H; injection H as <- <-.
    + apply bool_decide_eq_true in Hown.
      cbn [notifications users processInstances processStepInstances auditLogs
           set_notifications].
      split_and!; try reflexivity.
      * apply length_insert.
      * intros j Hj. by apply list_lookup_insert_ne.
      * intros j m Hj Hother. rewrite list_lookup_insert_ne; [done|].
        intros <-. rewrite Hn in Hj. by simplify_eq.
      * intros Hnone. discriminate Hnone.
      * intros m Hm Hother. by simplify_eq.
    + apply bool_decide_eq_false in Hown.
      split_and!; first [done | intros Hnone; discriminate Hnone].
  - intros H; injection H as <- <-.
    split_and!; first [done | intros n Hm; discriminate Hm].
Qed.

(** X21.  Marking one notification: the owner who sends [isRead] for one
    of their notifications gets 200 with the notification, which is stored
    with that flag and is otherwise as it was.  Marking an unread
    notification as read lowers the owner's unread count by one; marking
    a read one as read, or an unread one as unread, keeps it. *)
Theorem notification_marked (env : Env) (user : SessionUser.t) (id : nat)
    (isRead : bool) (n : Notification.t) (d : Db) :
  session env = Some user →
  notifications d !! id = Some n →
  Notification.userId n = SessionUser.id user →
  let updated := notification_set_isRead isRead n in
  ∃ d',
    NotificationRoute.PATCH env id (Some isRead) d = (NextResponse.json updated 200, d')
    ∧ notifications d' !! id = Some updated
    ∧ (Notification.isRead n = isRead → unreadCount d' (SessionUser.id user)
                                        = unreadCount d (SessionUser.id user))
    ∧ (Notification.isRead n = false → isRead = true →
       S (unreadCount d' (SessionUser.id user)) = unreadCount d (SessionUser.id user)).
Proof.
  intros Hs Hn Hown updated. unfold NotificationRoute.PATCH. rewrite Hs, Hn.
  rewrite (bool_decide_eq_true_2 _ Hown). cbn [negb]. fold updated.
  eexists. split; [reflexivity|].
  cbn [notifications set_notifications]. split.
  { apply list_lookup_insert_eq. by eapply lookup_lt_Some. }
  unfold unreadCount. cbn [notifications set_notifications].
  pose proof (length_filter_insert
                (λ m, Notification.userId m = SessionUser.id user
                      ∧ Notification.isRead m = false)
                (notifications d) id n updated Hn) as Hcount.
  split.
  - intros Hsame.
    destruct (decide _) as [[_ Hr]|Hr] in Hcount;
      destruct (decide _) as [[_ Hr']|Hr'] in Hcount; try lia; exfalso.
    + apply Hr'. split; [exact Hown|]. cbn. congruence.
    + apply Hr. split; [exact Hown|]. cbn in Hr'. congruence.
  - intros Hunread ->.
    destruct (decide _) as [[_ Hr]|Hr] in Hcount;
      destruct (decide _) as [[_ Hr']|Hr'] in Hcount; try lia; exfalso.
    + cbn in Hr'. discriminate Hr'.
    + by apply Hr.
    + by apply Hr.
Qed.

(** Ann asks to mark the notification at position 1, which is Eve's:
    403, and nothing is written. *)
Lemma notification_changed_by_owner_only_witness :
  NotificationRoute.PATCH (Scenario.ann "z") 1 (Some true) Scenario.db1
  = (NextResponse.error "Forbidden" 403, Scenario.db1).
Proof.
  destruct (notifications Scenario.db1 !! 1%nat) as [n|] eqn:Hn;
    [|vm_compute in Hn; discriminate Hn].
  assert (Hto : Notification.userId n = "eve").
  { vm_compute in Hn. injection Hn as <-. reflexivity. }
  pose (r := NotificationRoute.PATCH (Scenario.ann "z") 1 (Some true) Scenario.db1).
  assert (H1 : NotificationRoute.PATCH (Scenario.ann "z") 1 (Some true) Scenario.db1
               = (r.1, r.2)) by apply surjective_pairing.
  destruct (notification_changed_by_owner_only (Scenario.ann "z")
              (SessionUser.mk "ann" USER) 1 true Scenario.db1 r.2 r.1 eq_refl H1)
    as (_ & _ & _ & _ & Hforbidden & _).
  destruct (Hforbidden n Hn) as [Hresp Hd].
  { rewrite Hto. intros Heq. discriminate Heq. }
  rewrite H1, Hresp, Hd. reflexivity.
Defined.

(** Ann marks her first notification as read: her unread count goes from
    three to two. *)
Lemma notification_marked_witness :
  ∃ updated d',
    NotificationRoute.PATCH (Scenario.ann "z") 0 (Some true) Scenario.db1
    = (NextResponse.json updated 200, d')
    ∧ Notification.isRead updated = true
    ∧ unreadCount Scenario.db1 "ann" = 3%nat
    ∧ unreadCount d' "ann" = 2%nat.
Proof.
  destruct (notifications Scenario.db1 !! 0%nat) as [n|] eqn:Hn;
    [|vm_compute in Hn; discriminate Hn].
  assert (Hto : Notification.userId n = "ann").
  { vm_compute in Hn. injection Hn as <-. reflexivity. }
  assert (Hunread : Notification.isRead n = false).
  { vm_compute in Hn. injection Hn as <-. reflexivity. }
  assert (H0 : unreadCount Scenario.db1 "ann" = 3%nat) by (vm_compute; reflexivity).
  destruct (notification_marked (Scenario.ann "z") (SessionUser.mk "ann" USER) 0 true n
              Scenario.db1 eq_refl Hn Hto)
    as (d' & HPATCH & _ & _ & Hless).
  exists (notification_set_isRead true n), d'.
  split_and!; [exact HPATCH | reflexivity | exact H0 |].
  specialize (Hless Hunread eq_refl). cbn [SessionUser.id] in Hless.
  rewrite H0 in Hless. injection Hless as ->. reflexivity.
Defined.

(** ** The step list of the workflow editor *)

Section StepList.
Import WorkflowStepsList.

Lemma renumber_content (i : nat) (s : WorkflowStep) :
  content (renumber i s) = content s.
Proof. reflexivity. Qed.

Lemma renumber_renumber (i j : nat) (s : WorkflowStep) :
  renumber i (renumber j s) = renumber i s.
Proof. reflexivity. Qed.

Lemma renumber_numbered (i : nat) (s : WorkflowStep) :
  stepOrder s = (Z.of_nat i + 1)%Z → renumber i s = s.
Proof. destruct s. cbn. intros ->. reflexivity. Qed.

Lemma imap_renumber_numbered (l : list WorkflowStep) : numbered (imap renumber l).
Proof.
  intros i s. rewrite list_lookup_imap.
  destruct (l !! i); cbn; [|done]. by intros [= <-].
Qed.

Lemma imap_renumber_content (l : list WorkflowStep) :
  content <$> imap renumber l = content <$> l.
Proof.
  apply list_eq. intros i. rewrite !list_lookup_fmap, list_lookup_imap.
  by destruct (l !! i).
Qed.

Lemma filter_all {A} (P : A → Prop) `{∀ x, Decision (P x)} (l : list A) :
  (∀ (j : nat) x, l !! j = Some x → P x) → filter P l = l.
Proof.
  induction l as [|x l IH]; intros Hl; [done|].
  rewrite filter_cons_True by exact (Hl 0%nat x eq_refl).
  f_equal. apply IH. intros j y Hj. exact (Hl (S j) y Hj).
Qed.

(** In a list numbered from [off + 1] the steps whose stepOrder is not
    [off + i + 1] are all but the one at position [i]. *)
Lemma filter_numbered (off : Z) (l : list WorkflowStep) (i : nat) :
  (∀ (j : nat) s, l !! j = Some s → stepOrder s = (off + Z.of_nat j + 1)%Z) →
  filter (λ s, stepOrder s ≠ (off + Z.of_nat i + 1)%Z) l = delete i l.
Proof.
  revert off i. induction l as [|x l IH]; intros off i Hl; [by destruct i|].
  pose proof (Hl 0%nat x eq_refl) as Hx.
  destruct i as [|i].
  - rewrite filter_cons_False by (intros Hne; apply Hne; rewrite Hx; lia). cbn.
    apply filter_all. intros j s Hj. rewrite (Hl (S j) s Hj). lia.
  - rewrite filter_cons_True by (rewrite Hx; lia). cbn. f_equal.
    replace (off + Z.of_nat (S i) + 1)%Z with (off + 1 + Z.of_nat i + 1)%Z by lia.
    apply IH. intros j s Hj. rewrite (Hl (S j) s Hj). lia.
Qed.

(** For an index that is a position, or lies beyond the end of the list,
    the handler throws exactly when the index is beyond the end, the
    first boundary apart. *)
Lemma handleMoveStep_None (index : nat) (direction : Direction)
    (steps : list WorkflowStep) :
  handleMoveStep index direction steps = None ↔
  (length steps ≤ index)%nat ∧ ¬ (direction = up ∧ index = 0%nat).
Proof.
  unfold handleMoveStep. destruct direction.
  - rewrite (bool_decide_eq_true_2 (up = up)) by done.
    rewrite (bool_decide_eq_false_2 (up = down)) by done. cbn [andb orb].
    destruct index as [|i].
    + rewrite (bool_decide_eq_true_2 (0%nat = 0%nat)) by done. cbn. split; [done|].
      intros [_ Hn]. by destruct Hn.
    + rewrite (bool_decide_eq_false_2 (S i = 0%nat)) by done. cbn [negb].
      replace (S i - 1)%nat with i by lia.
      destruct (steps !! S i) as [a|] eqn:Ha.
      * pose proof (lookup_lt_Some _ _ _ Ha).
        destruct (lookup_lt_is_Some_2 steps i) as [b ->]; [lia|].
        split; [done|]. intros [? _]. lia.
      * apply lookup_ge_None in Ha. split; [|done]. intros _. split; [lia|].
        intros [_ ?]. lia.
  - rewrite (bool_decide_eq_false_2 (down = up)) by done.
    rewrite (bool_decide_eq_true_2 (down = down)) by done. cbn [andb orb].
    destruct (bool_decide _) eqn:Hlast.
    + apply bool_decide_eq_true in Hlast. split; [done|]. intros [? _]. lia.
    + apply bool_decide_eq_false in Hlast.
      destruct (steps !! index) as [a|] eqn:Ha.
      * pose proof (lookup_lt_Some _ _ _ Ha).
        destruct (lookup_lt_is_Some_2 steps (index + 1)) as [b ->]; [lia|].
        split; [done|]. intros [? _]. lia.
      * apply lookup_ge_None in Ha. split; [|done]. intros _. split; [lia|].
        by intros [? _].
Qed.

(** The list handed over by a move that is not at a boundary. *)
Lemma handleMoveStep_swap (index target : nat) (direction : Direction)
    (steps : list WorkflowStep) (a b : WorkflowStep) :
  steps !! index = Some a →
  steps !! target = Some b →
  (direction = up ∧ index = S target) ∨ (direction = down ∧ target = S index) →
  handleMoveStep index direction steps
  = Some (imap renumber (<[target := a]> (<[index := b]> steps))).
Proof.
  intros Ha Hb Hdir. pose proof (lookup_lt_Some _ _ _ Hb) as Hlt.
  unfold handleMoveStep. destruct Hdir as [[-> ->]|[-> ->]].
  - rewrite (bool_decide_eq_true_2 (up = up)) by done.
    rewrite (bool_decide_eq_false_2 (up = down)) by done.
    rewrite (bool_decide_eq_false_2 (S target = 0%nat)) by done. cbn [andb orb].
    replace (S target - 1)%nat with target by lia. by rewrite Ha, Hb.
  - rewrite (bool_decide_eq_false_2 (down = up)) by done.
    rewrite (bool_decide_eq_true_2 (down = down)) by done. cbn [andb orb].
    rewrite (bool_decide_eq_false_2
               (Z.of_nat index = (Z.of_nat (length steps) - 1)%Z)) by lia.
    replace (index + 1)%nat with (S index) by lia. by rewrite Ha, Hb.
Qed.

End StepList.

Section StepListMoves.
Import WorkflowStepsList.

(** Swapping two steps of a numbered list and renumbering, twice, gives
    the list back. *)
Lemma swap_renumber_twice (steps : list WorkflowStep) (p q : nat) (a b : WorkflowStep) :
  numbered steps →
  steps !! p = Some a →
  steps !! q = Some b →
  p ≠ q →
  let steps' := imap renumber (<[q := a]> (<[p := b]> steps)) in
  steps' !! q = Some (renumber q a)
  ∧ steps' !! p = Some (renumber p b)
  ∧ imap renumber (<[p := renumber q a]> (<[q := renumber p b]> steps')) = steps.
Proof.
  intros Hnum Ha Hb Hne steps'.
  pose proof (lookup_lt_Some _ _ _ Ha) as Hp.
  pose proof (lookup_lt_Some _ _ _ Hb) as Hq.
  assert (Hlookup : ∀ j, steps' !! j
            = renumber j <$> (if decide (j = q) then Some a
                              else if decide (j = p) then Some b else steps !! j)).
  { intros j. unfold steps'. rewrite list_lookup_imap. f_equal.
    destruct (decide (j = q)) as [->|Hjq].
    - apply list_lookup_insert_eq. by rewrite length_insert.
    - rewrite list_lookup_insert_ne by done.
      destruct (decide (j = p)) as [->|Hjp].
      + by apply list_lookup_insert_eq.
      + by apply list_lookup_insert_ne. }
  split_and!.
  - rewrite Hlookup. by rewrite decide_True.
  - rewrite Hlookup. rewrite decide_False by done. by rewrite decide_True.
  - assert (Hlen : length steps' = length steps).
    { unfold steps'. by rewrite length_imap, !length_insert. }
    apply list_eq. intros j. rewrite list_lookup_imap.
    destruct (decide (j = p)) as [->|Hjp].
    + rewrite list_lookup_insert_eq by (rewrite length_insert; lia). cbn.
      rewrite renumber_renumber, Ha. f_equal. apply renumber_numbered.
      by apply Hnum.
    + rewrite list_lookup_insert_ne by done.
      destruct (decide (j = q)) as [->|Hjq].
      * rewrite list_lookup_insert_eq by lia. cbn.
        rewrite renumber_renumber, Hb. f_equal. apply renumber_numbered.
        by apply Hnum.
      * rewrite list_lookup_insert_ne by done. rewrite Hlookup.
        rewrite !decide_False by done.
        destruct (steps !! j) as [s|] eqn:Hs; [|done]. cbn.
        rewrite renumber_renumber. f_equal. apply renumber_numbered. by apply Hnum.
Qed.

End StepListMoves.

(** X22.  Deleting renumbers: whatever the list and the stepOrder asked
    for, the list handed over is numbered 1, 2, ... without a gap; its
    steps are steps of the list before, with another stepOrder than the
    deleted one, unchanged apart from their number.  When no step has the
    stepOrder asked for, no step is removed. *)
Theorem delete_step_renumbers (stepOrder0 : Z)
    (steps : list WorkflowStepsList.WorkflowStep) :
  let steps' := WorkflowStepsList.handleDeleteStep stepOrder0 steps in
  WorkflowStepsList.numbered steps'
  ∧ (∀ s', s' ∈ steps' →
       ∃ s, s ∈ steps ∧ WorkflowStepsList.stepOrder s ≠ stepOrder0
            ∧ WorkflowStepsList.content s' = WorkflowStepsList.content s)
  ∧ ((∀ s, s ∈ steps → WorkflowStepsList.stepOrder s ≠ stepOrder0) →
     WorkflowStepsList.content <$> steps' = WorkflowStepsList.content <$> steps).
Proof.
  cbn zeta. unfold WorkflowStepsList.handleDeleteStep. split_and!.
  - apply imap_renumber_numbered.
  - intros s' Hin. apply list_elem_of_lookup in Hin as [i Hi].
    rewrite list_lookup_imap in Hi.
    destruct (filter _ steps !! i) as [s|] eqn:Hs; [|done].
    cbn in Hi. injection Hi as <-.
    apply list_elem_of_lookup_2, list_elem_of_filter in Hs as [Hne Hin].
    exists s. by split_and!.
  - intros Hnone. rewrite imap_renumber_content. f_equal.
    apply filter_all. intros j s Hj. apply Hnone. by eapply list_elem_of_lookup_2.
Qed.

(** X23.  Deleting a step of a numbered list removes that step and no
    other: the list handed over is one step shorter and numbered, the
    steps before the deleted one are as they were, and the steps after it
    have moved up by one place, unchanged apart from their number. *)
Theorem delete_step_removes_it (steps : list WorkflowStepsList.WorkflowStep) (i : nat)
    (s : WorkflowStepsList.WorkflowStep) :
  WorkflowStepsList.numbered steps →
  steps !! i = Some s →
  let steps' := WorkflowStepsList.handleDeleteStep (WorkflowStepsList.stepOrder s) steps in
  WorkflowStepsList.numbered steps'
  ∧ length steps = S (length steps')
  ∧ (∀ j, (j < i)%nat → steps' !! j = steps !! j)
  ∧ (∀ j, (i ≤ j)%nat →
          WorkflowStepsList.content <$> steps' !! j
          = WorkflowStepsList.content <$> steps !! S j).
Proof.
  intros Hnum Hi. cbn zeta. unfold WorkflowStepsList.handleDeleteStep.
  assert (Hfilter : filter (λ s0, WorkflowStepsList.stepOrder s0
                                   ≠ WorkflowStepsList.stepOrder s) steps
                    = delete i steps).
  { rewrite (Hnum i s Hi).
    replace (Z.of_nat i + 1)%Z with (0 + Z.of_nat i + 1)%Z by lia.
    apply filter_numbered. intros j s0 Hj. rewrite (Hnum j s0 Hj). lia. }
  rewrite Hfilter. pose proof (lookup_lt_Some _ _ _ Hi) as Hlt. split_and!.
  - apply imap_renumber_numbered.
  - rewrite length_imap, length_delete by eauto. lia.
  - intros j Hj. rewrite list_lookup_imap, list_lookup_delete_lt by done.
    destruct (steps !! j) as [s0|] eqn:Hs0; [|done]. cbn. f_equal.
    apply renumber_numbered. by apply Hnum.
  - intros j Hj. rewrite list_lookup_imap, list_lookup_delete_ge by done.
    by destruct (steps !! S j).
Qed.

(** X24.  Moving swaps two neighbours: for a step that is not at the
    boundary it is moved towards, the list handed over is numbered and of
    the same length, the step and its neighbour have changed places and
    the other steps are in their places, all unchanged apart from their
    number. *)
Theorem move_step_swaps_neighbours (index target : nat)
    (direction : WorkflowStepsList.Direction)
    (steps : list WorkflowStepsList.WorkflowStep) (a b : WorkflowStepsList.WorkflowStep) :
  steps !! index = Some a →
  steps !! target = Some b →
  (direction = WorkflowStepsList.up ∧ index = S target)
  ∨ (direction = WorkflowStepsList.down ∧ target = S index) →
  ∃ steps',
    WorkflowStepsList.handleMoveStep index direction steps = Some steps'
    ∧ WorkflowStepsList.numbered steps'
    ∧ length steps' = length steps
    ∧ WorkflowStepsList.content <$> steps'
      = <[target := WorkflowStepsList.content a]>
          (<[index := WorkflowStepsList.content b]>
             (WorkflowStepsList.content <$> steps)).
Proof.
  intros Ha Hb Hdir. eexists. split; [by eapply handleMoveStep_swap|].
  split_and!.
  - apply imap_renumber_numbered.
  - by rewrite length_imap, !length_insert.
  - by rewrite imap_renumber_content, !list_fmap_insert.
Qed.

(** X25.  The buttons never make a move fail: for every position inside
    the list and either direction the handler hands a list over or
    returns, it does not throw.  Moving the first step up, or the last
    one down, leaves the list as it is. *)
Theorem move_step_boundaries (index : nat) (direction : WorkflowStepsList.Direction)
    (steps : list WorkflowStepsList.WorkflowStep) :
  WorkflowStepsList.handleMoveStep 0 WorkflowStepsList.up steps = Some steps
  ∧ (steps ≠ [] →
     WorkflowStepsList.handleMoveStep (length steps - 1) WorkflowStepsList.down steps
     = Some steps)
  ∧ ((index < length steps)%nat →
     is_Some (WorkflowStepsList.handleMoveStep index direction steps)).
Proof.
  split_and!; [done| |].
  - intros Hne. unfold WorkflowStepsList.handleMoveStep.
    assert (Hlen : (0 < length steps)%nat) by (destruct steps; [done|cbn; lia]).
    rewrite (bool_decide_eq_true_2
               (Z.of_nat (length steps - 1) = (Z.of_nat (length steps) - 1)%Z)) by lia.
    rewrite (bool_decide_eq_true_2 (WorkflowStepsList.down = WorkflowStepsList.down))
      by done.
    by rewrite orb_true_r.
  - intros Hlt.
    destruct (WorkflowStepsList.handleMoveStep index direction steps) eqn:Hmove;
      [by eexists|].
    apply handleMoveStep_None in Hmove as [Hge _]. lia.
Qed.

(** X26.  Moving a step of a numbered list up and then down again, or
    down and then up again, gives the list back. *)
Theorem move_step_round_trip (i : nat)
    (steps steps' : list WorkflowStepsList.WorkflowStep) :
  WorkflowStepsList.numbered steps →
  (S i < length steps)%nat →
  (WorkflowStepsList.handleMoveStep (S i) WorkflowStepsList.up steps = Some steps' →
   WorkflowStepsList.handleMoveStep i WorkflowStepsList.down steps' = Some steps)
  ∧ (WorkflowStepsList.handleMoveStep i WorkflowStepsList.down steps = Some steps' →
     WorkflowStepsList.handleMoveStep (S i) WorkflowStepsList.up steps' = Some steps).
Proof.
  intros Hnum Hlt.
  destruct (lookup_lt_is_Some_2 steps i) as [x Hx]; [lia|].
  destruct (lookup_lt_is_Some_2 steps (S i)) as [y Hy]; [lia|].
  split; intros Hmove.
  - rewrite (handleMoveStep_swap (S i) i WorkflowStepsList.up steps y x Hy Hx) in Hmove
      by (left; done).
    injection Hmove as <-.
    destruct (swap_renumber_twice steps (S i) i y x Hnum Hy Hx) as (Hq & Hp & Hback);
      [lia|]. cbn zeta in Hq, Hp, Hback.
    rewrite (handleMoveStep_swap i (S i) WorkflowStepsList.down _ _ _ Hq Hp)
      by (right; done).
    by rewrite Hback.
  - rewrite (handleMoveStep_swap i (S i) WorkflowStepsList.down steps x y Hx Hy) in Hmove
      by (right; done).
    injection Hmove as <-.
    destruct (swap_renumber_twice steps i (S i) x y Hnum Hx Hy) as (Hq & Hp & Hback);
      [lia|]. cbn zeta in Hq, Hp, Hback.
    rewrite (handleMoveStep_swap (S i) i WorkflowStepsList.up _ _ _ Hq Hp)
      by (left; done).
    by rewrite Hback.
Qed.

Lemma editorScenario_numbered : WorkflowStepsList.numbered EditorScenario.steps.
Proof.
  intros i s Hi. destruct i as [|[|[|i]]]; cbn in Hi; [| | |discriminate Hi];
    injection Hi as <-; reflexivity.
Qed.

(** Deleting stepOrder 7, which no step has, removes nothing. *)
Lemma delete_step_renumbers_witness :
  WorkflowStepsList.content <$> WorkflowStepsList.handleDeleteStep 7 EditorScenario.steps
  = WorkflowStepsList.content <$> EditorScenario.steps.
Proof.
  destruct (delete_step_renumbers 7 EditorScenario.steps) as (_ & _ & Hsame).
  apply Hsame. intros s Hin.
  apply list_elem_of_lookup in Hin as [i Hi].
  rewrite (editorScenario_numbered i s Hi).
  pose proof (lookup_lt_Some _ _ _ Hi) as Hlt. cbn in Hlt. lia.
Defined.

(** Deleting the approval of the form, approval, notice list leaves the
    form at 1 and the notice at 2. *)
Lemma delete_step_removes_it_witness :
  WorkflowStepsList.numbered (WorkflowStepsList.handleDeleteStep 2 EditorScenario.steps)
  ∧ length (WorkflowStepsList.handleDeleteStep 2 EditorScenario.steps) = 2%nat.
Proof.
  destruct (delete_step_removes_it EditorScenario.steps 1
              (WorkflowStepsList.mkStep (Some "notice-2") 2 APPROVAL "Approval"
                 (JObject JEnd))
              editorScenario_numbered eq_refl)
    as (Hnum & Hlen & _).
  split; [exact Hnum|]. apply eq_add_S. symmetry. exact Hlen.
Defined.

(** Moving the approval up puts it first, before the form. *)
Lemma move_step_swaps_neighbours_witness :
  ∃ steps',
    WorkflowStepsList.handleMoveStep 1 WorkflowStepsList.up EditorScenario.steps
    = Some steps'
    ∧ WorkflowStepsList.stepType <$> steps' = [APPROVAL; FORM; NOTIFICATION]
    ∧ WorkflowStepsList.stepOrder <$> steps' = [1; 2; 3]%Z.
Proof.
  destruct (move_step_swaps_neighbours 1 0 WorkflowStepsList.up EditorScenario.steps
              (WorkflowStepsList.mkStep (Some "notice-2") 2 APPROVAL "Approval"
                 (JObject JEnd))
              (WorkflowStepsList.mkStep (Some "notice-1") 1 FORM "Request"
                 (JObject JEnd))
              eq_refl eq_refl (or_introl (conj eq_refl eq_refl)))
    as (steps' & Hmove & _).
  exists steps'. split; [exact Hmove|].
  vm_compute in Hmove. injection Hmove as <-. split; reflexivity.
Defined.

(** The last step of the form, approval, notice list cannot move down,
    and moving the approval down does not throw. *)
Lemma move_step_boundaries_witness :
  WorkflowStepsList.handleMoveStep 2 WorkflowStepsList.down EditorScenario.steps
  = Some EditorScenario.steps
  ∧ is_Some (WorkflowStepsList.handleMoveStep 1 WorkflowStepsList.down
               EditorScenario.steps).
Proof.
  destruct (move_step_boundaries 1 WorkflowStepsList.down EditorScenario.steps)
    as (_ & Hlast & Hinside).
  split.
  - apply Hlast. intros Hnil. discriminate Hnil.
  - apply Hinside. cbn. lia.
Defined.

(** Moving the approval up and then down again gives the form, approval,
    notice list back. *)
Lemma move_step_round_trip_witness :
  ∃ steps',
    WorkflowStepsList.handleMoveStep 1 WorkflowStepsList.up EditorScenario.steps
    = Some steps'
    ∧ WorkflowStepsList.handleMoveStep 0 WorkflowStepsList.down steps'
      = Some EditorScenario.steps.
Proof.
  destruct (WorkflowStepsList.handleMoveStep 1 WorkflowStepsList.up EditorScenario.steps)
    as [steps'|] eqn:Hmove; [|vm_compute in Hmove; discriminate Hmove].
  exists steps'. split; [reflexivity|].
  assert (Hlt : (1 < length EditorScenario.steps)%nat) by (cbn; lia).
  destruct (move_step_round_trip 0 EditorScenario.steps steps'
              editorScenario_numbered Hlt) as [Hback _].
  exact (Hback Hmove).
Defined.

(** ** The detail page and the step action *)

(** What a 200 of the detail handler tells. *)
Lemma processDetail_ok (env : Env) (id : string) (d : Db)
    (process : ProcessDetail.ProcessWithHistory) (status : nat) :
  ProcessDetail.GET env id d = NextResponse.json process status →
  ∃ user, session env = Some user
          ∧ ProcessDetail.findProcess d id = Some (Some process).
Proof.
  unfold ProcessDetail.GET. intros H.
  destruct (session env) as [user|]; [|discriminate H].
  destruct (ProcessDetail.findProcess d id) as [[p|]|]; [|discriminate H..].
  destruct (_ && _); [discriminate H|]. injection H as -> _. by exists user.
Qed.

(** The request body the page sends is well formed. *)
Lemma actionRequestBody_parses (action : StepAction.Action) (comments : string) :
  StepAction.actionSchema_safeParse (ProcessDetailPage.actionRequestBody action comments)
  = Some (action, if decide (comments = "") then None else Some comments).
Proof.
  unfold ProcessDetailPage.actionRequestBody.
  destruct (decide (comments = "")); by destruct action.
Qed.

(** A request of the page for the pending approval step of the process
    it has fetched is answered with 200 when the caller may act, whatever
    the status of the process. *)
Lemma detailPage_action_succeeds (pageEnv env : Env) (id : string) (d : Db)
    (process : ProcessDetail.ProcessWithHistory) (pendingStep : StepWithWorkflowStep.t)
    (action : StepAction.Action) (comments : string) :
  ProcessDetail.GET pageEnv id d = NextResponse.json process 200 →
  session env = session pageEnv →
  ProcessDetailPage.canTakeAction (session pageEnv) = true →
  ProcessDetailPage.getPendingApprovalStep (Some process) = Some pendingStep →
  ∃ updatedProcess d',
    ProcessDetailPage.handleAction env process (StepWithWorkflowStep.id pendingStep)
      action comments d
    = (NextResponse.json updatedProcess 200, d').
Proof.
  intros HGET Hsession Hrole Hpending.
  destruct (processDetail_ok _ _ _ _ _ HGET) as (user & Hs & Hfind).
  rewrite Hs in Hsession, Hrole. cbn in Hrole.
  unfold ProcessDetailPage.getPendingApprovalStep in Hpending.
  apply find_Some_elem in Hpending as [Hin Hp].
  apply andb_true_iff in Hp as [Hstatus Hty].
  apply bool_decide_eq_true in Hstatus, Hty.
  unfold ProcessDetail.findProcess in Hfind.
  destruct (processInstances d !! id) as [p|] eqn:Hrow; [|discriminate Hfind].
  destruct (workflowTemplates d !! ProcessInstance.workflowTemplateId p)
    as [w|] eqn:Hw; [|discriminate Hfind].
  cbn in Hfind.
  destruct (stepsOfProcess d id) as [steps|] eqn:Hsteps; [|discriminate Hfind].
  cbn in Hfind. injection Hfind as <-. cbn [ProcessDetail.steps] in Hin.
  destruct (stepsOfProcess_elem _ _ _ _ Hsteps Hin) as (Hsi & Hpid & Hws).
  unfold ProcessDetailPage.handleAction. cbn [ProcessDetail.id].
  eapply (stepAction_succeeds env user id (StepWithWorkflowStep.id pendingStep));
    [exact Hsession | exact Hrole | apply actionRequestBody_parses | | | |].
  - unfold StepAction.findStepInstance. rewrite Hsi, Hws. cbn.
    rewrite Hpid, Hrow. cbn. rewrite Hw. cbn. rewrite Hsteps. cbn. reflexivity.
  - exact Hpid.
  - exact Hstatus.
  - exact Hty.
Qed.

(** X27.  The buttons of the detail page work: when the page has fetched a
    process and shows the Action Required card for a step, each of its
    three buttons, with or without a comment, sends a request that the
    step action handler answers with 200, as long as the database is as it
    was when the page fetched the process. *)
Theorem shown_action_succeeds (pageEnv env : Env) (id : string) (d : Db)
    (process : ProcessDetail.ProcessWithHistory) (pendingStep : StepWithWorkflowStep.t)
    (action : StepAction.Action) (comments : string) :
  ProcessDetail.GET pageEnv id d = NextResponse.json process 200 →
  session env = session pageEnv →
  ProcessDetailPage.actionCard (session pageEnv) (Some process) = Some pendingStep →
  ∃ updatedProcess d',
    ProcessDetailPage.handleAction env process (StepWithWorkflowStep.id pendingStep)
      action comments d
    = (NextResponse.json updatedProcess 200, d').
Proof.
  intros HGET Hsession Hcard.
  unfold ProcessDetailPage.actionCard in Hcard.
  destruct (ProcessDetailPage.getPendingApprovalStep (Some process))
    as [s|] eqn:Hpending; [|discriminate Hcard].
  destruct (_ && _) eqn:Hgate in Hcard; [|discriminate Hcard].
  injection Hcard as ->.
  apply andb_true_iff in Hgate as [Hrole _].
  by eapply detailPage_action_succeeds.
Qed.

(** X28.  The page is stricter than the handler: for a process that is no
    longer IN_PROGRESS the page shows no Action Required card, whoever
    looks at it; yet while the process has a PENDING approval step, the
    request the card would have sent for it is still answered with 200 for
    an approver or administrator.  The handler does not look at the status
    of the process. *)
Theorem hidden_action_is_still_accepted (pageEnv env : Env) (id : string) (d : Db)
    (process : ProcessDetail.ProcessWithHistory) (pendingStep : StepWithWorkflowStep.t)
    (action : StepAction.Action) (comments : string) :
  ProcessDetail.GET pageEnv id d = NextResponse.json process 200 →
  session env = session pageEnv →
  ProcessDetailPage.canTakeAction (session pageEnv) = true →
  ProcessDetailPage.getPendingApprovalStep (Some process) = Some pendingStep →
  ProcessInstance.status (ProcessDetail.row process) ≠ ProcessStatus.IN_PROGRESS →
  ProcessDetailPage.actionCard (session pageEnv) (Some process) = None
  ∧ ∃ updatedProcess d',
      ProcessDetailPage.handleAction env process (StepWithWorkflowStep.id pendingStep)
        action comments d
      = (NextResponse.json updatedProcess 200, d').
Proof.
  intros HGET Hsession Hrole Hpending Hstatus. split.
  - unfold ProcessDetailPage.actionCard. rewrite Hpending, Hrole.
    by rewrite (bool_decide_eq_false_2 _ Hstatus).
  - by eapply detailPage_action_succeeds.
Qed.

(** Bob looks at the process [p-0], whose first approval is pending, and
    presses Approve without a comment. *)
Lemma shown_action_succeeds_witness :
  ∃ process pendingStep updatedProcess d',
    ProcessDetail.GET Scenario.bob "p-0" Scenario.db1 = NextResponse.json process 200
    ∧ ProcessDetailPage.actionCard (session Scenario.bob) (Some process)
      = Some pendingStep
    ∧ StepWithWorkflowStep.id pendingStep = "p-1"
    ∧ ProcessDetailPage.handleAction Scenario.bob process "p-1" StepAction.approve ""
        Scenario.db1
      = (NextResponse.json updatedProcess 200, d').
Proof.
  destruct (ProcessDetail.GET Scenario.bob "p-0" Scenario.db1) as [|process status]
    eqn:HGET; [vm_compute in HGET; discriminate HGET|].
  assert (Hstatus : status = 200%nat).
  { vm_compute in HGET. injection HGET as _ <-. reflexivity. }
  subst status.
  destruct (ProcessDetailPage.actionCard (session Scenario.bob) (Some process))
    as [pendingStep|] eqn:Hcard.
  - assert (Hid : StepWithWorkflowStep.id pendingStep = "p-1").
    { vm_compute in HGET. injection HGET as <-.
      vm_compute in Hcard. injection Hcard as <-. reflexivity. }
    destruct (shown_action_succeeds Scenario.bob Scenario.bob "p-0" Scenario.db1
                process pendingStep StepAction.approve "" HGET eq_refl Hcard)
      as (updated & d' & HPOST).
    rewrite Hid in HPOST. exists process, pendingStep, updated, d'.
    split_and!; [reflexivity | exact Hcard | exact Hid | exact HPOST].
  - vm_compute in HGET. injection HGET as <-.
    vm_compute in Hcard. discriminate Hcard.
Defined.

(** Bob has rejected the first approval of [p-0]: the process is REJECTED
    and its second approval still PENDING.  Eve's page shows no card, and
    the request for the second approval is accepted all the same. *)
Lemma hidden_action_is_still_accepted_witness :
  ∃ process updatedProcess d',
    ProcessDetail.GET Scenario.eve "p-0" Scenario.db2 = NextResponse.json process 200
    ∧ ProcessDetailPage.actionCard (session Scenario.eve) (Some process) = None
    ∧ ProcessDetailPage.handleAction Scenario.eve process "p-2" StepAction.approve ""
        Scenario.db2
      = (NextResponse.json updatedProcess 200, d').
Proof.
  destruct (ProcessDetail.GET Scenario.eve "p-0" Scenario.db2) as [|process status]
    eqn:HGET; [vm_compute in HGET; discriminate HGET|].
  assert (Hstatus : status = 200%nat).
  { vm_compute in HGET. injection HGET as _ <-. reflexivity. }
  subst status.
  destruct (ProcessDetailPage.getPendingApprovalStep (Some process))
    as [pendingStep|] eqn:Hpending.
  - assert (Hid : StepWithWorkflowStep.id pendingStep = "p-2").
    { vm_compute in HGET. injection HGET as <-.
      vm_compute in Hpending. injection Hpending as <-. reflexivity. }
    assert (Hrejected : ProcessInstance.status (ProcessDetail.row process)
                        ≠ ProcessStatus.IN_PROGRESS).
    { vm_compute in HGET. injection HGET as <-. intros Heq. discriminate Heq. }
    destruct (hidden_action_is_still_accepted Scenario.eve Scenario.eve "p-0"
                Scenario.db2 process pendingStep StepAction.approve ""
                HGET eq_refl eq_refl Hpending Hrejected)
      as (Hcard & updated & d' & HPOST).
    rewrite Hid in HPOST. exists process, updated, d'.
    split_and!; [reflexivity | exact Hcard | exact HPOST].
  - vm_compute in HGET. injection HGET as <-.
    vm_compute in Hpending. discriminate Hpending.
Defined.

(** ** Creation is all or nothing *)

(** A creation that commits is read back, so an answer other than 201
    comes from a check or from a transaction that was rolled back. *)
Lemma createProcess_error_unchanged (env : Env) (body : Json) (d d' : Db)
    (resp : CreateProcess.Response) :
  (∀ k r, processStepInstances d !! k = Some r →
          is_Some (processInstances d !! ProcessStepInstance.processInstanceId r)) →
  CreateProcess.POST env body d = (resp, d') →
  NextResponse.ok resp = false →
  d' = d.
Proof.
  intros Hfk HPOST Hok. pose proof HPOST as H. unfold CreateProcess.POST in H.
  destruct (session env) as [user|] eqn:Hs; [|by simplify_eq].
  destruct (CreateProcess.createProcessSchema_safeParse body) as [[tid formData]|]
    eqn:Hbody; [|by simplify_eq].
  destruct (CreateProcess.findWorkflow d tid) as [wl|] eqn:Hwl; [|by simplify_eq].
  destruct (bool_decide (WorkflowTemplate.status (CreateProcess.workflow wl)
                         = WorkflowStatus.ACTIVE)) eqn:Hactive;
    cbn [negb] in H; [|by simplify_eq].
  apply bool_decide_eq_true in Hactive.
  destruct (bool_decide (length (CreateProcess.steps wl) = 0%nat)) eqn:Hlen;
    [by simplify_eq|].
  apply bool_decide_eq_false in Hlen.
  destruct (CreateProcess.create _ _ _ _ _ _) as [[[pi sis] dT]|] eqn:Htx;
    [|by simplify_eq].
  clear H. exfalso.
  unfold CreateProcess.findWorkflow in Hwl.
  destruct (workflowTemplates d !! tid) as [w|] eqn:Hw; [|discriminate Hwl].
  cbn in Hwl. injection Hwl as <-.
  cbn [CreateProcess.workflow CreateProcess.steps] in Hactive, Hlen, Htx.
  unfold CreateProcess.create, tx_bind, processInstance_create in Htx.
  destruct (processInstances d !! cuid env 0%nat) eqn:Hfree; [discriminate Htx|].
  cbn [fst] in Htx.
  destruct (CreateProcess.createStepInstances _ _ _ _ _ _ _) as [[sis' d1]|] eqn:Hrun;
    [|discriminate Htx].
  destruct (createStepInstances_spec _ _ _ _ _ _ _ _ _ Hrun) as (_ & Hrows & Hinj & _).
  cbn [processStepInstances set_processInstances] in Hrows.
  destruct (createProcess_succeeds env user body tid formData w d)
    as (cp & d'' & HPOST' & _); try done.
  - intros Hnil. apply Hlen. by rewrite Hnil.
  - intros i Hi. apply lookup_lt_is_Some in Hi as [step Hi].
    by destruct (Hrows i step Hi) as [Hnone _].
  - intros i j Hi Hj Heq.
    apply lookup_lt_is_Some in Hi as [step Hi]. apply lookup_lt_is_Some in Hj as [step' Hj].
    by eapply (Hinj i j).
  - rewrite HPOST in HPOST'. injection HPOST' as -> _. discriminate Hok.
Qed.

(** X29.  Creation is all or nothing: in a database in which every step
    instance belongs to a process, either the answer is an error and
    nothing has been written (no process, no step instance, no audit
    entry, no notification), or the answer is 201 and carries the process
    that is now stored under the generated key, which was unused before.
    The checks come before the transaction, a transaction that fails (a
    key in use) is rolled back, and one that commits is always read
    back. *)
Theorem creation_is_all_or_nothing (env : Env) (body : Json) (d d' : Db)
    (resp : CreateProcess.Response) :
  (∀ k r, processStepInstances d !! k = Some r →
          is_Some (processInstances d !! ProcessStepInstance.processInstanceId r)) →
  CreateProcess.POST env body d = (resp, d') →
  (NextResponse.ok resp = false ∧ d' = d)
  ∨ (∃ completeProcess,
       resp = NextResponse.json (Some completeProcess) 201
       ∧ ProcessWithSteps.id completeProcess = cuid env 0%nat
       ∧ processInstances d !! cuid env 0%nat = None
       ∧ processInstances d' !! cuid env 0%nat
         = Some (ProcessWithSteps.row completeProcess)).
Proof.
  intros Hfk HPOST. destruct (NextResponse.ok resp) eqn:Hok.
  - right. pose proof Hok as Hok'.
    destruct (createProcess_response _ _ _ _ _ HPOST Hok) as (fetched & -> & Hfetch).
    destruct (createProcess_committed _ _ _ _ _ HPOST Hok')
      as (user & tid & fd & _ & _ & _ & Hfree & Hp & _ & _ & _ & [l Hl]).
    cbn zeta in Hfree, Hp, Hl.
    assert (Hrow : processInstances d' !! cuid env 0%nat
                   = Some (ProcessInstance.mk tid (SessionUser.id user) fd
                             ProcessStatus.IN_PROGRESS)).
    { rewrite Hp. apply lookup_insert_eq. }
    unfold findProcessWithSteps in Hfetch. rewrite Hrow, Hl in Hfetch.
    cbn in Hfetch. injection Hfetch as <-.
    eexists. split_and!; [reflexivity|reflexivity|exact Hfree|exact Hrow].
  - left. split; [reflexivity|].
    by eapply createProcess_error_unchanged.
Qed.

(** Ann asks for a process of a template that does not exist: nothing is
    written. *)
Lemma creation_is_all_or_nothing_witness :
  (CreateProcess.POST (Scenario.ann "p") (Scenario.createBody "none") Scenario.db0).2
  = Scenario.db0.
Proof.
  pose (r := CreateProcess.POST (Scenario.ann "p") (Scenario.createBody "none")
               Scenario.db0).
  assert (H1 : CreateProcess.POST (Scenario.ann "p") (Scenario.createBody "none")
                 Scenario.db0 = (r.1, r.2)) by apply surjective_pairing.
  assert (H2 : NextResponse.ok r.1 = false) by (vm_compute; reflexivity).
  destruct (creation_is_all_or_nothing (Scenario.ann "p") (Scenario.createBody "none")
              Scenario.db0 r.2 r.1) as [[_ Hd]|(cp & Hresp & _)].
  - intros k r0 Hk. cbn [Scenario.db0 processStepInstances] in Hk.
    rewrite lookup_empty in Hk. discriminate Hk.
  - exact H1.
  - exact Hd.
  - rewrite Hresp in H2. discriminate H2.
Defined.

(** ** Every step instance belongs to a process

    The condition creation is proved under, that every step instance
    belongs to a process, holds in the database without processes and is
    kept by every handler that writes. *)

(** X30.  Referential integrity is kept: when every step instance belongs
    to a process, this is still so after a step action, after a creation
    and after a status change of a template, whatever their answer. *)
Theorem step_instances_keep_their_process (d d' : Db) :
  (∀ k r, processStepInstances d !! k = Some r →
          is_Some (processInstances d !! ProcessStepInstance.processInstanceId r)) →
  (∃ env processId stepId body resp,
     StepAction.POST env processId stepId body d = (resp, d'))
  ∨ (∃ env body resp, CreateProcess.POST env body d = (resp, d'))
  ∨ (∃ env id body resp, StatusRoute.PATCH env id body d = (resp, d')) →
  ∀ k r, processStepInstances d' !! k = Some r →
         is_Some (processInstances d' !! ProcessStepInstance.processInstanceId r).
Proof.
  intros Hfk [H|[H|H]] k r' Hk.
  - destruct H as (env & processId & stepId & body & resp & HPOST).
    destruct (stepAction_sameRelations _ _ _ _ _ _ _ HPOST) as (_ & Hrel & Htpl).
    specialize (Hrel k). rewrite Hk in Hrel.
    destruct (processStepInstances d !! k) as [r|] eqn:Hr; [|discriminate Hrel].
    cbn in Hrel. injection Hrel as Hpid _.
    destruct (Hfk k r Hr) as [p Hp]. rewrite <- Hpid in Hp.
    specialize (Htpl (ProcessStepInstance.processInstanceId r')). rewrite Hp in Htpl.
    destruct (processInstances d' !! _); [by eexists|discriminate Htpl].
  - destruct H as (env & body & resp & HPOST).
    destruct (NextResponse.ok resp) eqn:Hok.
    + destruct (createProcess_committed _ _ _ _ _ HPOST Hok)
        as (user & tid & fd & _ & _ & _ & _ & Hp & Hrows & _ & Hframe & _).
      cbn zeta in Hp, Hrows, Hframe. rewrite Hp.
      destruct (decide (k ∈ (λ i, cuid env (S i))
                            <$> seq 0 (length (stepsOfTemplate d tid)))) as [Hin|Hnot].
      * apply list_elem_of_fmap in Hin as (i & -> & Hi).
        apply elem_of_seq in Hi as [_ Hi]. cbn in Hi.
        apply lookup_lt_is_Some in Hi as [step Hi].
        destruct (Hrows i step Hi) as [_ Hrow]. rewrite Hrow in Hk.
        injection Hk as <-. cbn. rewrite lookup_insert_eq. by eexists.
      * rewrite Hframe in Hk.
        2:{ intros i Hi ->. apply Hnot, list_elem_of_fmap. exists i.
            split; [done|]. apply elem_of_seq. cbn. lia. }
        destruct (Hfk k r' Hk) as [p Hp0].
        destruct (decide (cuid env 0%nat = ProcessStepInstance.processInstanceId r'))
          as [<-|Hne].
        -- rewrite lookup_insert_eq. by eexists.
        -- rewrite lookup_insert_ne by done. by eexists.
    + rewrite (createProcess_error_unchanged _ _ _ _ _ Hfk HPOST Hok) in Hk |- *.
      by eapply Hfk.
  - destruct H as (env & id & body & resp & HPATCH).
    destruct (NextResponse.ok resp) eqn:Hok.
    + destruct (statusRoute_ok _ _ _ _ _ _ HPATCH Hok)
        as (user & status & w & _ & _ & _ & _ & _ & _ & Hd').
      rewrite Hd' in Hk |- *. by eapply Hfk.
    + rewrite (statusRoute_error_unchanged _ _ _ _ _ _ HPATCH Hok) in Hk |- *.
      by eapply Hfk.
Qed.

(** The step instance [p-1] of the database after Ann's first creation
    belongs to a process. *)
Lemma step_instances_keep_their_process_witness :
  let r := CreateProcess.POST (Scenario.ann "p") (Scenario.createBody "two")
             Scenario.db0 in
  ∃ row, processStepInstances r.2 !! "p-1" = Some row
         ∧ is_Some (processInstances r.2 !! ProcessStepInstance.processInstanceId row).
Proof.
  intros r.
  assert (H1 : CreateProcess.POST (Scenario.ann "p") (Scenario.createBody "two")
                 Scenario.db0 = (r.1, r.2)) by apply surjective_pairing.
  destruct (processStepInstances r.2 !! "p-1") as [row|] eqn:Hrow;
    [|vm_compute in Hrow; discriminate Hrow].
  exists row. split; [reflexivity|].
  apply (step_instances_keep_their_process Scenario.db0 r.2) with (k := "p-1").
  - intros k r0 Hk. cbn [Scenario.db0 processStepInstances] in Hk.
    rewrite lookup_empty in Hk. discriminate Hk.
  - right. left.
    exists (Scenario.ann "p"), (Scenario.createBody "two"), r.1. exact H1.
  - exact Hrow.
Defined.
